(** * go-cli bootstrap: paths, configuration, logging and runtime context

    A shallow embedding of the Go template under [go-cli/]: the files
    [internal/app/util.go], [internal/app/config.go],
    [internal/app/flags.go] and [internal/app/context.go], the path
    resolver ([DiscoverPaths] to [defaultCacheDir]) and the logger
    ([Level] to [shouldColorize]) of the same package, and the
    persistent pre-run hook of [cmd/root.go].

    Go strings are byte strings ([string]); [int] is [Z]; a nilable
    pointer is an [option]; [(T, error)] is [result T].  The process
    environment is an explicit read-only record [Host]; the file system,
    the open-file table, the standard error stream and the log of system
    calls form the mutable [World] that effectful functions thread
    through a small state-and-error monad.  Calls run one after the
    other: the logger's mutex has no counterpart here. *)

From Stdlib Require Import ZArith Ascii String List Bool.
From stdpp Require Import base option strings gmap pretty.

Local Open Scope string_scope.
Local Open Scope Z_scope.

(** ** Errors and results *)

Inductive error : Type :=
  | ErrHomeNotDefined (var : string)      (* os.UserHomeDir and friends *)
  | ErrExpand (path : string) (cause : error)
  | ErrDetermineHome (cause : error)
  | ENOENT (path : string)
  | EEXIST (path : string)
  | EBADF
  | ENOTDIR (path : string)
  | EISDIR (path : string)
  | EACCES (path : string)
  | ErrFileClosed (path : string)         (* os.ErrClosed *)
  | ErrStatConfig (cause : error)
  | ErrCreateConfigDir (cause : error)
  | ErrWriteConfig (cause : error)
  | ErrConfigParse (path : string)
  | ErrDecodeConfig (field : string)
  | ErrExpandLogFile (cause : error)
  | ErrCreatingDirectory (dir : string) (cause : error)
  | ErrOpenLogFile (path : string) (cause : error)
  | ErrConflictingOutputFormat
  | ErrInvalidColor (value : string).

Inductive result (A : Type) : Type :=
  | Ok (a : A)
  | Err (e : error).
Arguments Ok {A} a.
Arguments Err {A} e.

Definition is_ok {A} (r : result A) : bool :=
  match r with Ok _ => true | Err _ => false end.

(** ** Byte-string helpers (package strings) *)

Module Strings.

(** [strings.HasPrefix(s, pre)] *)
Fixpoint HasPrefix (s pre : string) {struct pre} : bool :=
  match pre, s with
  | EmptyString, _ => true
  | String a p, String b r => Ascii.eqb a b && HasPrefix r p
  | String _ _, EmptyString => false
  end.

Definition lower_byte (c : ascii) : ascii :=
  let n := nat_of_ascii c in
  if (65 <=? n)%nat && (n <=? 90)%nat then ascii_of_nat (n + 32) else c.

(** [strings.ToLower] on the ASCII range; bytes above 127 are kept.  Go
    also folds non-ASCII letters, none of which lower-cases to a letter
    of the level names compared against below. *)
Fixpoint ToLower (s : string) : string :=
  match s with
  | EmptyString => EmptyString
  | String c r => String (lower_byte c) (ToLower r)
  end.

Definition upper_byte (c : ascii) : ascii :=
  let n := nat_of_ascii c in
  if (97 <=? n)%nat && (n <=? 122)%nat then ascii_of_nat (n - 32) else c.

Fixpoint ToUpper (s : string) : string :=
  match s with
  | EmptyString => EmptyString
  | String c r => String (upper_byte c) (ToUpper r)
  end.

(** [s[n:]] *)
Fixpoint drop (n : nat) (s : string) : string :=
  match n, s with
  | O, _ => s
  | S n', String _ r => drop n' r
  | S _, EmptyString => EmptyString
  end.

(** [s[:n]] *)
Fixpoint take (n : nat) (s : string) : string :=
  match n, s with
  | O, _ => EmptyString
  | S n', String c r => String c (take n' r)
  | S _, EmptyString => EmptyString
  end.

(** [strings.Split(s, sep)] for a one-byte separator. *)
Fixpoint split_acc (sep : ascii) (acc : string) (s : string) : list string :=
  match s with
  | EmptyString => [String.rev acc]
  | String c r =>
      if Ascii.eqb c sep then String.rev acc :: split_acc sep EmptyString r
      else split_acc sep (String c acc) r
  end.

Definition Split (sep : ascii) (s : string) : list string :=
  split_acc sep EmptyString s.

(** [strings.Join(elems, sep)] *)
Fixpoint Join (elems : list string) (sep : string) : string :=
  match elems with
  | [] => ""
  | [e] => e
  | e :: rest => e +:+ sep +:+ Join rest sep
  end.

(** [strings.NewReplacer(old, new).Replace(s)] for a one-byte [old]. *)
Fixpoint Replace1 (old : ascii) (new : string) (s : string) : string :=
  match s with
  | EmptyString => EmptyString
  | String c r =>
      if Ascii.eqb c old then new +:+ Replace1 old new r
      else String c (Replace1 old new r)
  end.

End Strings.

(** ** The process environment *)

Inductive GOOS : Type := linux | darwin | windows.

Global Instance GOOS_eq_dec : EqDecision GOOS.
Proof. solve_decision. Defined.

(** What a process can read but not change during bootstrap:
    [runtime.GOOS], the environment variables, the paths on which the
    operating system refuses every operation, what [Stat] of the standard
    error stream reports ([None]: the call fails; [Some b]: whether the
    mode has [os.ModeCharDevice]) and the wall clock as formatted by
    [time.RFC3339]. *)
Record Host : Type := mkHost {
  goos : GOOS;
  environ : gmap string string;
  denied : gset string;
  stderr_stat : option bool;
  clock : string
}.

(** [os.Getenv]: the empty string when the variable is unset. *)
Definition Getenv (h : Host) (name : string) : string :=
  default "" (environ h !! name).

(** [os.LookupEnv] *)
Definition LookupEnv (h : Host) (name : string) : option string :=
  environ h !! name.

(** [os.UserHomeDir] *)
Definition UserHomeDir (h : Host) : result string :=
  let '(env, enverr) :=
    match goos h with
    | windows => ("USERPROFILE", "%userprofile%")
    | _ => ("HOME", "$HOME")
    end in
  let v := Getenv h env in
  if decide (v <> "") then Ok v else Err (ErrHomeNotDefined enverr).

(** ** Shell-style expansion (os.Expand, os.ExpandEnv) *)

Module OsExpand.

Definition byte_in (c : ascii) (lo hi : string) : bool :=
  match lo, hi with
  | String l _, String u _ =>
      (nat_of_ascii l <=? nat_of_ascii c)%nat && (nat_of_ascii c <=? nat_of_ascii u)%nat
  | _, _ => false
  end.

Definition isShellSpecialVar (c : ascii) : bool :=
  existsb (Ascii.eqb c)
    (list_ascii_of_string "*#$@!?-0123456789").

Definition isAlphaNum (c : ascii) : bool :=
  Ascii.eqb c "_" || byte_in c "0" "9" || byte_in c "a" "z" || byte_in c "A" "Z".

(** Index of the first ["}"] at or after position [i] of the text whose
    suffix from [i] is [s]. *)
Fixpoint closing_brace (i : nat) (s : string) : option nat :=
  match s with
  | EmptyString => None
  | String c r => if Ascii.eqb c "}" then Some i else closing_brace (S i) r
  end.

Fixpoint alnum_len (s : string) : nat :=
  match s with
  | String c r => if isAlphaNum c then S (alnum_len r) else O
  | EmptyString => O
  end.

(** [getShellName(s)] for non-empty [s]: the name and the number of
    bytes consumed. *)
Definition getShellName (s : string) : string * nat :=
  match s with
  | String "{" r =>
      if match r with
         | String c1 (String "}" _) => isShellSpecialVar c1
         | _ => false
         end
      then (Strings.take 1 r, 3%nat)
      else
        match closing_brace 1 r with
        | Some i =>
            if (i =? 1)%nat then ("", 2%nat)
            else (Strings.take (i - 1) r, S i)
        | None => ("", 1%nat)
        end
  | String c r =>
      if isShellSpecialVar c then (String c "", 1%nat)
      else let i := alnum_len s in (Strings.take i s, i)
  | EmptyString => ("", 0%nat)
  end.

(** [os.Expand(s, mapping)]; every round consumes at least one byte, so
    [length s] rounds always suffice. *)
Fixpoint expand_loop (fuel : nat) (mapping : string -> string) (s : string) : string :=
  match fuel with
  | O => s
  | S fuel' =>
      match s with
      | EmptyString => EmptyString
      | String c r =>
          if Ascii.eqb c "$" && negb (String.eqb r "") then
            let '(name, w) := getShellName r in
            let piece :=
              if String.eqb name "" then
                (if (0 <? w)%nat then "" else "$")
              else mapping name in
            piece +:+ expand_loop fuel' mapping (Strings.drop w r)
          else String c (expand_loop fuel' mapping r)
      end
  end.

Definition Expand (s : string) (mapping : string -> string) : string :=
  expand_loop (String.length s) mapping s.

Definition ExpandEnv (h : Host) (s : string) : string :=
  Expand s (Getenv h).

End OsExpand.

(** ** Lexical path processing (path/filepath, slash-separated) *)

Module Filepath.

Definition Separator : ascii := "/".

(** One step of [Clean]'s scan over an element, on the reversed list
    of elements kept so far. *)
Definition clean_step (rooted : bool) (out : list string) (elem : string) : list string :=
  if String.eqb elem "" || String.eqb elem "." then out
  else if String.eqb elem ".." then
    match out with
    | top :: below =>
        if String.eqb top ".." then ".." :: out else below
    | [] => if rooted then [] else [".."]
    end
  else elem :: out.

(** [filepath.Clean]: drops empty and ["."] elements, resolves inner
    [".."] elements, drops [".."] at the root, and returns ["."] for an
    empty result. *)
Definition Clean (path : string) : string :=
  match path with
  | EmptyString => "."
  | String c _ =>
      let rooted := Ascii.eqb c Separator in
      let elems := rev (fold_left (clean_step rooted) (Strings.Split Separator path) []) in
      let body := Strings.Join elems "/" in
      if rooted then String Separator body
      else if String.eqb body "" then "." else body
  end.

(** [filepath.Join]: leading empty elements are skipped; the rest is
    joined with the separator and cleaned; all empty gives [""]. *)
Fixpoint Join (elem : list string) : string :=
  match elem with
  | [] => ""
  | e :: rest =>
      if String.eqb e "" then Join rest
      else Clean (Strings.Join elem "/")
  end.

(** Position just after the last separator. *)
Fixpoint last_sep (i : nat) (acc : nat) (s : string) : nat :=
  match s with
  | EmptyString => acc
  | String c r => last_sep (S i) (if Ascii.eqb c Separator then S i else acc) r
  end.

(** [filepath.Dir] *)
Definition Dir (path : string) : string :=
  Clean (Strings.take (last_sep 0 0 path) path).

End Filepath.

(** ** util.go *)

(** [expandPath] *)
Definition expandPath (h : Host) (path : string) : result string :=
  if String.eqb path "" then Ok ""
  else
    let result0 := OsExpand.ExpandEnv h path in
    if Strings.HasPrefix result0 "~" then
      match UserHomeDir h with
      | Err e => Err (ErrExpand path e)
      | Ok home =>
          let result1 :=
            if String.eqb result0 "~" then home
            else if Strings.HasPrefix result0 "~/" then
              Filepath.Join [home; Strings.drop 2 result0]
            else result0 in
          Ok (Filepath.Clean result1)
      end
    else Ok (Filepath.Clean result0).

(** [toEnvPrefix], byte by byte (the application name is ASCII). *)
Definition toEnvPrefix_byte (r : ascii) : ascii :=
  if OsExpand.byte_in r "a" "z" then ascii_of_nat (nat_of_ascii r - 32)
  else if OsExpand.byte_in r "A" "Z" then r
  else if OsExpand.byte_in r "0" "9" then r
  else "_"%char.

Fixpoint toEnvPrefix (name : string) : string :=
  match name with
  | EmptyString => EmptyString
  | String r rest => String (toEnvPrefix_byte r) (toEnvPrefix rest)
  end.

(** ** The mutable world: files, open handles, standard error *)

Inductive Node : Type :=
  | File (content : string)
  | Directory.

(** [io.Writer] values the logger is given. *)
Inductive Writer : Type :=
  | Stderr
  | Discard
  | FileWriter (fd : nat).

Global Instance Node_eq_dec : EqDecision Node.
Proof. solve_decision. Defined.
Global Instance Writer_eq_dec : EqDecision Writer.
Proof. solve_decision. Defined.

Inductive Syscall : Type :=
  | SysStat (path : string)
  | SysReadFile (path : string)
  | SysMkdir (path : string)
  | SysWriteFile (path : string)
  | SysOpenFile (path : string)
  | SysWrite (w : Writer) (data : string)
  | SysClose (fd : nat).

(** [files] maps a cleaned path to what is there; [handles] is the table
    of files opened so far (path, still open?), a descriptor being an
    index into it; [stderr] is what was printed; [trace] lists the system
    calls made, most recent first.

    A file is known by the path it was opened with: two names of one
    file (a relative and an absolute path, a link, a device file such as
    [/dev/stderr]) are not identified.  What the theorems say about the
    files a logger leaves alone is therefore stated for loggers that
    write into no file, or in terms of the handles the logger holds.
    The standard error stream is taken to be a stream of its own, none
    of the files. *)
Record World : Type := mkWorld {
  files : gmap string Node;
  handles : list (string * bool);
  stderr : string;
  trace : list Syscall
}.

Definition M (A : Type) : Type := World -> result A * World.

Definition ret {A} (a : A) : M A := fun w => (Ok a, w).
Definition fail {A} (e : error) : M A := fun w => (Err e, w).
Definition bind {A B} (m : M A) (k : A -> M B) : M B :=
  fun w => match m w with
           | (Ok a, w') => k a w'
           | (Err e, w') => (Err e, w')
           end.
(** Run [m] and hand its outcome, error or not, to [k]. *)
Definition attempt {A B} (m : M A) (k : result A -> M B) : M B :=
  fun w => let '(r, w') := m w in k r w'.
Definition lift {A} (r : result A) : M A := fun w => (r, w).

Notation "'let*' x ':=' m 'in' k" := (bind m (fun x => k))
  (at level 10, x name, m at level 100, k at level 200).
Notation "m '>>' k" := (bind m (fun _ => k))
  (at level 90, right associativity).

Definition log_call (c : Syscall) : M unit :=
  fun w => (Ok tt, mkWorld (files w) (handles w) (stderr w) (c :: trace w)).

Definition set_files (f : gmap string Node -> gmap string Node) : M unit :=
  fun w => (Ok tt, mkWorld (f (files w)) (handles w) (stderr w) (trace w)).

(** ** Package os over the world *)

Section Os.
Variable h : Host.

(** The root and the working directory are always there. *)
Definition node_at (w : World) (path : string) : option Node :=
  if String.eqb path "/" || String.eqb path "." then Some Directory
  else files w !! path.

(** The directories above [path], nearest first. *)
Fixpoint ancestors (fuel : nat) (path : string) : list string :=
  match fuel with
  | O => []
  | S fuel' =>
      let d := Filepath.Dir path in
      if String.eqb d path then [] else d :: ancestors fuel' d
  end.

Definition is_file (w : World) (path : string) : bool :=
  match node_at w path with Some (File _) => true | _ => false end.

(** The error for a name that is not there: [ENOTDIR] when something
    above it is a regular file, [ENOENT] otherwise. *)
Definition missing (w : World) (path : string) : error :=
  if existsb (is_file w) (ancestors (String.length path) path)
  then ENOTDIR path else ENOENT path.

(** [os.Stat] (and [os.Lstat]: there are no links in the model). *)
Definition Stat (path : string) : M Node :=
  log_call (SysStat path) >>
  fun w =>
    if decide (path ∈ denied h) then (Err (EACCES path), w)
    else match node_at w path with
         | Some n => (Ok n, w)
         | None => (Err (missing w path), w)
         end.

(** [os.IsNotExist] *)
Definition IsNotExist (e : error) : bool :=
  match e with ENOENT _ => true | _ => false end.

Definition IsDir (n : Node) : bool :=
  match n with Directory => true | File _ => false end.

(** [os.Mkdir] *)
Definition Mkdir (path : string) : M unit :=
  log_call (SysMkdir path) >>
  fun w =>
    if decide (path ∈ denied h) then (Err (EACCES path), w)
    else match node_at w path with
         | Some _ => (Err (EEXIST path), w)
         | None =>
             match node_at w (Filepath.Dir path) with
             | Some Directory => set_files (insert path Directory) w
             | Some (File _) => (Err (ENOTDIR path), w)
             | None => (Err (missing w path), w)
             end
         end.

(** Length of [path] without its trailing separators. *)
Fixpoint rstrip_len (i : nat) (acc : nat) (s : string) : nat :=
  match s with
  | EmptyString => acc
  | String c r =>
      rstrip_len (S i) (if Ascii.eqb c Filepath.Separator then acc else S i) r
  end.

(** The parent [MkdirAll] creates first: [path[:j-1]] where [j] is the
    start of the last element, when [j > 1]. *)
Definition mkdirall_parent (path : string) : option string :=
  let i := rstrip_len 0 0 path in
  let j := Filepath.last_sep 0 0 (Strings.take i path) in
  if (1 <? j)%nat then Some (Strings.take (j - 1) path) else None.

(** [os.MkdirAll]; the parent is strictly shorter than the path, so
    [length path] rounds always suffice. *)
Fixpoint MkdirAll_loop (fuel : nat) (path : string) : M unit :=
  attempt (Stat path) (fun st =>
    match st with
    | Ok dir => if IsDir dir then ret tt else fail (ENOTDIR path)
    | Err _ =>
        (match mkdirall_parent path, fuel with
         | Some parent, S fuel' => MkdirAll_loop fuel' parent
         | _, _ => ret tt
         end) >>
        attempt (Mkdir path) (fun mk =>
          match mk with
          | Ok _ => ret tt
          | Err err =>
              attempt (Stat path) (fun st1 =>
                match st1 with
                | Ok dir => if IsDir dir then ret tt else fail err
                | Err _ => fail err
                end)
          end)
    end).

Definition MkdirAll (path : string) : M unit :=
  MkdirAll_loop (String.length path) path.

(** [os.WriteFile]: create or truncate, then write. *)
Definition WriteFile (path : string) (data : string) : M unit :=
  log_call (SysWriteFile path) >>
  fun w =>
    if decide (path ∈ denied h) then (Err (EACCES path), w)
    else match node_at w path with
         | Some Directory => (Err (EISDIR path), w)
         | Some (File _) => set_files (insert path (File data)) w
         | None =>
             match node_at w (Filepath.Dir path) with
             | Some Directory => set_files (insert path (File data)) w
             | Some (File _) => (Err (ENOTDIR path), w)
             | None => (Err (missing w path), w)
             end
         end.

(** [os.ReadFile] *)
Definition ReadFile (path : string) : M string :=
  log_call (SysReadFile path) >>
  fun w =>
    if decide (path ∈ denied h) then (Err (EACCES path), w)
    else match node_at w path with
         | Some (File c) => (Ok c, w)
         | Some Directory => (Err (EISDIR path), w)
         | None => (Err (missing w path), w)
         end.

Definition push_handle (path : string) : M nat :=
  fun w => (Ok (length (handles w)),
            mkWorld (files w) (handles w ++ [(path, true)]) (stderr w) (trace w)).

(** [os.OpenFile(path, O_APPEND|O_CREATE|O_WRONLY, 0o644)] *)
Definition OpenFileAppend (path : string) : M nat :=
  log_call (SysOpenFile path) >>
  fun w =>
    if decide (path ∈ denied h) then (Err (EACCES path), w)
    else match node_at w path with
         | Some Directory => (Err (EISDIR path), w)
         | Some (File _) => push_handle path w
         | None =>
             match node_at w (Filepath.Dir path) with
             | Some Directory =>
                 (set_files (insert path (File "")) >> push_handle path) w
             | Some (File _) => (Err (ENOTDIR path), w)
             | None => (Err (missing w path), w)
             end
         end.

(** [Close] of an [os.File]: a second call reports [os.ErrClosed]. *)
Definition CloseFile (fd : nat) : M unit :=
  log_call (SysClose fd) >>
  fun w =>
    match handles w !! fd with
    | Some (path, true) =>
        (Ok tt, mkWorld (files w) (<[fd := (path, false)]> (handles w))
                        (stderr w) (trace w))
    | Some (path, false) => (Err (ErrFileClosed path), w)
    | None => (Err EBADF, w)
    end.

(** [io.WriteString(w, s)]; a file opened for appending grows at its
    end. *)
Definition WriteString (wr : Writer) (data : string) : M unit :=
  match wr with
  | Discard => ret tt
  | Stderr =>
      log_call (SysWrite Stderr data) >>
      fun w => (Ok tt, mkWorld (files w) (handles w) (stderr w +:+ data) (trace w))
  | FileWriter fd =>
      log_call (SysWrite wr data) >>
      fun w =>
        match handles w !! fd with
        | Some (path, true) =>
            match files w !! path with
            | Some (File c) => set_files (insert path (File (c +:+ data))) w
            | _ => (Err (ENOENT path), w)
            end
        | Some (path, false) => (Err (ErrFileClosed path), w)
        | None => (Err EBADF, w)
        end
  end.

(** [isTerminal]: [Stat] of the stream and the character-device bit
    of its mode.  The standard error stream is the only one it is ever
    asked about; a file opened by path in this model is a regular file,
    and the discard sink is no file at all. *)
Definition isTerminal (f : option Writer) : bool :=
  match f with
  | None => false
  | Some Stderr =>
      match stderr_stat h with
      | None => false
      | Some chardev => chardev
      end
  | Some (FileWriter _) => false
  | Some Discard => false
  end.

End Os.

(** ** TOML documents

    What [toml.Unmarshal] stores into a [map[string]any], after viper
    has lower-cased the keys: a tree of tables whose leaves are values.
    A float is kept by what decoding can observe of it: its text
    ([strconv.FormatFloat(f, 'f', -1, 64)]), its conversion [int64(f)],
    and whether it differs from zero.  An array is a leaf that no field
    of the configuration can be decoded from.  A date or a time is a
    record ([time.Time], or one of the decoder's local date and time
    types) none of whose fields is named after a key of the
    configuration: no scalar field can be decoded from it, and a table
    of the configuration decodes from it with nothing set.

    The decoder itself (go-toml) is not part of this repository: it is
    a parameter [Decoder] of everything that reads a configuration file.
    Below is a decoder for a fragment of TOML, for the examples: comment
    lines, one level of [[table]] headers, and [key = value] lines whose
    value is a basic string without escapes, a decimal integer or a
    boolean, each optionally followed by a comment, in printable ASCII.
    Keys are bare keys.  Everything else is reported as a syntax
    error. *)

Module Toml.

Inductive Value : Type :=
  | VString (s : string)
  | VInteger (n : Z)
  | VBoolean (b : bool)
  | VFloat (text : string) (whole : Z) (nonzero : bool)
  | VTime
  | VOpaque.

#[warnings="-register-all"] Inductive Tree : Type :=
  | Leaf (v : Value)
  | Branch (entries : list (string * Tree)).

Definition Document : Type := list (string * Tree).

(** [m[key]] *)
Fixpoint entry (entries : list (string * Tree)) (key : string) : option Tree :=
  match entries with
  | [] => None
  | (k, t) :: rest => if String.eqb k key then Some t else entry rest key
  end.

(** [toml.Unmarshal] into a map, keys lower-cased; [None] is a syntax
    error. *)
Class Decoder : Type := Unmarshal : string -> option Document.

Inductive Item : Type :=
  | Scalar (v : Value)
  | Table (t : gmap string Value).

Definition is_space (c : ascii) : bool :=
  Ascii.eqb c " " || (nat_of_ascii c =? 9)%nat.

Fixpoint ltrim (s : string) : string :=
  match s with
  | String c r => if is_space c then ltrim r else s
  | EmptyString => EmptyString
  end.

Definition rtrim (s : string) : string := String.rev (ltrim (String.rev s)).
Definition trim (s : string) : string := rtrim (ltrim s).

Definition all_bytes (p : ascii -> bool) (s : string) : bool :=
  forallb p (list_ascii_of_string s).

Definition is_digit (c : ascii) : bool := OsExpand.byte_in c "0" "9".

Definition is_bare_key (s : string) : bool :=
  negb (String.eqb s "") &&
  all_bytes (fun c => OsExpand.isAlphaNum c || Ascii.eqb c "-") s.

(** Text before and after the first occurrence of [c]. *)
Fixpoint cut (c : ascii) (s : string) : option (string * string) :=
  match s with
  | EmptyString => None
  | String d r =>
      if Ascii.eqb d c then Some (EmptyString, r)
      else match cut c r with
           | Some (a, b) => Some (String d a, b)
           | None => None
           end
  end.

(** Nothing but blanks and possibly a comment. *)
Definition trailing_ok (s : string) : bool :=
  match ltrim s with
  | EmptyString => true
  | String c _ => Ascii.eqb c "#"
  end.

Definition plain_byte (c : ascii) : bool :=
  let n := nat_of_ascii c in
  (32 <=? n)%nat && negb (n =? 127)%nat && negb (Ascii.eqb c "\").

Fixpoint digits_value (acc : Z) (s : string) : Z :=
  match s with
  | EmptyString => acc
  | String c r => digits_value (10 * acc + Z.of_nat (nat_of_ascii c - 48)) r
  end.

Definition in_int64 (n : Z) : bool :=
  (- 2 ^ 63 <=? n) && (n <=? 2 ^ 63 - 1).

(** Decimal integers: an optional sign, no leading zero, 64 bits. *)
Definition parse_decimal (s : string) : option Z :=
  let '(neg, body) :=
    match s with
    | String "-" r => (true, r)
    | String "+" r => (false, r)
    | _ => (false, s)
    end in
  if negb (String.eqb body "") && all_bytes is_digit body &&
     (String.eqb body "0" || negb (Strings.HasPrefix body "0")) then
    let n := digits_value 0 body in
    let n := if neg then - n else n in
    if in_int64 n then Some n else None
  else None.

Definition dquote : ascii := ascii_of_nat 34.

Definition parse_bare (s : string) : option Value :=
  let token := rtrim (match cut "#" s with Some (a, _) => a | None => s end) in
  if String.eqb token "true" then Some (VBoolean true)
  else if String.eqb token "false" then Some (VBoolean false)
  else VInteger <$> parse_decimal token.

Definition parse_value (s : string) : option Value :=
  match s with
  | String c r =>
      if Ascii.eqb c dquote then
        match cut dquote r with
        | Some (body, rest) =>
            if all_bytes plain_byte body && trailing_ok rest
            then Some (VString body) else None
        | None => None
        end
      else parse_bare s
  | EmptyString => None
  end.

(** The table being filled and the document read so far. *)
Definition state : Type := option string * gmap string Item.

Definition strip_cr (s : string) : string :=
  match String.rev s with
  | String c r => if (nat_of_ascii c =? 13)%nat then String.rev r else s
  | EmptyString => s
  end.

(** Printable ASCII and the tab. *)
Definition text_byte (c : ascii) : bool :=
  let n := nat_of_ascii c in
  (n =? 9)%nat || ((32 <=? n)%nat && (n <=? 126)%nat).

Definition parse_line (st : state) (raw : string) : option state :=
  let '(current, doc) := st in
  let line := ltrim (strip_cr raw) in
  if negb (all_bytes text_byte line) then None else
  match line with
  | EmptyString => Some st
  | String "#" _ => Some st
  | String "[" r =>
      match cut "]" r with
      | Some (name, rest) =>
          let name := Strings.ToLower (trim name) in
          if is_bare_key name && trailing_ok rest then
            match doc !! name with
            | None => Some (Some name, <[name := Table ∅]> doc)
            | Some _ => None
            end
          else None
      | None => None
      end
  | _ =>
      match cut "=" line with
      | Some (key, rhs) =>
          let key := Strings.ToLower (trim key) in
          if is_bare_key key then
            match parse_value (ltrim rhs) with
            | Some v =>
                match current with
                | None =>
                    match doc !! key with
                    | None => Some (None, <[key := Scalar v]> doc)
                    | Some _ => None
                    end
                | Some tname =>
                    match doc !! tname with
                    | Some (Table t) =>
                        match t !! key with
                        | None => Some (current, <[tname := Table (<[key := v]> t)]> doc)
                        | Some _ => None
                        end
                    | _ => None
                    end
                end
            | None => None
            end
          else None
      | None => None
      end
  end.

Fixpoint parse_lines (st : state) (lines : list string) : option state :=
  match lines with
  | [] => Some st
  | l :: rest =>
      match parse_line st l with
      | Some st' => parse_lines st' rest
      | None => None
      end
  end.

Definition newline : ascii := ascii_of_nat 10.

Definition parse (text : string) : option (gmap string Item) :=
  snd <$> parse_lines (None, ∅) (Strings.Split newline text).

(** The fragment's documents as trees. *)
Definition tree_of (it : Item) : Tree :=
  match it with
  | Scalar v => Leaf v
  | Table t => Branch (prod_map id Leaf <$> map_to_list t)
  end.

Definition document_of (doc : gmap string Item) : Document :=
  prod_map id tree_of <$> map_to_list doc.

Definition fragment : Decoder := fun text => document_of <$> parse text.

End Toml.

(** ** strconv.ParseInt with base 0, as the weakly typed decoding of a
    string into an [int] calls it: an optional sign, then a prefix
    [0b], [0o] or [0x], or a leading [0] for octal, otherwise decimal;
    underscores may separate digits; the value must fit 64 bits. *)

Module Strconv.

Definition digit (c : ascii) : option Z :=
  if OsExpand.byte_in c "0" "9" then Some (Z.of_nat (nat_of_ascii c) - 48)
  else if OsExpand.byte_in (Strings.lower_byte c) "a" "z"
       then Some (Z.of_nat (nat_of_ascii (Strings.lower_byte c)) - 97 + 10)
       else None.

(** The digit loop of [ParseUint]. *)
Fixpoint digits (base : Z) (n : Z) (s : string) : option Z :=
  match s with
  | EmptyString => Some n
  | String c r =>
      if Ascii.eqb c "_" then digits base n r
      else match digit c with
           | Some d => if d <? base then digits base (n * base + d) r else None
           | None => None
           end
  end.

Inductive seen : Type := SeenStart | SeenDigit | SeenUnderscore | SeenOther.

Fixpoint underscore_scan (hex : bool) (last : seen) (s : string) : bool :=
  match s with
  | EmptyString => match last with SeenUnderscore => false | _ => true end
  | String c r =>
      if OsExpand.byte_in c "0" "9" ||
         (hex && OsExpand.byte_in (Strings.lower_byte c) "a" "f")
      then underscore_scan hex SeenDigit r
      else if Ascii.eqb c "_" then
        match last with
        | SeenDigit => underscore_scan hex SeenUnderscore r
        | _ => false
        end
      else match last with
           | SeenUnderscore => false
           | _ => underscore_scan hex SeenOther r
           end
  end.

(** [underscoreOK]: underscores only between digits, or between the
    base prefix and a digit. *)
Definition underscoreOK (s : string) : bool :=
  let s := match s with
           | String "-" r => r
           | String "+" r => r
           | _ => s
           end in
  match s with
  | String "0" (String c r) =>
      let l := Strings.lower_byte c in
      if Ascii.eqb l "b" || Ascii.eqb l "o" || Ascii.eqb l "x"
      then underscore_scan (Ascii.eqb l "x") SeenDigit r
      else underscore_scan false SeenStart s
  | _ => underscore_scan false SeenStart s
  end.

Definition has_underscore (s : string) : bool :=
  existsb (Ascii.eqb "_") (list_ascii_of_string s).

(** [ParseUint(s, 0, 64)], without the upper bound, which [ParseInt]
    checks again. *)
Definition ParseUint (s : string) : option Z :=
  match s with
  | EmptyString => None
  | String c r =>
      let '(base, body) :=
        if Ascii.eqb c "0" then
          match r with
          | String p (String _ _ as r') =>
              let l := Strings.lower_byte p in
              if Ascii.eqb l "b" then (2, r')
              else if Ascii.eqb l "o" then (8, r')
              else if Ascii.eqb l "x" then (16, r')
              else (8, r)
          | _ => (8, r)
          end
        else (10, s) in
      match digits base 0 body with
      | Some n => if has_underscore body && negb (underscoreOK s) then None else Some n
      | None => None
      end
  end.

(** [ParseInt(s, 0, 64)] *)
Definition ParseInt (s : string) : option Z :=
  match s with
  | EmptyString => None
  | String c r =>
      let '(neg, body) :=
        if Ascii.eqb c "+" then (false, r)
        else if Ascii.eqb c "-" then (true, r)
        else (false, s) in
      match ParseUint body with
      | Some un =>
          if neg then (if un <=? 2 ^ 63 then Some (- un) else None)
          else (if un <? 2 ^ 63 then Some un else None)
      | None => None
      end
  end.

End Strconv.

(** ** viper, as far as config.go uses it

    A model of the library's lookup and decoding rules.  Sources in
    decreasing precedence: the environment (automatic, with
    prefix and key replacer), the configuration file, the defaults.  A
    key is known when the file or the defaults define it; only known keys
    are decoded, and a key whose lookup yields nothing leaves its field
    as it was.  Field names are compared as they are: the keys of the
    document are lower-cased, and the decoder's fallback comparison
    without regard to case ([strings.EqualFold]) adds nothing for ASCII
    keys.

    The library collects the settings by walking Go maps, whose order of
    iteration is not fixed.  The order shows only when a name is both a
    value and a table (one key extends another by a dot, which takes a
    quoted key in the file): the entry written last then replaces the
    other.  The model takes the order in which a value stored under a
    table name is written first, and a value stored under a key after
    the keys below it; [clash_free] says that no two names clash, so
    that the order does not matter. *)

Module Viper.
Import Toml.

Record t : Type := mk {
  configFile : string;
  envPrefix : string;
  envKeyReplacer : string -> string;
  automaticEnv : bool;
  defaults : gmap string Value;
  config : Document
}.

Definition New : t := mk "" "" (fun s => s) false ∅ [].

Definition SetConfigFile (v : t) (path : string) : t :=
  mk path (envPrefix v) (envKeyReplacer v) (automaticEnv v) (defaults v) (config v).
Definition SetEnvPrefix (v : t) (p : string) : t :=
  mk (configFile v) p (envKeyReplacer v) (automaticEnv v) (defaults v) (config v).
Definition SetEnvKeyReplacer (v : t) (r : string -> string) : t :=
  mk (configFile v) (envPrefix v) r (automaticEnv v) (defaults v) (config v).
Definition AutomaticEnv (v : t) : t :=
  mk (configFile v) (envPrefix v) (envKeyReplacer v) true (defaults v) (config v).
Definition SetDefault (v : t) (key : string) (val : Value) : t :=
  mk (configFile v) (envPrefix v) (envKeyReplacer v) (automaticEnv v)
     (<[Strings.ToLower key := val]> (defaults v)) (config v).
Definition set_config (v : t) (doc : Document) : t :=
  mk (configFile v) (envPrefix v) (envKeyReplacer v) (automaticEnv v) (defaults v) doc.

(** [ReadInConfig]: read the file named by [SetConfigFile] and decode
    it; the read error is returned as it is. *)
Definition ReadInConfig {D : Decoder} (h : Host) (v : t) : M t :=
  let* text := ReadFile h (configFile v) in
  match Unmarshal text with
  | Some doc => ret (set_config v doc)
  | None => fail (ErrConfigParse (configFile v))
  end.

Definition mergeWithEnvPrefix (v : t) (key : string) : string :=
  if String.eqb (envPrefix v) "" then Strings.ToUpper key
  else Strings.ToUpper (envPrefix v +:+ "_" +:+ key).

(** [getEnv]: an empty variable counts as unset. *)
Definition getEnv (h : Host) (v : t) (name : string) : option string :=
  match LookupEnv h (envKeyReplacer v name) with
  | Some val => if String.eqb val "" then None else Some val
  | None => None
  end.

(** A key path is one name, or a table name and a name. *)
Definition key_of (path : list string) : string := Strings.Join path ".".

(** A value that is no table is stored under the key. *)
Definition leaf_at (doc : Document) (key : string) : bool :=
  match entry doc key with
  | Some (Leaf _) => true
  | _ => false
  end.

(** [searchIndexableWithPathPrefixes] in the file's document: the
    longest prefix of the path is tried first, so an entry stored under
    the dotted name itself is found before the entry of the table. *)
Definition in_config (v : t) (path : list string) : option Tree :=
  match path with
  | [k] => entry (config v) k
  | [tname; k] =>
      match entry (config v) (key_of path) with
      | Some x => Some x
      | None =>
          match entry (config v) tname with
          | Some (Branch tb) => entry tb k
          | _ => None
          end
      end
  | _ => None
  end.

(** [isPathShadowedInDeepMap]: a value that is no table, stored under
    the table name, hides the keys below it. *)
Definition shadowed_in_config (v : t) (path : list string) : bool :=
  match path with
  | [tname; _] => leaf_at (config v) tname
  | _ => false
  end.

(** [isPathShadowedInAutoEnv] *)
Definition shadowed_in_env (h : Host) (v : t) (path : list string) : bool :=
  match path with
  | [tname; _] => bool_decide (is_Some (getEnv h v (mergeWithEnvPrefix v tname)))
  | _ => false
  end.

(** [find]: environment, then file, then default. *)
Definition find (h : Host) (v : t) (path : list string) : option Tree :=
  match (if automaticEnv v then getEnv h v (mergeWithEnvPrefix v (key_of path)) else None) with
  | Some val => Some (Leaf (VString val))
  | None =>
      if automaticEnv v && shadowed_in_env h v path then None
      else match in_config v path with
           | Some it => Some it
           | None =>
               if shadowed_in_config v path then None
               else Leaf <$> defaults v !! key_of path
           end
  end.

(** [flattenAndMergeMap] on the file's document: the dotted names of
    its leaves. *)
Fixpoint flatten_tree (key : string) (tr : Tree) : list string :=
  match tr with
  | Leaf _ => [key]
  | Branch entries =>
      (fix each (entries : list (string * Tree)) : list string :=
         match entries with
         | [] => []
         | (k, sub) :: rest => (flatten_tree (key +:+ "." +:+ k) sub ++ each rest)%list
         end) entries
  end.

Fixpoint flatten (doc : Document) : list string :=
  match doc with
  | [] => []
  | (k, tr) :: rest => (flatten_tree k tr ++ flatten rest)%list
  end.

(** The dotted name of the path is among the flattened names of the
    file: a leaf stored under the dotted name itself, or a leaf of the
    table. *)
Definition in_file (v : t) (path : list string) : bool :=
  match path with
  | [k] => leaf_at (config v) k
  | [tname; k] =>
      leaf_at (config v) (key_of path) ||
      match entry (config v) tname with
      | Some (Branch tb) => leaf_at tb k
      | _ => false
      end
  | _ => false
  end.

(** Membership in [AllKeys]: a leaf of the file, or a default that no
    leaf of the file stored under its table name hides. *)
Definition known (v : t) (path : list string) : bool :=
  in_file v path ||
  (bool_decide (is_Some (defaults v !! key_of path)) &&
   negb (shadowed_in_config v path)).

(** The proper prefixes of a dotted name that end at a dot. *)
Fixpoint parents (seen : string) (key : string) : list string :=
  match key with
  | EmptyString => []
  | String c r =>
      if Ascii.eqb c "." then seen :: parents (seen +:+ ".") r
      else parents (seen +:+ String c "") r
  end.

(** Whether [Get] of a leaf of the file yields a value: its own
    variable is set, or no variable named after one of its parents is. *)
Definition leaf_has_value (h : Host) (v : t) (key : string) : bool :=
  negb (automaticEnv v) ||
  bool_decide (is_Some (getEnv h v (mergeWithEnvPrefix v key))) ||
  forallb (fun p => negb (bool_decide (is_Some (getEnv h v (mergeWithEnvPrefix v p)))))
          (parents "" key).

(** Leaves of the file strictly below the key that have a value:
    [AllSettings] then holds a table under the key. *)
Definition below (h : Host) (v : t) (path : list string) : bool :=
  existsb (fun key => Strings.HasPrefix key (key_of path +:+ ".") && leaf_has_value h v key)
          (flatten (config v)).

(** The dotted names [AllKeys] can list: the leaves of the file and the
    defaults. *)
Definition all_names (v : t) : list string :=
  (flatten (config v) ++ (map_to_list (defaults v)).*1)%list.

(** No name extends another by a dot. *)
Definition clash_free (v : t) : bool :=
  forallb (fun k1 =>
    forallb (fun k2 => negb (Strings.HasPrefix k2 (k1 +:+ "."))) (all_names v))
    (all_names v).

(** What [AllSettings] holds for a key. *)
Definition setting (h : Host) (v : t) (path : list string) : option Tree :=
  match (if known v path then find h v path else None) with
  | Some it => Some it
  | None => if below h v path then Some (Branch []) else None
  end.

(** Weakly typed decoding (mapstructure with [WeaklyTypedInput]). *)
Definition decode_string (field : string) (it : Tree) : result string :=
  match it with
  | Leaf (VString s) => Ok s
  | Leaf (VInteger n) => Ok (pretty n)
  | Leaf (VBoolean b) => Ok (if b then "1" else "0")
  | Leaf (VFloat text _ _) => Ok text
  | Leaf VTime => Err (ErrDecodeConfig field)
  | Leaf VOpaque => Err (ErrDecodeConfig field)
  | Branch _ => Err (ErrDecodeConfig field)
  end.

Definition decode_int (field : string) (it : Tree) : result Z :=
  match it with
  | Leaf (VInteger n) => Ok n
  | Leaf (VBoolean b) => Ok (if b then 1 else 0)
  | Leaf (VString s) =>
      if String.eqb s "" then Ok 0
      else match Strconv.ParseInt s with
           | Some n => Ok n
           | None => Err (ErrDecodeConfig field)
           end
  | Leaf (VFloat _ whole _) => Ok whole
  | Leaf VTime => Err (ErrDecodeConfig field)
  | Leaf VOpaque => Err (ErrDecodeConfig field)
  | Branch _ => Err (ErrDecodeConfig field)
  end.

Definition decode_bool (field : string) (it : Tree) : result bool :=
  match it with
  | Leaf (VBoolean b) => Ok b
  | Leaf (VInteger n) => Ok (negb (n =? 0))
  | Leaf (VString s) =>
      if existsb (String.eqb s) ["1"; "t"; "T"; "TRUE"; "true"; "True"] then Ok true
      else if existsb (String.eqb s) [""; "0"; "f"; "F"; "FALSE"; "false"; "False"] then Ok false
      else Err (ErrDecodeConfig field)
  | Leaf (VFloat _ _ nonzero) => Ok nonzero
  | Leaf VTime => Err (ErrDecodeConfig field)
  | Leaf VOpaque => Err (ErrDecodeConfig field)
  | Branch _ => Err (ErrDecodeConfig field)
  end.

(** Decode one key into a field, keeping [old] when there is no
    setting for it. *)
Definition field {A} (h : Host) (v : t) (path : list string)
    (dec : string -> Tree -> result A) (old : A) : result A :=
  match setting h v path with
  | Some it => dec (key_of path) it
  | None => Ok old
  end.

(** A struct-valued field cannot be decoded from a value that is
    neither a table nor a record: the file stores a value under the
    name, [Get] yields it or the variable named after it, and
    [AllSettings] holds no table in its place (no key below the name has
    a value). *)
Definition section (h : Host) (v : t) (name : string) : result unit :=
  if below h v [name] then Ok tt
  else match (if known v [name] then find h v [name] else None) with
       | Some (Leaf VTime) => Ok tt
       | Some (Leaf _) => Err (ErrDecodeConfig name)
       | _ => Ok tt
       end.

End Viper.

Definition rbind {A B} (r : result A) (k : A -> result B) : result B :=
  match r with
  | Ok a => k a
  | Err e => Err e
  end.

Definition rmap {A B} (f : A -> B) (r : result A) : result B :=
  match r with
  | Ok a => Ok (f a)
  | Err e => Err e
  end.

Notation "'let+' x ':=' m 'in' k" := (rbind m (fun x => k))
  (at level 10, x name, m at level 100, k at level 200).

(** ** context.go: the application name *)

Definition appName : string := "go-cli".

(** [EnvPrefix] *)
Definition EnvPrefix : string := toEnvPrefix appName.

(** ** flags.go *)

Record CommonFlags : Type := mkCommonFlags {
  ConfigPath : string;
  Quiet : bool;
  Verbose : Z;
  Debug : bool;
  Trace : bool;
  JSON : bool;
  YAML : bool;
  NoColor : bool;
  Color : string;
  DryRun : bool;
  AssumeYes : bool;
  TimeoutSeconds : option Z;
  Parallelism : option Z;
  NoProgress : bool;
  Diagnostics : bool
}.

(** [CommonFlags.ValidateColor] *)
Definition ValidateColor (c : CommonFlags) : result unit :=
  if existsb (String.eqb (Color c)) [""; "auto"; "always"; "never"] then Ok tt
  else Err (ErrInvalidColor (Color c)).

(** ** config.go: the configuration document *)

Record LoggingConfig : Type := mkLoggingConfig {
  Logging_Level : string;
  Logging_File : string
}.

Record RuntimeConfig : Type := mkRuntimeConfig {
  Runtime_Parallelism : option Z;
  Runtime_TimeoutSeconds : option Z;
  Runtime_FailFast : bool
}.

Record PathsConfig : Type := mkPathsConfig {
  Paths_DataDir : string;
  Paths_StateDir : string
}.

Record AppConfig : Type := mkAppConfig {
  Profile : string;
  Logging : LoggingConfig;
  Runtime : RuntimeConfig;
  Paths : PathsConfig
}.

(** ** The path resolver: the resolved locations *)

Record AppPaths : Type := mkAppPaths {
  ConfigFile : string;
  DataDir : string;
  StateDir : string
}.

Definition nl : string := String Toml.newline "".
Definition dq : string := String Toml.dquote "".

(** [defaultConfigHeader] *)
Definition defaultConfigHeader (path : string) : string :=
  "# Configuration for " +:+ appName +:+ nl +:+ "# File: " +:+ path +:+ nl +:+ nl.

(** [defaultConfigBody] *)
Definition defaultConfigBody : string :=
  "profile = " +:+ dq +:+ "default" +:+ dq +:+ nl +:+
  nl +:+
  "[logging]" +:+ nl +:+
  "# Valid levels: error, warn, info, debug, trace" +:+ nl +:+
  "level = " +:+ dq +:+ "info" +:+ dq +:+ nl +:+
  "# Optional path for log file output; supports ~ and environment variables." +:+ nl +:+
  "# file = " +:+ dq +:+ "~/Library/Logs/" +:+ appName +:+ ".log" +:+ dq +:+ nl +:+
  nl +:+
  "[runtime]" +:+ nl +:+
  "# Override the worker pool size; defaults to logical CPU count when unset." +:+ nl +:+
  "# parallelism = 8" +:+ nl +:+
  "# Timeout in seconds for long-running operations." +:+ nl +:+
  "timeout = 60" +:+ nl +:+
  "fail_fast = true" +:+ nl +:+
  nl +:+
  "[paths]" +:+ nl +:+
  "# Uncomment to move persistent data/state to custom directories." +:+ nl +:+
  "# data_dir = " +:+ dq +:+ "$XDG_DATA_HOME/" +:+ appName +:+ dq +:+ nl +:+
  "# state_dir = " +:+ dq +:+ "$XDG_STATE_HOME/" +:+ appName +:+ dq +:+ nl.

(** [defaultConfig] *)
Definition defaultConfig : AppConfig :=
  let defaultTimeout := 60 in
  {| Profile := "default";
     Logging := {| Logging_Level := "info"; Logging_File := "" |};
     Runtime := {| Runtime_Parallelism := None;
                   Runtime_TimeoutSeconds := Some defaultTimeout;
                   Runtime_FailFast := true |};
     Paths := {| Paths_DataDir := ""; Paths_StateDir := "" |} |}.

Section App.
Context {D : Toml.Decoder}.
Variable h : Host.

(** [writeDefaultConfig] *)
Definition writeDefaultConfig (path : string) : M unit :=
  attempt (MkdirAll h (Filepath.Dir path)) (fun r =>
    match r with
    | Err err => fail (ErrCreateConfigDir err)
    | Ok _ =>
        let body := defaultConfigHeader path +:+ defaultConfigBody in
        attempt (WriteFile h path body) (fun r =>
          match r with
          | Err err => fail (ErrWriteConfig err)
          | Ok _ => ret tt
          end)
    end).

(** [v.Unmarshal(&cfg)] for [AppConfig]: every field with a setting is
    decoded over the value [cfg] already has. *)
Definition Unmarshal (v : Viper.t) (cfg : AppConfig) : result AppConfig :=
  let+ profile := Viper.field h v ["profile"] Viper.decode_string (Profile cfg) in
  let+ _ := Viper.section h v "logging" in
  let+ level := Viper.field h v ["logging"; "level"] Viper.decode_string
                  (Logging_Level (Logging cfg)) in
  let+ file := Viper.field h v ["logging"; "file"] Viper.decode_string
                 (Logging_File (Logging cfg)) in
  let+ _ := Viper.section h v "runtime" in
  let+ parallelism := Viper.field h v ["runtime"; "parallelism"]
                        (fun f it => rmap Some (Viper.decode_int f it))
                        (Runtime_Parallelism (Runtime cfg)) in
  let+ timeout := Viper.field h v ["runtime"; "timeout"]
                    (fun f it => rmap Some (Viper.decode_int f it))
                    (Runtime_TimeoutSeconds (Runtime cfg)) in
  let+ fail_fast := Viper.field h v ["runtime"; "fail_fast"] Viper.decode_bool
                      (Runtime_FailFast (Runtime cfg)) in
  let+ _ := Viper.section h v "paths" in
  let+ data_dir := Viper.field h v ["paths"; "data_dir"] Viper.decode_string
                     (Paths_DataDir (Paths cfg)) in
  let+ state_dir := Viper.field h v ["paths"; "state_dir"] Viper.decode_string
                      (Paths_StateDir (Paths cfg)) in
  Ok {| Profile := profile;
        Logging := {| Logging_Level := level; Logging_File := file |};
        Runtime := {| Runtime_Parallelism := parallelism;
                      Runtime_TimeoutSeconds := timeout;
                      Runtime_FailFast := fail_fast |};
        Paths := {| Paths_DataDir := data_dir; Paths_StateDir := state_dir |} |}.

(** [errors.As(err, &notFound)] for [viper.ConfigFileNotFoundError]:
    [ReadInConfig] raises it only when it searches for a file by name,
    never for a file given through [SetConfigFile]. *)
Definition is_ConfigFileNotFoundError (err : error) : bool := false.

(** [LoadOrInitConfig] *)
Definition LoadOrInitConfig (paths : AppPaths) (flags : CommonFlags) : M AppConfig :=
  attempt (Stat h (ConfigFile paths)) (fun r =>
    match r with
    | Err err =>
        if IsNotExist err then
          if DryRun flags then
            WriteString Stderr
              ("dry-run: would create default config at " +:+ ConfigFile paths +:+ nl)
          else writeDefaultConfig (ConfigFile paths)
        else fail (ErrStatConfig err)
    | Ok _ => ret tt
    end) >>
  let cfg := defaultConfig in
  let v := Viper.New in
  let v := Viper.SetConfigFile v (ConfigFile paths) in
  let v := Viper.SetEnvPrefix v EnvPrefix in
  let v := Viper.SetEnvKeyReplacer v (Strings.Replace1 "." "__") in
  let v := Viper.AutomaticEnv v in
  let v := Viper.SetDefault v "profile" (Toml.VString (Profile cfg)) in
  let v := Viper.SetDefault v "logging.level" (Toml.VString (Logging_Level (Logging cfg))) in
  let v := Viper.SetDefault v "runtime.timeout" (Toml.VInteger 60) in
  let v := Viper.SetDefault v "runtime.fail_fast" (Toml.VBoolean true) in
  let* v := attempt (Viper.ReadInConfig h v) (fun r =>
              match r with
              | Err err =>
                  if negb (is_ConfigFileNotFoundError err) &&
                     negb (DryRun flags && IsNotExist err)
                  then fail err else ret v
              | Ok v' => ret v'
              end) in
  let* cfg := lift (Unmarshal v cfg) in
  let* cfg :=
    if negb (String.eqb (Logging_File (Logging cfg)) "") then
      match expandPath h (Logging_File (Logging cfg)) with
      | Err err => fail (ErrExpandLogFile err)
      | Ok expanded =>
          ret {| Profile := Profile cfg;
                 Logging := {| Logging_Level := Logging_Level (Logging cfg);
                               Logging_File := expanded |};
                 Runtime := Runtime cfg;
                 Paths := Paths cfg |}
      end
    else ret cfg in
  let cfg :=
    match Runtime_TimeoutSeconds (Runtime cfg) with
    | None =>
        let defaultTimeout := 60 in
        {| Profile := Profile cfg;
           Logging := Logging cfg;
           Runtime := {| Runtime_Parallelism := Runtime_Parallelism (Runtime cfg);
                         Runtime_TimeoutSeconds := Some defaultTimeout;
                         Runtime_FailFast := Runtime_FailFast (Runtime cfg) |};
           Paths := Paths cfg |}
    | Some _ => cfg
    end in
  ret cfg.

End App.

(** ** The path resolver *)

Section Paths.
Variable h : Host.

(** [os.UserConfigDir] *)
Definition UserConfigDir : result string :=
  match goos h with
  | windows =>
      let dir := Getenv h "APPDATA" in
      if String.eqb dir "" then Err (ErrHomeNotDefined "%AppData%") else Ok dir
  | darwin =>
      let dir := Getenv h "HOME" in
      if String.eqb dir "" then Err (ErrHomeNotDefined "$HOME")
      else Ok (dir +:+ "/Library/Application Support")
  | linux =>
      let dir := Getenv h "XDG_CONFIG_HOME" in
      if String.eqb dir "" then
        let dir := Getenv h "HOME" in
        if String.eqb dir "" then Err (ErrHomeNotDefined "$XDG_CONFIG_HOME, $HOME")
        else Ok (dir +:+ "/.config")
      else Ok dir
  end.

(** [os.UserCacheDir] *)
Definition UserCacheDir : result string :=
  match goos h with
  | windows =>
      let dir := Getenv h "LOCALAPPDATA" in
      if String.eqb dir "" then Err (ErrHomeNotDefined "%LocalAppData%") else Ok dir
  | darwin =>
      let dir := Getenv h "HOME" in
      if String.eqb dir "" then Err (ErrHomeNotDefined "$HOME")
      else Ok (dir +:+ "/Library/Caches")
  | linux =>
      let dir := Getenv h "XDG_CACHE_HOME" in
      if String.eqb dir "" then
        let dir := Getenv h "HOME" in
        if String.eqb dir "" then Err (ErrHomeNotDefined "$XDG_CACHE_HOME, $HOME")
        else Ok (dir +:+ "/.cache")
      else Ok dir
  end.

Definition nonempty (s : string) : bool := negb (String.eqb s "").

(** [defaultConfigDir] *)
Definition defaultConfigDir (app : string) : result string :=
  let dir := Getenv h "XDG_CONFIG_HOME" in
  if nonempty dir then Ok (Filepath.Join [dir; app])
  else
    let dir := Getenv h "APPDATA" in
    if bool_decide (goos h = windows) && nonempty dir then Ok (Filepath.Join [dir; app])
    else
      let found :=
        match UserConfigDir with
        | Ok dir => if nonempty dir then Some dir else None
        | Err _ => None
        end in
      match found with
      | Some dir => Ok (Filepath.Join [dir; app])
      | None =>
          match UserHomeDir h with
          | Err err => Err (ErrDetermineHome err)
          | Ok home => Ok (Filepath.Join [home; ".config"; app])
          end
      end.

(** [defaultDataDir] *)
Definition defaultDataDir (app : string) : result string :=
  let dir := Getenv h "XDG_DATA_HOME" in
  if nonempty dir then Ok (Filepath.Join [dir; app])
  else
    let dir := Getenv h "LOCALAPPDATA" in
    if bool_decide (goos h = windows) && nonempty dir then Ok (Filepath.Join [dir; app])
    else
      let found :=
        match UserCacheDir with
        | Ok dir => if nonempty dir && bool_decide (goos h = darwin) then Some dir else None
        | Err _ => None
        end in
      match found with
      | Some dir => Ok (Filepath.Join [dir; app])
      | None =>
          match UserHomeDir h with
          | Err err => Err (ErrDetermineHome err)
          | Ok home => Ok (Filepath.Join [home; ".local"; "share"; app])
          end
      end.

(** [defaultStateDir] *)
Definition defaultStateDir (app : string) : result string :=
  let dir := Getenv h "XDG_STATE_HOME" in
  if nonempty dir then Ok (Filepath.Join [dir; app])
  else
    let dir := Getenv h "LOCALAPPDATA" in
    if bool_decide (goos h = windows) && nonempty dir then Ok (Filepath.Join [dir; app])
    else
      match UserHomeDir h with
      | Err err => Err (ErrDetermineHome err)
      | Ok home => Ok (Filepath.Join [home; ".local"; "state"; app])
      end.

(** [resolveConfigFile] *)
Definition resolveConfigFile (app : string) (override : string) : M string :=
  if nonempty override then
    let* path := lift (expandPath h override) in
    attempt (Stat h path) (fun r =>
      match r with
      | Ok info =>
          if IsDir info then ret (Filepath.Join [path; "config.toml"]) else ret path
      | Err _ => ret path
      end)
  else
    let* dir := lift (defaultConfigDir app) in
    ret (Filepath.Join [dir; "config.toml"]).

(** [DiscoverPaths] *)
Definition DiscoverPaths (app : string) (override : string) : M AppPaths :=
  let* configFile := resolveConfigFile app override in
  let* dataDir := lift (defaultDataDir app) in
  let* stateDir := lift (defaultStateDir app) in
  ret {| ConfigFile := configFile; DataDir := dataDir; StateDir := stateDir |}.

(** [ApplyPathOverrides]: no file-system access, hence a plain
    [result]. *)
Definition ApplyPathOverrides (paths : AppPaths) (cfg : AppConfig) : result AppPaths :=
  let current := paths in
  let+ current :=
    if nonempty (Paths_DataDir (Paths cfg)) then
      let+ value := expandPath h (Paths_DataDir (Paths cfg)) in
      Ok {| ConfigFile := ConfigFile current; DataDir := value;
            StateDir := StateDir current |}
    else Ok current in
  let+ current :=
    if nonempty (Paths_StateDir (Paths cfg)) then
      let+ value := expandPath h (Paths_StateDir (Paths cfg)) in
      Ok {| ConfigFile := ConfigFile current; DataDir := DataDir current;
            StateDir := value |}
    else Ok current in
  Ok current.

(** The loop of [EnsureDirectories]. *)
Fixpoint ensure_each (dirs : list string) : M unit :=
  match dirs with
  | [] => ret tt
  | dir :: rest =>
      if String.eqb dir "" then ensure_each rest
      else
        attempt (MkdirAll h dir) (fun r =>
          match r with
          | Err err => fail (ErrCreatingDirectory dir err)
          | Ok _ => ensure_each rest
          end)
  end.

(** [EnsureDirectories] *)
Definition EnsureDirectories (paths : AppPaths) (flags : CommonFlags) : M unit :=
  if DryRun flags then ret tt
  else ensure_each [DataDir paths; StateDir paths].

End Paths.

(** ** The logger *)

(** [Level]: severities in ascending order of verbosity. *)
Inductive Level : Type :=
  | LevelError
  | LevelWarn
  | LevelInfo
  | LevelDebug
  | LevelTrace.

Global Instance Level_eq_dec : EqDecision Level.
Proof. solve_decision. Defined.

(** The integer behind a [Level] ([iota]). *)
Definition rank (l : Level) : Z :=
  match l with
  | LevelError => 0
  | LevelWarn => 1
  | LevelInfo => 2
  | LevelDebug => 3
  | LevelTrace => 4
  end.

Record LogSettings : Type := mkLogSettings {
  Log_Level : Level;
  Log_Diagnostics : bool;
  Log_Colorize : bool;
  Log_Writers : list Writer;
  Log_FileHandle : option nat
}.

Record Logger : Type := mkLogger {
  settings : LogSettings
}.

(** [ConfigureLogger] *)
Definition ConfigureLogger (s : LogSettings) : Logger :=
  let s :=
    if (length (Log_Writers s) =? 0)%nat then
      {| Log_Level := Log_Level s; Log_Diagnostics := Log_Diagnostics s;
         Log_Colorize := Log_Colorize s; Log_Writers := [Discard];
         Log_FileHandle := Log_FileHandle s |}
    else s in
  {| settings := s |}.

Definition esc : string := String (ascii_of_nat 27) "".

(** [levelAttributes]; the [default] arm of the switch is for integers
    that name no level. *)
Definition levelAttributes (level : Level) : string * string :=
  match level with
  | LevelError => ("ERROR", esc +:+ "[31m")
  | LevelWarn => ("WARN", esc +:+ "[33m")
  | LevelInfo => ("INFO", esc +:+ "[36m")
  | LevelDebug => ("DEBUG", esc +:+ "[35m")
  | LevelTrace => ("TRACE", esc +:+ "[34m")
  end.

(** [resetColor] *)
Definition resetColor : string := esc +:+ "[0m".

(** [fmt.Sprintf] restricted to the verb [%s] over string arguments. *)
Fixpoint Sprintf (format : string) (args : list string) : string :=
  match format with
  | String "%" (String "s" r) =>
      match args with
      | a :: rest => a +:+ Sprintf r rest
      | [] => "%!s(MISSING)" +:+ Sprintf r []
      end
  | String c r => String c (Sprintf r args)
  | EmptyString => EmptyString
  end.

(** The verb [%-5s]: pad on the right to five columns. *)
Definition pad5 (s : string) : string :=
  s +:+ String.concat "" (repeat " " (5 - String.length s)).

Section Logging.
Variable h : Host.

(** [formatMessage] *)
Definition formatMessage (level : Level) (s : LogSettings)
    (msg : string) (args : list string) : string :=
  let body := Sprintf msg args in
  let '(levelLabel, color) := levelAttributes level in
  let levelLabel :=
    if Log_Colorize s && nonempty color then color +:+ levelLabel +:+ resetColor
    else levelLabel in
  if Log_Diagnostics s then
    let timestamp := clock h in
    "[" +:+ timestamp +:+ "] " +:+ pad5 levelLabel +:+ " " +:+ body
  else pad5 levelLabel +:+ " " +:+ body.

(** The [range] over the writers in [Logger.log]; write errors are
    dropped. *)
Fixpoint write_each (writers : list Writer) (formatted : string) : M unit :=
  match writers with
  | [] => ret tt
  | w :: rest =>
      attempt (WriteString w formatted) (fun _ =>
      attempt (WriteString w nl) (fun _ =>
      write_each rest formatted))
  end.

(** [Logger.log] *)
Definition Logger_log (l : Logger) (level : Level)
    (msg : string) (args : list string) : M unit :=
  if rank level >? rank (Log_Level (settings l)) then ret tt
  else
    let formatted := formatMessage level (settings l) msg args in
    write_each (Log_Writers (settings l)) formatted.

Definition Logger_Trace l := Logger_log l LevelTrace.
Definition Logger_Debug l := Logger_log l LevelDebug.
Definition Logger_Info l := Logger_log l LevelInfo.
Definition Logger_Warn l := Logger_log l LevelWarn.
Definition Logger_Error l := Logger_log l LevelError.

(** [Logger.Close] *)
Definition Logger_Close (l : Logger) : M unit :=
  match Log_FileHandle (settings l) with
  | Some fd => CloseFile fd
  | None => ret tt
  end.

(** [parseLevel] *)
Definition parseLevel (value : string) : Level :=
  let v := Strings.ToLower value in
  if String.eqb v "trace" then LevelTrace
  else if String.eqb v "debug" then LevelDebug
  else if String.eqb v "warn" then LevelWarn
  else if String.eqb v "error" then LevelError
  else LevelInfo.

(** [shouldColorize] *)
Definition shouldColorize (policy : string) : bool :=
  if String.eqb policy "always" then true
  else if String.eqb policy "never" then false
  else isTerminal h (Some Stderr).

(** [ResolveLogSettings] *)
Definition ResolveLogSettings (flags : CommonFlags) (cfg : AppConfig) : M LogSettings :=
  let level := parseLevel (Logging_Level (Logging cfg)) in
  let level :=
    if Trace flags then LevelTrace
    else if Debug flags then LevelDebug
    else if Verbose flags >=? 2 then LevelTrace
    else if Verbose flags =? 1 then LevelDebug
    else if Quiet flags && (rank level >? rank LevelError) then LevelError
    else level in
  let colorPolicy := Color flags in
  let colorPolicy := if NoColor flags then "never" else colorPolicy in
  let colorize := shouldColorize colorPolicy in
  let writers := [Stderr] in
  let writers := if Quiet flags then [Discard] else writers in
  if nonempty (Logging_File (Logging cfg)) && negb (DryRun flags) then
    attempt (OpenFileAppend h (Logging_File (Logging cfg))) (fun r =>
      match r with
      | Err err => fail (ErrOpenLogFile (Logging_File (Logging cfg)) err)
      | Ok handle =>
          let writers :=
            if negb (Quiet flags) then (writers ++ [FileWriter handle])%list
            else [FileWriter handle] in
          ret {| Log_Level := level; Log_Diagnostics := Diagnostics flags;
                 Log_Colorize := colorize; Log_Writers := writers;
                 Log_FileHandle := Some handle |}
      end)
  else
    ret {| Log_Level := level; Log_Diagnostics := Diagnostics flags;
           Log_Colorize := colorize; Log_Writers := writers;
           Log_FileHandle := None |}.

End Logging.

(** ** context.go *)

(** [RuntimeContext]; the embedded [context.Context], which only points
    back at the record itself, is left out. *)
Record RuntimeContext : Type := mkRuntimeContext {
  Rtx_Common : CommonFlags;
  Rtx_Paths : AppPaths;
  Rtx_Config : AppConfig;
  Rtx_Logger : Logger;
  Rtx_LogSettings : LogSettings
}.

(** A [context.Context] as far as [ContextKey] is concerned: the
    background context, or one carrying a (possibly nil) runtime
    context. *)
Inductive Context : Type :=
  | Background
  | WithRuntime (rtx : option RuntimeContext).

(** [FromContext]; [None] for [ctx] is the nil interface. *)
Definition FromContext (ctx : option Context) : option RuntimeContext :=
  match ctx with
  | None => None
  | Some Background => None
  | Some (WithRuntime (Some rtx)) => Some rtx
  | Some (WithRuntime None) => None
  end.

Section Context.
Context {D : Toml.Decoder}.
Variable h : Host.

(** [NewRuntimeContext] *)
Definition NewRuntimeContext (flags : CommonFlags) : M RuntimeContext :=
  let* paths := DiscoverPaths h appName (ConfigPath flags) in
  let* cfg := LoadOrInitConfig h paths flags in
  let* effPaths := lift (ApplyPathOverrides h paths cfg) in
  let* _ := EnsureDirectories h effPaths flags in
  let* logSettings := ResolveLogSettings h flags cfg in
  let logger := ConfigureLogger logSettings in
  let rtx := {| Rtx_Common := flags; Rtx_Paths := effPaths; Rtx_Config := cfg;
                Rtx_Logger := logger; Rtx_LogSettings := logSettings |} in
  let* _ := Logger_Debug h (Rtx_Logger rtx)
              "resolved paths: config=%s data=%s state=%s"
              [ConfigFile (Rtx_Paths rtx); DataDir (Rtx_Paths rtx);
               StateDir (Rtx_Paths rtx)] in
  ret rtx.

(** [RuntimeContext.Close]; [None] is the nil receiver. *)
Definition RuntimeContext_Close (rtx : option RuntimeContext) : M unit :=
  match rtx with
  | None => ret tt
  | Some r => Logger_Close (Rtx_Logger r)
  end.

(** ** cmd/root.go: the persistent pre-run hook

    [ctx] is the command's context, [timeoutFlag] and [parallelFlag]
    are [Some] when the flag was changed on the command line.  The
    result is the command's context afterwards. *)
Definition PersistentPreRunE (ctx : option Context) (commonFlags : CommonFlags)
    (timeoutFlag parallelFlag : option Z) : M (option Context) :=
  match FromContext ctx with
  | Some _ => ret ctx
  | None =>
      let flags := commonFlags in
      let flags :=
        match timeoutFlag with
        | Some t =>
            mkCommonFlags (ConfigPath flags) (Quiet flags) (Verbose flags) (Debug flags)
              (Trace flags) (JSON flags) (YAML flags) (NoColor flags) (Color flags)
              (DryRun flags) (AssumeYes flags) (Some t) (Parallelism flags)
              (NoProgress flags) (Diagnostics flags)
        | None => flags
        end in
      let flags :=
        match parallelFlag with
        | Some p =>
            mkCommonFlags (ConfigPath flags) (Quiet flags) (Verbose flags) (Debug flags)
              (Trace flags) (JSON flags) (YAML flags) (NoColor flags) (Color flags)
              (DryRun flags) (AssumeYes flags) (TimeoutSeconds flags) (Some p)
              (NoProgress flags) (Diagnostics flags)
        | None => flags
        end in
      if JSON flags && YAML flags then fail ErrConflictingOutputFormat
      else
        let* _ := lift (ValidateColor flags) in
        let* rtx := NewRuntimeContext flags in
        ret (Some (WithRuntime (Some rtx)))
  end.

End Context.

(** * Reference definitions and sample inputs *)

(** Where no decoder is named, configuration files are read with the
    decoder for the TOML fragment: the sample worlds below hold such
    files, and so does the template the program writes. *)
#[global] Existing Instance Toml.fragment.

(** What the specification says the expander does once the environment
    references are expanded: substitute the home directory for a leading
    ["~"] or ["~/"], leave other forms alone, then clean. *)
Definition spec_tilde (home : string) (expanded : string) : string :=
  if String.eqb expanded "~" then home
  else if Strings.HasPrefix expanded "~/" then Filepath.Join [home; Strings.drop 2 expanded]
  else expanded.

Definition sample_host : Host :=
  mkHost linux {[ "HOME" := "/home/u" ]} ∅ (Some true) "2026-01-01T00:00:00Z".


(** The override rule of the specification for one directory: a
    non-empty configured value is expanded, otherwise the resolver's
    default stays. *)
Definition spec_override (h : Host) (configured fallback : string) : result string :=
  if nonempty configured then expandPath h configured else Ok fallback.

(** The level names of the specification. *)
Definition level_of_name (name : string) : option Level :=
  if String.eqb name "error" then Some LevelError
  else if String.eqb name "warn" then Some LevelWarn
  else if String.eqb name "info" then Some LevelInfo
  else if String.eqb name "debug" then Some LevelDebug
  else if String.eqb name "trace" then Some LevelTrace
  else None.

(** Case-insensitive reading of the configured level, [info] for
    anything unrecognised. *)
Definition spec_parse (configured : string) : Level :=
  default LevelInfo (level_of_name (Strings.ToLower configured)).

(** Clamp [l] to at most [bound]: never raises it. *)
Definition clamp_to (bound l : Level) : Level :=
  if rank l >? rank bound then bound else l.

(** The precedence of the specification, highest first. *)
Definition spec_level (flags : CommonFlags) (configured : string) : Level :=
  if Trace flags then LevelTrace
  else if Debug flags then LevelDebug
  else if 2 <=? Verbose flags then LevelTrace
  else if Verbose flags =? 1 then LevelDebug
  else if Quiet flags then clamp_to LevelError (spec_parse configured)
  else spec_parse configured.

(** The colour policy after [noColor] is taken into account. *)
Definition spec_color_policy (flags : CommonFlags) : string :=
  if NoColor flags then "never" else Color flags.

(** The code's own test applied to a sink: the character-device bit of
    the standard error stream, and never the discard target.  Every
    interactive terminal passes it; so do other character devices. *)
Definition sink_is_terminal (h : Host) (w : Writer) : bool :=
  isTerminal h (Some w).

(** The colour rule as the code has it: [noColor] first, then "always"
    and "never", and for any other policy the character-device bit that
    [Stat] reports for the standard error stream. *)
Definition spec_colorize (h : Host) (flags : CommonFlags) : bool :=
  if NoColor flags then false
  else if String.eqb (Color flags) "always" then true
  else if String.eqb (Color flags) "never" then false
  else bool_decide (stderr_stat h = Some true).

(** A host whose standard error stream is redirected to [/dev/null]: a
    character device, and no terminal. *)
Definition devnull_host : Host :=
  mkHost linux {[ "HOME" := "/home/u" ]} ∅ (Some true) "2026-01-01T00:00:00Z".

(** The primary output sink of the settings: the first writer. *)
Definition primary_sink (s : LogSettings) : Writer :=
  hd Discard (Log_Writers s).

Definition plain_flags : CommonFlags :=
  {| ConfigPath := ""; Quiet := false; Verbose := 0; Debug := false; Trace := false;
     JSON := false; YAML := false; NoColor := false; Color := "auto";
     DryRun := false; AssumeYes := false; TimeoutSeconds := None;
     Parallelism := None; NoProgress := false; Diagnostics := false |}.

Definition set_Quiet (b : bool) (f : CommonFlags) : CommonFlags :=
  mkCommonFlags (ConfigPath f) b (Verbose f) (Debug f) (Trace f) (JSON f) (YAML f)
    (NoColor f) (Color f) (DryRun f) (AssumeYes f) (TimeoutSeconds f)
    (Parallelism f) (NoProgress f) (Diagnostics f).

Definition set_DryRun (b : bool) (f : CommonFlags) : CommonFlags :=
  mkCommonFlags (ConfigPath f) (Quiet f) (Verbose f) (Debug f) (Trace f) (JSON f) (YAML f)
    (NoColor f) (Color f) b (AssumeYes f) (TimeoutSeconds f)
    (Parallelism f) (NoProgress f) (Diagnostics f).

Definition set_ConfigPath (p : string) (f : CommonFlags) : CommonFlags :=
  mkCommonFlags p (Quiet f) (Verbose f) (Debug f) (Trace f) (JSON f) (YAML f)
    (NoColor f) (Color f) (DryRun f) (AssumeYes f) (TimeoutSeconds f)
    (Parallelism f) (NoProgress f) (Diagnostics f).

Definition set_output (json yaml : bool) (f : CommonFlags) : CommonFlags :=
  mkCommonFlags (ConfigPath f) (Quiet f) (Verbose f) (Debug f) (Trace f) json yaml
    (NoColor f) (Color f) (DryRun f) (AssumeYes f) (TimeoutSeconds f)
    (Parallelism f) (NoProgress f) (Diagnostics f).

Definition empty_world : World := mkWorld ∅ [] "" [].

Definition with_level (level : string) (cfg : AppConfig) : AppConfig :=
  {| Profile := Profile cfg;
     Logging := {| Logging_Level := level; Logging_File := Logging_File (Logging cfg) |};
     Runtime := Runtime cfg; Paths := Paths cfg |}.

Definition with_paths (data state : string) (cfg : AppConfig) : AppConfig :=
  {| Profile := Profile cfg; Logging := Logging cfg; Runtime := Runtime cfg;
     Paths := {| Paths_DataDir := data; Paths_StateDir := state |} |}.

(** A configuration file that names a log file, and the flags that
    point at it. *)
Definition logfile_config : string :=
  "[logging]" +:+ nl +:+
  "level = " +:+ dq +:+ "debug" +:+ dq +:+ nl +:+
  "file = " +:+ dq +:+ "/app.log" +:+ dq +:+ nl.

Definition logfile_world : World :=
  mkWorld {[ "/app.toml" := File logfile_config ]} [] "" [].

Definition logfile_flags : CommonFlags := set_ConfigPath "/app.toml" plain_flags.

(** Bootstrap, then close the context twice: the two outcomes of
    [Close]. *)
Definition close_twice (h : Host) (flags : CommonFlags) (w : World)
  : option (result unit * result unit) :=
  match NewRuntimeContext h flags w with
  | (Ok rtx, w0) =>
      let '(r1, w1) := RuntimeContext_Close (Some rtx) w0 in
      let '(r2, _) := RuntimeContext_Close (Some rtx) w1 in
      Some (r1, r2)
  | (Err _, _) => None
  end.

(** The world after one more system call. *)
Definition after_call (c : Syscall) (w : World) : World :=
  mkWorld (files w) (handles w) (stderr w) (c :: trace w).

Definition quiet_auto_settings : LogSettings :=
  {| Log_Level := LevelError; Log_Diagnostics := false; Log_Colorize := true;
     Log_Writers := [Discard]; Log_FileHandle := None |}.

Definition sample_rtx : RuntimeContext :=
  {| Rtx_Common := plain_flags;
     Rtx_Paths := {| ConfigFile := "/c"; DataDir := "/d"; StateDir := "/s" |};
     Rtx_Config := defaultConfig;
     Rtx_Logger := ConfigureLogger (mkLogSettings LevelInfo false false [Stderr] None);
     Rtx_LogSettings := mkLogSettings LevelInfo false false [Stderr] None |}.

(** ** Relations between worlds *)

(** Everything that is there stays exactly as it is. *)
Definition extends (w w' : World) : Prop :=
  forall p n, node_at w p = Some n -> node_at w' p = Some n.

(** Nothing changes except that directories may appear. *)
Definition mkdirs (w w' : World) : Prop :=
  forall p, node_at w' p = node_at w p \/
            (node_at w p = None /\ node_at w' p = Some Directory).

(** Whatever is there stays, as a file or as a directory. *)
Definition grows (w w' : World) : Prop :=
  forall p n, node_at w p = Some n ->
    exists n', node_at w' p = Some n' /\ IsDir n' = IsDir n.

(** System calls that create nothing on disk. *)
Definition creates_nothing (c : Syscall) : bool :=
  match c with
  | SysStat _ | SysReadFile _ | SysClose _ => true
  | SysWrite Stderr _ | SysWrite Discard _ => true
  | SysWrite (FileWriter _) _ => false
  | SysMkdir _ | SysWriteFile _ | SysOpenFile _ => false
  end.

(** The disk and the handle table are untouched, and every system call
    made in between creates nothing. *)
Definition untouched (w w' : World) : Prop :=
  files w' = files w /\ handles w' = handles w /\
  exists calls, trace w' = (calls ++ trace w)%list /\
                forallb creates_nothing calls = true.

(** The rest of [LoadOrInitConfig] after the file has been looked for
    (and possibly created). *)
Definition load_tail {D : Toml.Decoder} (h : Host) (paths : AppPaths) (flags : CommonFlags)
    : M AppConfig :=
    let cfg := defaultConfig in
    let v := Viper.New in
    let v := Viper.SetConfigFile v (ConfigFile paths) in
    let v := Viper.SetEnvPrefix v EnvPrefix in
    let v := Viper.SetEnvKeyReplacer v (Strings.Replace1 "." "__") in
    let v := Viper.AutomaticEnv v in
    let v := Viper.SetDefault v "profile" (Toml.VString (Profile cfg)) in
    let v := Viper.SetDefault v "logging.level" (Toml.VString (Logging_Level (Logging cfg))) in
    let v := Viper.SetDefault v "runtime.timeout" (Toml.VInteger 60) in
    let v := Viper.SetDefault v "runtime.fail_fast" (Toml.VBoolean true) in
    let* v := attempt (Viper.ReadInConfig h v) (fun r =>
                match r with
                | Err err =>
                    if negb (is_ConfigFileNotFoundError err) &&
                       negb (DryRun flags && IsNotExist err)
                    then fail err else ret v
                | Ok v' => ret v'
                end) in
    let* cfg := lift (Unmarshal h v cfg) in
    let* cfg :=
      if negb (String.eqb (Logging_File (Logging cfg)) "") then
        match expandPath h (Logging_File (Logging cfg)) with
        | Err err => fail (ErrExpandLogFile err)
        | Ok expanded =>
            ret {| Profile := Profile cfg;
                   Logging := {| Logging_Level := Logging_Level (Logging cfg);
                                 Logging_File := expanded |};
                   Runtime := Runtime cfg;
                   Paths := Paths cfg |}
        end
      else ret cfg in
    let cfg :=
      match Runtime_TimeoutSeconds (Runtime cfg) with
      | None =>
          let defaultTimeout := 60 in
          {| Profile := Profile cfg;
             Logging := Logging cfg;
             Runtime := {| Runtime_Parallelism := Runtime_Parallelism (Runtime cfg);
                           Runtime_TimeoutSeconds := Some defaultTimeout;
                           Runtime_FailFast := Runtime_FailFast (Runtime cfg) |};
             Paths := Paths cfg |}
      | Some _ => cfg
      end in
    ret cfg.

(** What the configuration file at [path] says about [runtime.timeout],
    if it is there and can be read. *)
Definition file_timeout (w : World) (path : string) : option Toml.Value :=
  match node_at w path with
  | Some (File text) =>
      match Toml.parse text with
      | Some doc =>
          match doc !! "runtime" with
          | Some (Toml.Table tb) => tb !! "timeout"
          | _ => None
          end
      | None => None
      end
  | _ => None
  end.

(** What the configuration file at [path] holds for a key, as viper
    looks the key up in the decoded file; nothing when there is no file
    there, or none that decodes. *)
Definition file_setting {D : Toml.Decoder} (w : World) (path : string)
    (key : list string) : option Toml.Tree :=
  match node_at w path with
  | Some (File text) =>
      match Toml.Unmarshal text with
      | Some doc => Viper.in_config (Viper.set_config Viper.New doc) key
      | None => None
      end
  | _ => None
  end.

(** Outcomes of [Stat] and [ReadFile] as functions of the world. *)
Definition stat_outcome (h : Host) (w : World) (p : string) : result Node :=
  if decide (p ∈ denied h) then Err (EACCES p)
  else match node_at w p with
       | Some n => Ok n
       | None => Err (missing w p)
       end.

Definition read_outcome (h : Host) (w : World) (p : string) : result string :=
  if decide (p ∈ denied h) then Err (EACCES p)
  else match node_at w p with
       | Some (File c) => Ok c
       | Some Directory => Err (EISDIR p)
       | None => Err (missing w p)
       end.



Definition no_file_writer (writers : list Writer) : bool :=
  forallb (fun wr => match wr with FileWriter _ => false | _ => true end) writers.

(** The viper instance [LoadOrInitConfig] sets up before reading. *)
Definition base_viper (path : string) : Viper.t :=
  let cfg := defaultConfig in
  let v := Viper.New in
  let v := Viper.SetConfigFile v path in
  let v := Viper.SetEnvPrefix v EnvPrefix in
  let v := Viper.SetEnvKeyReplacer v (Strings.Replace1 "." "__") in
  let v := Viper.AutomaticEnv v in
  let v := Viper.SetDefault v "profile" (Toml.VString (Profile cfg)) in
  let v := Viper.SetDefault v "logging.level" (Toml.VString (Logging_Level (Logging cfg))) in
  let v := Viper.SetDefault v "runtime.timeout" (Toml.VInteger 60) in
  Viper.SetDefault v "runtime.fail_fast" (Toml.VBoolean true).

(** Decoding, log-file expansion and the timeout default, as a
    function of the viper instance. *)
Definition decode_config (h : Host) (v : Viper.t) : result AppConfig :=
  let+ cfg := Unmarshal h v defaultConfig in
  let+ cfg :=
    if negb (String.eqb (Logging_File (Logging cfg)) "") then
      match expandPath h (Logging_File (Logging cfg)) with
      | Err err => Err (ErrExpandLogFile err)
      | Ok expanded =>
          Ok {| Profile := Profile cfg;
                Logging := {| Logging_Level := Logging_Level (Logging cfg);
                              Logging_File := expanded |};
                Runtime := Runtime cfg;
                Paths := Paths cfg |}
      end
    else Ok cfg in
  Ok match Runtime_TimeoutSeconds (Runtime cfg) with
     | None =>
         {| Profile := Profile cfg;
            Logging := Logging cfg;
            Runtime := {| Runtime_Parallelism := Runtime_Parallelism (Runtime cfg);
                          Runtime_TimeoutSeconds := Some 60;
                          Runtime_FailFast := Runtime_FailFast (Runtime cfg) |};
            Paths := Paths cfg |}
     | Some _ => cfg
     end.

(** The configuration obtained from the outcome of reading the file. *)
Definition load_outcome {D : Toml.Decoder} (h : Host) (path : string) (dry : bool)
    (rd : result string) : result AppConfig :=
  match rd with
  | Ok text =>
      match Toml.Unmarshal text with
      | Some doc => decode_config h (Viper.set_config (base_viper path) doc)
      | None => Err (ErrConfigParse path)
      end
  | Err err =>
      if negb (dry && IsNotExist err) then Err err
      else decode_config h (base_viper path)
  end.




(** The timeout of the configuration [LoadOrInitConfig] returns. *)
Definition loaded_timeout (h : Host) (paths : AppPaths) (flags : CommonFlags)
    (w : World) : result (option Z) :=
  rmap (fun cfg => Runtime_TimeoutSeconds (Runtime cfg))
       (fst (LoadOrInitConfig h paths flags w)).

Definition sample_paths : AppPaths :=
  {| ConfigFile := "/home/u/.config/go-cli/config.toml";
     DataDir := "/home/u/.local/share/go-cli";
     StateDir := "/home/u/.local/state/go-cli" |}.

(** The world in which the default configuration has just been
    generated. *)
Definition template_world : World :=
  snd (writeDefaultConfig sample_host (ConfigFile sample_paths) empty_world).

(** A configuration file without [runtime.timeout], and an environment
    that overrides the key (spelled with the prefix as viper builds it
    and as the README writes it). *)
Definition no_timeout_world : World :=
  mkWorld {[ "/app.toml" := File ("profile = " +:+ dq +:+ "work" +:+ dq +:+ nl) ]} [] "" [].

Definition override_host : Host :=
  mkHost linux
    {[ "HOME" := "/home/u";
       "GO_CLI_RUNTIME__TIMEOUT" := "30";
       "GO_CLI__RUNTIME__TIMEOUT" := "30" ]}
    ∅ (Some true) "2026-01-01T00:00:00Z".

Definition app_toml_paths : AppPaths :=
  {| ConfigFile := "/app.toml"; DataDir := "/d"; StateDir := "/s" |}.

(** What loading [no_timeout_world] yields without an override. *)
Definition work_config : AppConfig :=
  {| Profile := "work";
     Logging := {| Logging_Level := "info"; Logging_File := "" |};
     Runtime := {| Runtime_Parallelism := None;
                   Runtime_TimeoutSeconds := Some 60;
                   Runtime_FailFast := true |};
     Paths := {| Paths_DataDir := ""; Paths_StateDir := "" |} |}.





(** The first run against [logfile_world]: its context and the world it
    leaves. *)
Definition first_rtx : RuntimeContext :=
  match fst (NewRuntimeContext sample_host logfile_flags logfile_world) with
  | Ok rtx => rtx
  | Err _ => sample_rtx
  end.

Definition first_world : World :=
  snd (NewRuntimeContext sample_host logfile_flags logfile_world).

(** A process started without [HOME] (the XDG variables suffice for the
    default directories). *)
Definition no_home_host : Host :=
  mkHost linux
    {[ "XDG_CONFIG_HOME" := "/etc/xdg";
       "XDG_DATA_HOME" := "/var/lib";
       "XDG_STATE_HOME" := "/var/state" ]}
    ∅ (Some false) "2026-01-01T00:00:00Z".

(** The settings resolved from [plain_flags] and the defaults on
    [sample_host]. *)
Definition plain_settings : LogSettings :=
  {| Log_Level := LevelInfo; Log_Diagnostics := false; Log_Colorize := true;
     Log_Writers := [Stderr]; Log_FileHandle := None |}.

(** * The rest of the package: cache directory, run configuration, handlers *)

(** ** The path resolver: the cache directory *)

(** [defaultCacheDir] *)
Definition defaultCacheDir (h : Host) (app : string) : result string :=
  let dir := Getenv h "XDG_CACHE_HOME" in
  if nonempty dir then Ok (Filepath.Join [dir; app])
  else
    let dir := Getenv h "LOCALAPPDATA" in
    if bool_decide (goos h = windows) && nonempty dir
    then Ok (Filepath.Join [dir; app; "cache"])
    else
      let found :=
        match UserCacheDir h with
        | Ok dir => if nonempty dir then Some dir else None
        | Err _ => None
        end in
      match found with
      | Some dir => Ok (Filepath.Join [dir; app])
      | None =>
          match UserHomeDir h with
          | Err err => Err (ErrDetermineHome err)
          | Ok home => Ok (Filepath.Join [home; ".cache"; app])
          end
      end.

(** ** config.go: the run configuration *)

(** [RunConfig] *)
Record RunConfig : Type := mkRunConfig {
  Run_Profile : string;
  Run_Runtime : RuntimeConfig
}.

(** [AppConfig.WithProfileOverride] *)
Definition WithProfileOverride (cfg : AppConfig) (profile : string) : AppConfig :=
  if nonempty profile then
    {| Profile := profile; Logging := Logging cfg; Runtime := Runtime cfg;
       Paths := Paths cfg |}
  else cfg.

(** [AppConfig.RunConfig] *)
Definition AppConfig_RunConfig (cfg : AppConfig) : RunConfig :=
  {| Run_Profile := Profile cfg; Run_Runtime := Runtime cfg |}.

(** Arithmetic of [int64]: the value of [z] after wrap-around. *)
Definition wrap64 (z : Z) : Z := (z + 2 ^ 63) mod 2 ^ 64 - 2 ^ 63.

(** [time.Second], in nanoseconds. *)
Definition Second : Z := 1000000000.

(** [RuntimeConfig.TimeoutDuration]: a [time.Duration] is an [int64]
    count of nanoseconds, and the product wraps around. *)
Definition TimeoutDuration (cfg : RuntimeConfig) : Z :=
  match Runtime_TimeoutSeconds cfg with
  | None => 0
  | Some seconds => wrap64 (seconds * Second)
  end.

(** ** util.go: the worker pool default *)

(** [defaultParallelism]; [numCPU] is what [runtime.NumCPU] reports. *)
Definition defaultParallelism (numCPU : Z) : Z :=
  if numCPU >? 0 then numCPU else 1.

(** ** The command handlers

    A handler returns a Go [error].  Besides the errors of the bootstrap
    there are those the handlers and the command layer make up
    themselves. *)

Inductive handler_error : Type :=
  | ErrConfigExists (path : string)
      (* config already exists at path (use --force to overwrite) *)
  | ErrNotInitialized
      (* internal error: runtime context not initialized *)
  | ErrOf (e : error).

(** [RunOptions] and [InitOptions] *)
Record RunOptions : Type := mkRunOptions {
  Opt_Task : string;
  Opt_Profile : string
}.

Record InitOptions : Type := mkInitOptions {
  Opt_Force : bool
}.

(** The encoding a handler prints its result in. *)
Inductive Encoding : Type :=
  | AsJSON
  | AsYAML
  | AsText.

(** The [result] map of [HandleRun]. *)
Record RunReport : Type := mkRunReport {
  Report_Task : string;
  Report_Profile : string;
  Report_Parallelism : Z;
  Report_Timeout : Z
}.

Definition set_Run_Parallelism (p : option Z) (c : RunConfig) : RunConfig :=
  {| Run_Profile := Run_Profile c;
     Run_Runtime := {| Runtime_Parallelism := p;
                       Runtime_TimeoutSeconds := Runtime_TimeoutSeconds (Run_Runtime c);
                       Runtime_FailFast := Runtime_FailFast (Run_Runtime c) |} |}.

Definition set_Run_Timeout (t : option Z) (c : RunConfig) : RunConfig :=
  {| Run_Profile := Run_Profile c;
     Run_Runtime := {| Runtime_Parallelism := Runtime_Parallelism (Run_Runtime c);
                       Runtime_TimeoutSeconds := t;
                       Runtime_FailFast := Runtime_FailFast (Run_Runtime c) |} |}.

(** [HandleRun].  Standard output is not part of the world: the
    handler's value is what it prints there, the result map and the
    encoding it is rendered in ([json.MarshalIndent], [yaml.Marshal] or
    the [Printf] line; none of them fails on a map of strings and
    integers). *)
Definition HandleRun (h : Host) (numCPU : Z) (ctx : RuntimeContext) (opts : RunOptions)
    : M (Encoding * RunReport) :=
  let effective := WithProfileOverride (Rtx_Config ctx) (Opt_Profile opts) in
  let runCfg := AppConfig_RunConfig effective in
  let runCfg :=
    match Parallelism (Rtx_Common ctx) with
    | Some value => set_Run_Parallelism (Some value) runCfg
    | None => runCfg
    end in
  let runCfg :=
    match Runtime_Parallelism (Run_Runtime runCfg) with
    | None => set_Run_Parallelism (Some (defaultParallelism numCPU)) runCfg
    | Some _ => runCfg
    end in
  let runCfg :=
    match TimeoutSeconds (Rtx_Common ctx) with
    | Some value => set_Run_Timeout (Some value) runCfg
    | None => runCfg
    end in
  let parallelism :=
    match Runtime_Parallelism (Run_Runtime runCfg) with
    | Some p => p
    | None => 0
    end in
  let timeout :=
    match Runtime_TimeoutSeconds (Run_Runtime runCfg) with
    | Some t => t
    | None => 0
    end in
  Logger_Info h (Rtx_Logger ctx) "running task %s with profile %s"
    [Opt_Task opts; Run_Profile runCfg] >>
  let result := {| Report_Task := Opt_Task opts; Report_Profile := Run_Profile runCfg;
                   Report_Parallelism := parallelism; Report_Timeout := timeout |} in
  ret (if JSON (Rtx_Common ctx) then AsJSON
       else if YAML (Rtx_Common ctx) then AsYAML
       else AsText,
       result).

(** A handler's outcome: [None] is the nil error. *)
Definition Handler : Type := World -> option handler_error * World.

(** [HandleInit] *)
Definition HandleInit (h : Host) (ctx : RuntimeContext) (opts : InitOptions) : Handler :=
  fun w =>
    let path := ConfigFile (Rtx_Paths ctx) in
    let '(st, w1) := Stat h path w in
    let refused :=
      match st with
      | Ok _ =>
          if negb (Opt_Force opts || AssumeYes (Rtx_Common ctx))
          then Some (ErrConfigExists path) else None
      | Err err =>
          if negb (IsNotExist err) then Some (ErrOf err) else None
      end in
    match refused with
    | Some e => (Some e, w1)
    | None =>
        if DryRun (Rtx_Common ctx) then
          let '(_, w2) := Logger_Info h (Rtx_Logger ctx)
                            "dry-run: would write default config to %s" [path] w1 in
          (None, w2)
        else
          match writeDefaultConfig h path w1 with
          | (Err e, w2) => (Some (ErrOf e), w2)
          | (Ok _, w2) =>
              let '(_, w3) := Logger_Info h (Rtx_Logger ctx)
                                "wrote default config to %s" [path] w2 in
              (None, w3)
          end
    end.

(** [HandleConfigReset] *)
Definition HandleConfigReset (h : Host) (ctx : RuntimeContext) : Handler :=
  fun w =>
    if DryRun (Rtx_Common ctx) then
      let '(_, w1) := Logger_Info h (Rtx_Logger ctx)
                        "dry-run: would reset config at %s" [ConfigFile (Rtx_Paths ctx)] w in
      (None, w1)
    else
      match writeDefaultConfig h (ConfigFile (Rtx_Paths ctx)) w with
      | (Err e, w1) => (Some (ErrOf e), w1)
      | (Ok _, w1) =>
          let '(_, w2) := Logger_Info h (Rtx_Logger ctx)
                            "reset config at %s" [ConfigFile (Rtx_Paths ctx)] w1 in
          (None, w2)
      end.

(** ** cmd/root.go: the command's runtime context *)

(** [Context(cmd)], on the command's [context.Context]. *)
Definition cmd_Context (ctx : option Context) : RuntimeContext + handler_error :=
  match FromContext ctx with
  | Some rtx => inl rtx
  | None => inr ErrNotInitialized
  end.

(** The [RunE] of the [run] command: [args] holds at most one element
    ([cobra.MaximumNArgs(1)]), [profile] is the value of [--profile]. *)
Definition run_RunE (h : Host) (numCPU : Z) (ctx : option Context)
    (args : list string) (profile : string)
    : World -> (Encoding * RunReport + handler_error) * World :=
  fun w =>
    let opts := {| Opt_Task := "default"; Opt_Profile := profile |} in
    let opts :=
      match args with
      | a :: _ => {| Opt_Task := a; Opt_Profile := Opt_Profile opts |}
      | [] => opts
      end in
    match cmd_Context ctx with
    | inr e => (inr e, w)
    | inl rtx =>
        match HandleRun h numCPU rtx opts w with
        | (Ok out, w') => (inl out, w')
        | (Err e, w') => (inr (ErrOf e), w')
        end
    end.

(** ** scripts/new-cli.sh: the project name *)

Module NewCli.

Definition is_letter (c : ascii) : bool :=
  OsExpand.byte_in c "a" "z" || OsExpand.byte_in c "A" "Z".

Definition name_byte (c : ascii) : bool :=
  is_letter c || OsExpand.byte_in c "0" "9" || Ascii.eqb c "_" || Ascii.eqb c "-".

(** The test [[[ "$NAME" =~ ^[a-zA-Z][a-zA-Z0-9_-]*$ ]]], with the
    ranges read as ASCII ranges. *)
Definition valid_name (name : string) : bool :=
  match name with
  | String c r => is_letter c && forallb name_byte (list_ascii_of_string r)
  | EmptyString => false
  end.

(** [name.upper().replace('-', '_')], what the script substitutes for
    [GO_CLI] in the copied template. *)
Definition env_name (name : string) : string :=
  Strings.Replace1 "-" "_" (Strings.ToUpper name).

(** [text.replace(old, new)] for a non-empty [old]: the occurrences are
    found from the left and do not overlap; [skip] counts the bytes of
    the occurrence just replaced that are still to be passed over. *)
Fixpoint replace_from (old new : string) (skip : nat) (text : string) : string :=
  match text with
  | EmptyString => EmptyString
  | String c r =>
      match skip with
      | S k => replace_from old new k r
      | O =>
          if Strings.HasPrefix text old
          then new +:+ replace_from old new (String.length old - 1) r
          else String c (replace_from old new O r)
      end
  end.

Definition replace (old new text : string) : string := replace_from old new 0 text.

(** [old in text] *)
Fixpoint occurs (old text : string) : bool :=
  Strings.HasPrefix text old ||
  match text with
  | EmptyString => false
  | String _ r => occurs old r
  end.

Definition module_path : string := "gitlab.cc-asp.fraunhofer.de/templates/go-cli".

(** The [replacements] dictionary, in the order of its entries. *)
Definition replacements (name module : string) : list (string * string) :=
  [ ("go-cli", name); ("GO_CLI", env_name name); (module_path, module) ].

(** The loop over the replacements, applied to the text of one file:
    each replacement works on the result of the one before. *)
Definition rewrite_text (name module : string) (text : string) : string :=
  fold_left (fun text '(old, new) => if occurs old text then replace old new text else text)
            (replacements name module) text.

(** The line of [context.go] that names the application. *)
Definition appName_line (name : string) : string :=
  "const appName = " +:+ String Toml.dquote (name +:+ String Toml.dquote "").

End NewCli.

(** ** Notions used by the statements below *)

(** Bytes [32] to [126]. *)
Definition printable (s : string) : bool :=
  forallb (fun c => (32 <=? nat_of_ascii c)%nat && (nat_of_ascii c <=? 126)%nat)
          (list_ascii_of_string s).

Definition is_ascii (s : string) : bool :=
  forallb (fun c => (nat_of_ascii c <? 128)%nat) (list_ascii_of_string s).

Definition env_byte (c : ascii) : bool :=
  OsExpand.byte_in c "A" "Z" || OsExpand.byte_in c "0" "9" || Ascii.eqb c "_".


(** Whether the configuration file at [path] defines a key: the dotted
    name is among the leaves of the decoded file. *)
Definition file_defines {D : Toml.Decoder} (w : World) (path : string)
    (key : list string) : bool :=
  match node_at w path with
  | Some (File text) =>
      match Toml.Unmarshal text with
      | Some doc => Viper.in_file (Viper.set_config Viper.New doc) key
      | None => false
      end
  | _ => false
  end.

(** Every key of the tree is ASCII. *)
Fixpoint ascii_keys (tr : Toml.Tree) : bool :=
  match tr with
  | Toml.Leaf _ => true
  | Toml.Branch entries =>
      (fix each (entries : list (string * Toml.Tree)) : bool :=
         match entries with
         | [] => true
         | (k, sub) :: rest => is_ascii k && ascii_keys sub && each rest
         end) entries
  end.

(** The configuration file at [path], if there is one that decodes, has
    ASCII keys only. *)
Definition file_keys_ascii {D : Toml.Decoder} (w : World) (path : string) : bool :=
  match node_at w path with
  | Some (File text) =>
      match Toml.Unmarshal text with
      | Some doc => ascii_keys (Toml.Branch doc)
      | None => true
      end
  | _ => true
  end.


(** Every handle in the table has been closed. *)
Definition all_closed (w : World) : Prop :=
  forall fd path open, handles w !! fd = Some (path, open) -> open = false.

(** ** More sample inputs *)

Definition set_Color (c : string) (f : CommonFlags) : CommonFlags :=
  mkCommonFlags (ConfigPath f) (Quiet f) (Verbose f) (Debug f) (Trace f) (JSON f) (YAML f)
    (NoColor f) c (DryRun f) (AssumeYes f) (TimeoutSeconds f)
    (Parallelism f) (NoProgress f) (Diagnostics f).

Definition set_overrides (t p : option Z) (f : CommonFlags) : CommonFlags :=
  mkCommonFlags (ConfigPath f) (Quiet f) (Verbose f) (Debug f) (Trace f) (JSON f) (YAML f)
    (NoColor f) (Color f) (DryRun f) (AssumeYes f) t p (NoProgress f) (Diagnostics f).

Definition darwin_host : Host :=
  mkHost darwin {[ "HOME" := "/Users/u" ]} ∅ (Some true) "2026-01-01T00:00:00Z".

Definition bare_host : Host :=
  mkHost linux ∅ ∅ (Some false) "2026-01-01T00:00:00Z".

(** A timeout given with a leading zero, which [strconv.ParseInt]
    reads in octal. *)
Definition octal_host : Host :=
  mkHost linux
    {[ "HOME" := "/home/u";
       "GO_CLI_PROFILE" := "ci";
       "GO_CLI_LOGGING__LEVEL" := "trace";
       "GO_CLI_RUNTIME__TIMEOUT" := "010" ]}
    ∅ (Some true) "2026-01-01T00:00:00Z".

(** A host on which the operating system refuses access to
    [/locked]. *)
Definition locked_host : Host :=
  mkHost linux {[ "HOME" := "/home/u" ]} {[ "/locked" ]} (Some true)
         "2026-01-01T00:00:00Z".

Definition profile_host : Host :=
  mkHost linux
    {[ "HOME" := "/home/u";
       "GO_CLI_PROFILE" := "ci";
       "GO_CLI_LOGGING__LEVEL" := "trace";
       "GO_CLI_RUNTIME__TIMEOUT" := "5";
       "GO_CLI_PATHS__DATA_DIR" := "/elsewhere" ]}
    ∅ (Some true) "2026-01-01T00:00:00Z".

(** A world with a home directory and nothing in it. *)
Definition home_world : World :=
  mkWorld {[ "/home" := Directory; "/home/u" := Directory ]} [] "" [].

(** A world with a directory [/etc/app] and a regular file [/data]. *)
Definition dir_world : World :=
  mkWorld {[ "/etc" := Directory; "/etc/app" := Directory; "/data" := File "x" ]} [] "" [].

Definition file_settings (fd : nat) : LogSettings :=
  {| Log_Level := LevelInfo; Log_Diagnostics := false; Log_Colorize := false;
     Log_Writers := [Stderr; FileWriter fd]; Log_FileHandle := Some fd |}.

(** A world in which [/app.log] is open for appending as descriptor
    [0]. *)
Definition open_log_world : World :=
  mkWorld {[ "/app.log" := File "" ]} [("/app.log", true)] "" [].

(** ** Cleaned paths *)

(** The byte [sep] does not occur in [e]. *)
Definition lacks (sep : ascii) (e : string) : bool :=
  forallb (fun c => negb (Ascii.eqb c sep)) (list_ascii_of_string e).

Definition no_sep (e : string) : bool := lacks Filepath.Separator e.

(** A path element that [Clean] keeps as it is. *)
Definition plain_elem (e : string) : Prop :=
  e <> "" /\ e <> "." /\ e <> ".." /\ no_sep e = true.

(** The stack [Clean] builds, top first: names above a run of [".."]
    elements, and no [".."] at all below a root. *)
Definition canonical (rooted : bool) (out : list string) : Prop :=
  exists names k,
    out = (names ++ repeat ".." k)%list /\ Forall plain_elem names /\
    (rooted = true -> k = 0%nat).

Definition no_dollar (s : string) : bool := lacks "$" s.

(** A decoder outside the fragment: what a TOML decoder makes of a file
    with a digit separator ([timeout = 1_000]), a float, a literal
    string, a quoted key with a dot in it, an array, and a date under
    the name of a table. *)
Definition rich_document : Toml.Document :=
  [ ("profile", Toml.Leaf (Toml.VString "work"));
    ("runtime", Toml.Branch
       [ ("timeout", Toml.Leaf (Toml.VInteger 1000));
         ("parallelism", Toml.Leaf (Toml.VFloat "2.5" 2 true));
         ("fail_fast", Toml.Leaf (Toml.VString "f")) ]);
    ("logging.level", Toml.Leaf (Toml.VString "WARN"));
    ("tags", Toml.Leaf Toml.VOpaque);
    ("paths", Toml.Leaf Toml.VTime) ].

Definition rich_decoder : Toml.Decoder := fun _ => Some rich_document.

(** What a decoder makes of a file that stores a value under the name
    [logging] and, through a quoted key, a log file below that name. *)
Definition clash_document : Toml.Document :=
  [ ("logging", Toml.Leaf (Toml.VString "x"));
    ("logging.file", Toml.Leaf (Toml.VString "/a")) ].

Definition clash_decoder : Toml.Decoder := fun _ => Some clash_document.

(** The document in the generated configuration file. *)
Definition template_doc : gmap string Toml.Item :=
  {[ "profile" := Toml.Scalar (Toml.VString "default");
     "logging" := Toml.Table {[ "level" := Toml.VString "info" ]};
     "runtime" := Toml.Table {[ "timeout" := Toml.VInteger 60;
                                "fail_fast" := Toml.VBoolean true ]};
     "paths" := Toml.Table ∅ ]}.

(** The world after a warning went through a logger with a file
    writer. *)
Definition warn_logged : World :=
  snd (Logger_log sample_host (ConfigureLogger (file_settings 0)) LevelWarn
         "disk %s" ["full"] open_log_world).

(** The context and the world the pre-run hook leaves on a first run
    with [--timeout 5]. *)
Definition PersistentPreRunE_value (h : Host) : option Context * World :=
  match PersistentPreRunE h (Some Background) plain_flags (Some 5) None home_world with
  | (Ok ctx, w) => (ctx, w)
  | (Err _, w) => (None, w)
  end.

(** A context on the configuration file [/app.toml]. *)
Definition app_rtx : RuntimeContext :=
  {| Rtx_Common := plain_flags;
     Rtx_Paths := app_toml_paths;
     Rtx_Config := work_config;
     Rtx_Logger := ConfigureLogger plain_settings;
     Rtx_LogSettings := plain_settings |}.

Definition dry_rtx : RuntimeContext :=
  {| Rtx_Common := set_DryRun true plain_flags;
     Rtx_Paths := app_toml_paths;
     Rtx_Config := work_config;
     Rtx_Logger := ConfigureLogger plain_settings;
     Rtx_LogSettings := plain_settings |}.

(** * Properties *)

(** ** The library models on small inputs *)

Example Clean_examples :
  Filepath.Clean "" = "." /\
  Filepath.Clean "a//b/./c/.." = "a/b" /\
  Filepath.Clean "/../a/b/../.." = "/" /\
  Filepath.Clean "../../a/.." = "../.." /\
  Filepath.Clean "/home/u/" = "/home/u".
Proof. repeat split. Qed.

Example Join_examples :
  Filepath.Join ["/home/u"; ".config"; "go-cli"] = "/home/u/.config/go-cli" /\
  Filepath.Join [""; "a"; ""; "b"] = "a/b" /\
  Filepath.Join [""; ""] = "".
Proof. repeat split. Qed.

Example ExpandEnv_examples :
  OsExpand.ExpandEnv sample_host "${HOME}/x$HOME" = "/home/u/x/home/u" /\
  OsExpand.ExpandEnv sample_host "a$UNSET.b" = "a.b" /\
  OsExpand.ExpandEnv sample_host "${}x${y" = "xy" /\
  OsExpand.ExpandEnv sample_host "100$" = "100$".
Proof. repeat split. Qed.

Example EnvPrefix_value : EnvPrefix = "GO_CLI".
Proof. reflexivity. Qed.

Example parse_examples :
  Toml.parse_value ("42 # answer") = Some (Toml.VInteger 42) /\
  Toml.parse_value "007" = None /\
  Toml.parse_value "true" = Some (Toml.VBoolean true) /\
  Toml.parse ("a = 1" +:+ nl +:+ "a = 2") = None /\
  Toml.parse ("DEBUG resolved paths: config=/app.toml") = None.
Proof. repeat split. Qed.

(** The rounds given to [os.Expand] never run out: any larger number of
    rounds computes the same string. *)
Lemma drop_length n s : (String.length (Strings.drop n s) <= String.length s)%nat.
Proof.
  revert s. induction n as [|n IH]; intros [|c r]; cbn; try lia.
  specialize (IH r). lia.
Qed.

Lemma expand_loop_fuel mapping : forall n m s,
  (String.length s <= n)%nat -> (String.length s <= m)%nat ->
  OsExpand.expand_loop n mapping s = OsExpand.expand_loop m mapping s.
Proof.
  induction n as [|n IH]; intros m s Hn Hm.
  - destruct s; [|cbn in Hn; lia]. by destruct m.
  - destruct s as [|c r]; [by destruct m|].
    destruct m as [|m]; [cbn in Hm; lia|].
    cbn [OsExpand.expand_loop String.length] in *.
    destruct (Ascii.eqb c "$" && negb (String.eqb r "")).
    + destruct (OsExpand.getShellName r) as [name k]. f_equal.
      pose proof (drop_length k r). apply IH; lia.
    + f_equal. apply IH; lia.
Qed.

(** Likewise for [os.MkdirAll]: the parent is shorter than the path. *)
Lemma take_length n s : String.length (Strings.take n s) = Nat.min n (String.length s).
Proof.
  revert s. induction n as [|n IH]; intros [|c r]; cbn; try reflexivity.
  by rewrite IH.
Qed.

Lemma last_sep_bound s : forall i acc,
  (acc <= i)%nat -> (Filepath.last_sep i acc s <= i + String.length s)%nat.
Proof.
  induction s as [|c r IH]; intros i acc Hacc; cbn; [lia|].
  destruct (Ascii.eqb c Filepath.Separator).
  - specialize (IH (S i) (S i)). lia.
  - specialize (IH (S i) acc). lia.
Qed.

Lemma mkdirall_parent_shorter path parent :
  mkdirall_parent path = Some parent ->
  (String.length parent < String.length path)%nat.
Proof.
  unfold mkdirall_parent. cbv zeta.
  set (i := rstrip_len 0 0 path).
  set (j := Filepath.last_sep 0 0 (Strings.take i path)).
  destruct (Nat.ltb_spec 1 j) as [Hj|]; [|discriminate].
  intros [= <-]. rewrite take_length.
  pose proof (last_sep_bound (Strings.take i path) 0 0 (Nat.le_refl 0)) as Hb.
  fold j in Hb. rewrite take_length in Hb. lia.
Qed.

Lemma MkdirAll_loop_fuel h : forall n m path,
  (String.length path <= n)%nat -> (String.length path <= m)%nat ->
  MkdirAll_loop h n path = MkdirAll_loop h m path.
Proof.
  induction n as [|n IH]; intros m path Hn Hm.
  - destruct m as [|m]; [reflexivity|]. cbn [MkdirAll_loop].
    destruct (mkdirall_parent path) as [parent|] eqn:Hp; [|reflexivity].
    apply mkdirall_parent_shorter in Hp. lia.
  - destruct m as [|m].
    + cbn [MkdirAll_loop].
      destruct (mkdirall_parent path) as [parent|] eqn:Hp; [|reflexivity].
      apply mkdirall_parent_shorter in Hp. lia.
    + cbn [MkdirAll_loop].
      destruct (mkdirall_parent path) as [parent|] eqn:Hp; [|reflexivity].
      apply mkdirall_parent_shorter in Hp.
      rewrite (IH m parent); [reflexivity|lia|lia].
Qed.

(** ** Reasoning about the monad *)

Lemma bind_inv {A B} (m : M A) (k : A -> M B) w r w' :
  bind m k w = (r, w') ->
  (exists a w1, m w = (Ok a, w1) /\ k a w1 = (r, w')) \/
  (exists e, m w = (Err e, w') /\ r = Err e).
Proof.
  unfold bind. destruct (m w) as [[a|e] w1].
  - intros H. left. eauto.
  - intros [= <- <-]. right. eauto.
Qed.

Lemma bind_ok_inv {A B} (m : M A) (k : A -> M B) w b w' :
  bind m k w = (Ok b, w') ->
  exists a w1, m w = (Ok a, w1) /\ k a w1 = (Ok b, w').
Proof.
  intros H. apply bind_inv in H as [H|(e & _ & H)]; [exact H|discriminate].
Qed.

Lemma attempt_inv {A B} (m : M A) (k : result A -> M B) w r w' :
  attempt m k w = (r, w') ->
  exists r1 w1, m w = (r1, w1) /\ k r1 w1 = (r, w').
Proof.
  unfold attempt. destruct (m w) as [r1 w1]. eauto.
Qed.


Lemma attempt_eq {A B} (m : M A) (k : result A -> M B) w r1 w1 :
  m w = (r1, w1) -> attempt m k w = k r1 w1.
Proof. unfold attempt. by intros ->. Qed.

Lemma lift_inv {A} (r : result A) w r' w' :
  lift r w = (r', w') -> r' = r /\ w' = w.
Proof. unfold lift. by intros [= <- <-]. Qed.

(** ** The relations between worlds *)

Lemma node_at_after_call c w p : node_at (after_call c w) p = node_at w p.
Proof. reflexivity. Qed.

Lemma node_at_files w w' p : files w' = files w -> node_at w' p = node_at w p.
Proof. unfold node_at. by intros ->. Qed.

Lemma missing_files w w' p : files w' = files w -> missing w' p = missing w p.
Proof.
  intros E. unfold missing.
  assert (Hf : forall q, is_file w' q = is_file w q).
  { intros q. unfold is_file. by rewrite (node_at_files _ _ _ E). }
  assert (He : forall qs, existsb (is_file w') qs = existsb (is_file w) qs).
  { induction qs as [|q qs IH]; [reflexivity|]. cbn [existsb]. by rewrite Hf, IH. }
  by rewrite He.
Qed.

Lemma extends_refl w : extends w w.
Proof. by intros p n. Qed.

Lemma extends_trans w1 w2 w3 : extends w1 w2 -> extends w2 w3 -> extends w1 w3.
Proof. intros H1 H2 p n Hp. eauto. Qed.

Lemma extends_files w w' : files w' = files w -> extends w w'.
Proof. intros E p n. by rewrite (node_at_files _ _ _ E). Qed.

Lemma mkdirs_refl w : mkdirs w w.
Proof. intros p. by left. Qed.

Lemma mkdirs_files w w' : files w' = files w -> mkdirs w w'.
Proof. intros E p. left. by apply node_at_files. Qed.

Lemma mkdirs_trans w1 w2 w3 : mkdirs w1 w2 -> mkdirs w2 w3 -> mkdirs w1 w3.
Proof.
  intros H1 H2 p. destruct (H1 p) as [E1|[N1 D1]], (H2 p) as [E2|[N2 D2]].
  - left. congruence.
  - right. split; congruence.
  - right. split; congruence.
  - congruence.
Qed.

Lemma mkdirs_extends w w' : mkdirs w w' -> extends w w'.
Proof. intros H p n Hp. destruct (H p) as [E|[N _]]; congruence. Qed.

Lemma extends_grows w w' : extends w w' -> grows w w'.
Proof. intros H p n Hp. exists n. split; [by apply H|reflexivity]. Qed.

Lemma grows_refl w : grows w w.
Proof. apply extends_grows, extends_refl. Qed.

Lemma grows_trans w1 w2 w3 : grows w1 w2 -> grows w2 w3 -> grows w1 w3.
Proof.
  intros H1 H2 p n Hp. destruct (H1 p n Hp) as (n1 & Hn1 & E1).
  destruct (H2 p n1 Hn1) as (n2 & Hn2 & E2). exists n2. split; [done|congruence].
Qed.

Lemma untouched_refl w : untouched w w.
Proof. repeat split. by exists []. Qed.

Lemma untouched_trans w1 w2 w3 : untouched w1 w2 -> untouched w2 w3 -> untouched w1 w3.
Proof.
  intros (F1 & H1 & c1 & T1 & C1) (F2 & H2 & c2 & T2 & C2).
  split; [congruence|]. split; [congruence|].
  exists (c2 ++ c1)%list. split.
  - by rewrite T2, T1, app_assoc.
  - by rewrite forallb_app, C1, C2.
Qed.

Lemma untouched_call c w :
  creates_nothing c = true -> untouched w (after_call c w).
Proof.
  intros Hc. repeat split. exists [c]. split; [reflexivity|]. cbn. by rewrite Hc.
Qed.

Lemma untouched_extends w w' : untouched w w' -> extends w w'.
Proof. intros (F & _). by apply extends_files. Qed.

(** ** The system calls *)

Lemma Stat_eq h p w : Stat h p w = (stat_outcome h w p, after_call (SysStat p) w).
Proof.
  unfold Stat, stat_outcome, bind, log_call. cbn.
  destruct (decide (p ∈ denied h)); [reflexivity|].
  change (node_at (mkWorld (files w) (handles w) (stderr w) (SysStat p :: trace w)) p)
    with (node_at w p).
  destruct (node_at w p); reflexivity.
Qed.

Lemma ReadFile_eq h p w : ReadFile h p w = (read_outcome h w p, after_call (SysReadFile p) w).
Proof.
  unfold ReadFile, read_outcome, bind, log_call. cbn.
  destruct (decide (p ∈ denied h)); [reflexivity|].
  change (node_at (mkWorld (files w) (handles w) (stderr w) (SysReadFile p :: trace w)) p)
    with (node_at w p).
  destruct (node_at w p) as [[c|]|]; reflexivity.
Qed.

Lemma stat_outcome_files h w w' p :
  files w' = files w -> stat_outcome h w' p = stat_outcome h w p.
Proof.
  intros E. unfold stat_outcome.
  by rewrite (node_at_files _ _ _ E), (missing_files _ _ _ E).
Qed.

Lemma read_outcome_files h w w' p :
  files w' = files w -> read_outcome h w' p = read_outcome h w p.
Proof.
  intros E. unfold read_outcome.
  by rewrite (node_at_files _ _ _ E), (missing_files _ _ _ E).
Qed.

Lemma stat_outcome_ok h w p n :
  (stat_outcome h w p = Ok n) <-> ((p ∉ denied h) /\ node_at w p = Some n).
Proof.
  unfold stat_outcome. destruct (decide (p ∈ denied h)).
  - split; [discriminate|]. by intros [? _].
  - destruct (node_at w p); split; try discriminate.
    + by intros [= ->].
    + by intros [_ [= ->]].
    + by intros [_ ?].
Qed.

Lemma read_outcome_ok h w p c :
  (read_outcome h w p = Ok c) <-> ((p ∉ denied h) /\ node_at w p = Some (File c)).
Proof.
  unfold read_outcome. destruct (decide (p ∈ denied h)).
  - split; [discriminate|]. by intros [? _].
  - destruct (node_at w p) as [[c'|]|]; split; try discriminate.
    + by intros [= ->].
    + by intros [_ [= ->]].
    + by intros [_ ?].
    + by intros [_ ?].
Qed.

(** A node put at a name that was free. *)
Lemma node_at_insert_free w path n p :
  node_at w path = None ->
  node_at (mkWorld (<[path := n]> (files w)) (handles w) (stderr w) (trace w)) p
    = if decide (p = path) then Some n else node_at w p.
Proof.
  unfold node_at. intros Hfree. cbn.
  destruct (String.eqb path "/" || String.eqb path ".") eqn:Hr; [discriminate|].
  destruct (decide (p = path)) as [->|Hne].
  - by rewrite Hr, lookup_insert_eq.
  - destruct (String.eqb p "/" || String.eqb p "."); [reflexivity|].
    by rewrite lookup_insert_ne.
Qed.

Lemma Mkdir_spec h path w r w' :
  Mkdir h path w = (r, w') ->
  mkdirs w w' /\ handles w' = handles w /\ stderr w' = stderr w /\
  (r = Ok tt -> node_at w' path = Some Directory /\ path ∉ denied h).
Proof.
  unfold Mkdir, bind, log_call. cbn.
  change (node_at (mkWorld (files w) (handles w) (stderr w) (SysMkdir path :: trace w)))
    with (node_at w).
  destruct (decide (path ∈ denied h)).
  { intros [= <- <-]. split; [by apply mkdirs_files|]. repeat split; discriminate. }
  destruct (node_at w path) eqn:Hp.
  { intros [= <- <-]. split; [by apply mkdirs_files|]. repeat split; discriminate. }
  destruct (node_at w (Filepath.Dir path)) as [[c|]|].
  1,3: intros [= <- <-]; (split; [by apply mkdirs_files|]); repeat split; discriminate.
  unfold set_files. cbn. intros [= <- <-].
  pose proof (node_at_insert_free (after_call (SysMkdir path) w) path Directory) as Hi.
  cbn in Hi. split; [|repeat split; try done].
  - intros p. rewrite Hi by exact Hp.
    destruct (decide (p = path)) as [->|]; [right|left]; done.
  - rewrite Hi by exact Hp. by destruct (decide (path = path)).
Qed.

Lemma stat_outcome_after h c w p : stat_outcome h (after_call c w) p = stat_outcome h w p.
Proof. by apply stat_outcome_files. Qed.

(** [MkdirAll]: only directories appear, and on success the path is a
    directory the system lets us use. *)
Lemma MkdirAll_loop_spec h fuel : forall path w r w',
  MkdirAll_loop h fuel path w = (r, w') ->
  mkdirs w w' /\ handles w' = handles w /\ stderr w' = stderr w /\
  (r = Ok tt -> node_at w' path = Some Directory /\ path ∉ denied h).
Proof.
  assert (Htail : forall path w r w',
    (attempt (Mkdir h path) (fun mk =>
       match mk with
       | Ok _ => ret tt
       | Err err =>
           attempt (Stat h path) (fun st1 =>
             match st1 with
             | Ok dir => if IsDir dir then ret tt else fail err
             | Err _ => fail err
             end)
       end)) w = (r, w') ->
    mkdirs w w' /\ handles w' = handles w /\ stderr w' = stderr w /\
    (r = Ok tt -> node_at w' path = Some Directory /\ path ∉ denied h)).
  { intros path w r w' H.
    apply attempt_inv in H as (mk & w1 & Hmk & H).
    apply Mkdir_spec in Hmk as (Hm & Hh & Hs & Hok).
    destruct mk as [[]|err].
    - unfold ret in H. injection H as <- <-. repeat split; try done; by apply Hok.
    - rewrite (attempt_eq _ _ _ _ _ (Stat_eq h path w1)) in H.
      assert (Hm' : mkdirs w (after_call (SysStat path) w1)).
      { eapply mkdirs_trans; [exact Hm|]. by apply mkdirs_files. }
      destruct (stat_outcome h w1 path) as [dir|e] eqn:Hst.
      + apply stat_outcome_ok in Hst as [Hnd Hn].
        destruct dir; cbn in H; unfold fail, ret in H; injection H as <- <-;
          (split; [exact Hm'|]); repeat split; try done.
      + unfold fail in H. injection H as <- <-.
        (split; [exact Hm'|]); repeat split; try done. }
  induction fuel as [|fuel IH]; intros path w r w' H.
  - cbn [MkdirAll_loop] in H.
    rewrite (attempt_eq _ _ _ _ _ (Stat_eq h path w)) in H.
    destruct (stat_outcome h w path) as [dir|e] eqn:Hst.
    + apply stat_outcome_ok in Hst as [Hnd Hn].
      destruct dir; cbn in H; unfold fail, ret in H; injection H as <- <-;
        (split; [by apply mkdirs_files|]); repeat split; try done.
    + assert (H' : (ret tt >> attempt (Mkdir h path) (fun mk =>
         match mk with
         | Ok _ => ret tt
         | Err err =>
             attempt (Stat h path) (fun st1 =>
               match st1 with
               | Ok dir => if IsDir dir then ret tt else fail err
               | Err _ => fail err
               end)
         end)) (after_call (SysStat path) w) = (r, w')).
      { destruct (mkdirall_parent path); exact H. }
      clear H. unfold bind at 1, ret at 1 in H'.
      apply Htail in H' as (Hm & Hh & Hs & Hok).
      split; [|split; [exact Hh|split; [exact Hs|exact Hok]]].
      eapply mkdirs_trans; [|exact Hm]. by apply mkdirs_files.
  - cbn [MkdirAll_loop] in H.
    rewrite (attempt_eq _ _ _ _ _ (Stat_eq h path w)) in H.
    destruct (stat_outcome h w path) as [dir|e] eqn:Hst.
    + apply stat_outcome_ok in Hst as [Hnd Hn].
      destruct dir; cbn in H; unfold fail, ret in H; injection H as <- <-;
        (split; [by apply mkdirs_files|]); repeat split; try done.
    + apply bind_inv in H as [(u & w1 & Hpar & H)|(e' & Hpar & ->)].
      * assert (Hp : mkdirs (after_call (SysStat path) w) w1 /\
                     handles w1 = handles w /\ stderr w1 = stderr w).
        { destruct (mkdirall_parent path) as [parent|].
          - apply IH in Hpar as (Hm & Hh & Hs & _). by repeat split.
          - unfold ret in Hpar. injection Hpar as <- <-.
            repeat split. apply mkdirs_refl. }
        destruct Hp as (Hm1 & Hh1 & Hs1).
        apply Htail in H as (Hm & Hh & Hs & Hok).
        split; [|split; [congruence|split; [congruence|exact Hok]]].
        eapply mkdirs_trans; [by apply (mkdirs_files w (after_call (SysStat path) w))|].
        eapply mkdirs_trans; [exact Hm1|exact Hm].
      * destruct (mkdirall_parent path) as [parent|].
        -- apply IH in Hpar as (Hm & Hh & Hs & _).
           split; [|repeat split; try done].
           eapply mkdirs_trans; [by apply (mkdirs_files w (after_call (SysStat path) w))|].
           exact Hm.
        -- discriminate.
Qed.

Lemma MkdirAll_spec h path w r w' :
  MkdirAll h path w = (r, w') ->
  mkdirs w w' /\ handles w' = handles w /\ stderr w' = stderr w /\
  (r = Ok tt -> node_at w' path = Some Directory /\ path ∉ denied h).
Proof. apply MkdirAll_loop_spec. Qed.

(** On a directory that is there, [MkdirAll] only looks. *)
Lemma MkdirAll_existing h path w :
  node_at w path = Some Directory -> path ∉ denied h ->
  MkdirAll h path w = (Ok tt, after_call (SysStat path) w).
Proof.
  intros Hn Hd. unfold MkdirAll.
  assert (Hst : stat_outcome h w path = Ok Directory) by by apply stat_outcome_ok.
  destruct (String.length path);
    cbn [MkdirAll_loop]; rewrite (attempt_eq _ _ _ _ _ (Stat_eq h path w)), Hst;
    reflexivity.
Qed.

Lemma node_at_insert w path n p :
  node_at w path <> Some Directory ->
  node_at (mkWorld (<[path := n]> (files w)) (handles w) (stderr w) (trace w)) p
    = if decide (p = path) then Some n else node_at w p.
Proof.
  unfold node_at. intros Hfree. cbn.
  destruct (String.eqb path "/" || String.eqb path ".") eqn:Hr; [done|].
  destruct (decide (p = path)) as [->|Hne].
  - by rewrite Hr, lookup_insert_eq.
  - destruct (String.eqb p "/" || String.eqb p "."); [reflexivity|].
    by rewrite lookup_insert_ne.
Qed.

Lemma WriteFile_spec h path data w r w' :
  WriteFile h path data w = (r, w') ->
  handles w' = handles w /\ stderr w' = stderr w /\
  ((forall c, node_at w path <> Some (File c)) -> extends w w') /\
  (r = Ok tt -> node_at w' path = Some (File data) /\ path ∉ denied h).
Proof.
  unfold WriteFile, bind, log_call. cbn.
  change (node_at (mkWorld (files w) (handles w) (stderr w) (SysWriteFile path :: trace w)))
    with (node_at w).
  destruct (decide (path ∈ denied h)).
  { intros [= <- <-]. repeat split; try discriminate. intros _. by apply extends_files. }
  pose proof (node_at_insert (after_call (SysWriteFile path) w) path (File data)) as Hi.
  cbn in Hi.
  change (node_at (after_call (SysWriteFile path) w)) with (node_at w) in Hi.
  destruct (node_at w path) as [[c|]|] eqn:Hp.
  - unfold set_files. cbn. intros [= <- <-]. repeat split; try done.
    + intros Hno. by destruct (Hno c).
    + rewrite Hi by done. by destruct (decide (path = path)).
  - intros [= <- <-]. repeat split; try discriminate. intros _. by apply extends_files.
  - destruct (node_at w (Filepath.Dir path)) as [[c|]|].
    1,3: intros [= <- <-]; repeat split; try discriminate; intros _; by apply extends_files.
    unfold set_files. cbn. intros [= <- <-]. repeat split; try done.
    + intros _ p n' Hn'. rewrite Hi by done.
      destruct (decide (p = path)) as [->|]; [congruence|done].
    + rewrite Hi by done. by destruct (decide (path = path)).
Qed.

(** [writeDefaultConfig] at a free name: nothing that is there changes,
    and on success the name holds the default document. *)
Lemma writeDefaultConfig_spec h path w r w' :
  writeDefaultConfig h path w = (r, w') ->
  node_at w path = None ->
  extends w w' /\ handles w' = handles w /\ stderr w' = stderr w /\
  (r = Ok tt ->
   node_at w' path = Some (File (defaultConfigHeader path +:+ defaultConfigBody)) /\
   path ∉ denied h).
Proof.
  unfold writeDefaultConfig. intros H Hfree.
  apply attempt_inv in H as (r1 & w1 & Hmk & H).
  apply MkdirAll_spec in Hmk as (Hm & Hh & Hs & _).
  destruct r1 as [[]|err].
  - apply attempt_inv in H as (r2 & w2 & Hwf & H).
    apply WriteFile_spec in Hwf as (Hh2 & Hs2 & Hext & Hok).
    assert (Hx : extends w w2).
    { eapply extends_trans; [by apply mkdirs_extends|]. apply Hext.
      intros c Hc. destruct (Hm path) as [E|[_ D]]; congruence. }
    destruct r2 as [[]|err]; unfold ret, fail in H; injection H as <- <-.
    + split; [exact Hx|]. split; [congruence|]. split; [congruence|]. intros _. by apply Hok.
    + split; [exact Hx|]. split; [congruence|]. split; [congruence|]. discriminate.
  - unfold fail in H. injection H as <- <-.
    split; [by apply mkdirs_extends|]. repeat split; try done.
Qed.

Lemma OpenFileAppend_spec h path w r w' :
  OpenFileAppend h path w = (r, w') ->
  extends w w' /\ stderr w' = stderr w /\
  match r with
  | Ok fd => fd = length (handles w) /\ handles w' = (handles w ++ [(path, true)])%list /\
             (path ∉ denied h) /\ exists c, node_at w' path = Some (File c)
  | Err _ => handles w' = handles w
  end.
Proof.
  unfold OpenFileAppend, bind, log_call. cbn.
  change (node_at (mkWorld (files w) (handles w) (stderr w) (SysOpenFile path :: trace w)))
    with (node_at w).
  destruct (decide (path ∈ denied h)).
  { intros [= <- <-]. repeat split. by apply extends_files. }
  pose proof (node_at_insert (after_call (SysOpenFile path) w) path (File "")) as Hi.
  cbn in Hi.
  change (node_at (after_call (SysOpenFile path) w)) with (node_at w) in Hi.
  destruct (node_at w path) as [[c|]|] eqn:Hp.
  - unfold push_handle. cbn. intros [= <- <-]. cbn.
    split; [by apply extends_files|]. repeat split; try done. by exists c.
  - intros [= <- <-]. repeat split. by apply extends_files.
  - destruct (node_at w (Filepath.Dir path)) as [[c|]|].
    1,3: intros [= <- <-]; repeat split; by apply extends_files.
    unfold set_files, push_handle. cbn. intros [= <- <-]. cbn.
    assert (Hn : forall p, node_at
       (mkWorld (<[path:=File ""]> (files w)) (handles w ++ [(path, true)])
          (stderr w) (SysOpenFile path :: trace w)) p
       = if decide (p = path) then Some (File "") else node_at w p).
    { intros p. rewrite <- Hi by done. reflexivity. }
    repeat split; try done.
    + intros p n' Hn'. rewrite Hn.
      destruct (decide (p = path)) as [->|]; [congruence|done].
    + exists "". rewrite Hn. by destruct (decide (path = path)).
Qed.










(** ** The stages of the bootstrap *)

Lemma LoadOrInitConfig_unfold {D : Toml.Decoder} h paths flags :
  LoadOrInitConfig h paths flags =
    (attempt (Stat h (ConfigFile paths)) (fun r =>
      match r with
      | Err err =>
          if IsNotExist err then
            if DryRun flags then
              WriteString Stderr
                ("dry-run: would create default config at " +:+ ConfigFile paths +:+ nl)
            else writeDefaultConfig h (ConfigFile paths)
          else fail (ErrStatConfig err)
      | Ok _ => ret tt
      end) >> load_tail h paths flags).
Proof. reflexivity. Qed.

Lemma load_tail_eq {D : Toml.Decoder} h paths flags w :
  load_tail h paths flags w =
    (load_outcome h (ConfigFile paths) (DryRun flags)
       (read_outcome h w (ConfigFile paths)),
     after_call (SysReadFile (ConfigFile paths)) w).
Proof.
  assert (Hdec : forall v w1,
    (let* cfg := lift (Unmarshal h v defaultConfig) in
     let* cfg :=
       if negb (String.eqb (Logging_File (Logging cfg)) "") then
         match expandPath h (Logging_File (Logging cfg)) with
         | Err err => fail (ErrExpandLogFile err)
         | Ok expanded =>
             ret {| Profile := Profile cfg;
                    Logging := {| Logging_Level := Logging_Level (Logging cfg);
                                  Logging_File := expanded |};
                    Runtime := Runtime cfg;
                    Paths := Paths cfg |}
         end
       else ret cfg in
     let cfg :=
       match Runtime_TimeoutSeconds (Runtime cfg) with
       | None =>
           let defaultTimeout := 60 in
           {| Profile := Profile cfg;
              Logging := Logging cfg;
              Runtime := {| Runtime_Parallelism := Runtime_Parallelism (Runtime cfg);
                            Runtime_TimeoutSeconds := Some defaultTimeout;
                            Runtime_FailFast := Runtime_FailFast (Runtime cfg) |};
              Paths := Paths cfg |}
       | Some _ => cfg
       end in
     ret cfg) w1 = (decode_config h v, w1)).
  { intros v w1. unfold decode_config, bind, lift, ret, fail, rbind.
    destruct (Unmarshal h v defaultConfig) as [cfg|e]; [|reflexivity].
    destruct (negb (String.eqb (Logging_File (Logging cfg)) "")); [|reflexivity].
    destruct (expandPath h (Logging_File (Logging cfg))); reflexivity. }
  unfold load_tail. cbv zeta. fold (base_viper (ConfigFile paths)).
  unfold bind at 1. unfold attempt, Viper.ReadInConfig.
  change (Viper.configFile (base_viper (ConfigFile paths))) with (ConfigFile paths).
  unfold bind at 1. rewrite ReadFile_eq. unfold load_outcome.
  destruct (read_outcome h w (ConfigFile paths)) as [text|err].
  - destruct (Toml.Unmarshal text) as [doc|].
    + unfold ret at 1. unfold ret at 1. apply Hdec.
    + unfold fail at 1. cbv beta iota. unfold is_ConfigFileNotFoundError.
      cbn [IsNotExist negb]. rewrite andb_false_r. reflexivity.
  - unfold is_ConfigFileNotFoundError. cbn [negb andb].
    destruct (negb (DryRun flags && IsNotExist err)); [reflexivity|].
    unfold ret at 1. apply Hdec.
Qed.

Lemma read_outcome_after h c w p : read_outcome h (after_call c w) p = read_outcome h w p.
Proof. by apply read_outcome_files. Qed.

Lemma stat_outcome_missing h w p e :
  stat_outcome h w p = Err e -> IsNotExist e = true -> node_at w p = None.
Proof.
  unfold stat_outcome. destruct (decide (p ∈ denied h)); [by intros [= <-]|].
  destruct (node_at w p); [discriminate|done].
Qed.

(** When the file is there, [LoadOrInitConfig] looks at it and reads it,
    nothing else. *)
Lemma LoadOrInitConfig_existing {D : Toml.Decoder} h paths flags w n :
  stat_outcome h w (ConfigFile paths) = Ok n ->
  LoadOrInitConfig h paths flags w =
    (load_outcome h (ConfigFile paths) (DryRun flags)
       (read_outcome h w (ConfigFile paths)),
     after_call (SysReadFile (ConfigFile paths))
       (after_call (SysStat (ConfigFile paths)) w)).
Proof.
  intros Hst. rewrite LoadOrInitConfig_unfold. unfold bind.
  rewrite (attempt_eq _ _ _ _ _ (Stat_eq h _ w)), Hst. unfold ret.
  by rewrite load_tail_eq, read_outcome_after.
Qed.

Lemma LoadOrInitConfig_spec {D : Toml.Decoder} h paths flags w r w' :
  LoadOrInitConfig h paths flags w = (r, w') ->
  extends w w' /\ handles w' = handles w /\
  (DryRun flags = true -> untouched w w') /\
  (is_Some (node_at w (ConfigFile paths)) -> untouched w w') /\
  (forall cfg, r = Ok cfg ->
     load_outcome h (ConfigFile paths) (DryRun flags)
       (read_outcome h w' (ConfigFile paths)) = Ok cfg /\
     (DryRun flags = false -> exists text, read_outcome h w' (ConfigFile paths) = Ok text)).
Proof.
  set (C := ConfigFile paths).
  assert (Htail : forall w1 r w',
    load_tail h paths flags w1 = (r, w') ->
    untouched w1 w' /\
    (forall cfg, r = Ok cfg ->
       load_outcome h C (DryRun flags) (read_outcome h w' C) = Ok cfg /\
       (DryRun flags = false -> exists text, read_outcome h w' C = Ok text))).
  { intros w1 r1 w1'. rewrite load_tail_eq. intros [= <- <-].
    split; [by apply untouched_call|]. intros cfg Hcfg.
    rewrite read_outcome_after. split; [exact Hcfg|]. intros Hdry.
    unfold load_outcome in Hcfg. fold C in Hcfg |- *.
    destruct (read_outcome h w1 C) as [text|err]; [by eexists|].
    rewrite Hdry in Hcfg. cbn in Hcfg. discriminate. }
  rewrite LoadOrInitConfig_unfold. fold C. intros H.
  apply bind_inv in H as [(u & w1 & Hstat & H)|(e & Hstat & ->)].
  - apply Htail in H as (Hu & Hcfg).
    rewrite (attempt_eq _ _ _ _ _ (Stat_eq h _ w)) in Hstat.
    destruct (stat_outcome h w C) as [n|err] eqn:Hst.
    + unfold ret in Hstat. injection Hstat as <- <-.
      assert (Hu' : untouched w w').
      { eapply untouched_trans; [|exact Hu]. by apply untouched_call. }
      split; [by apply untouched_extends|]. split; [apply Hu'|].
      split; [done|]. split; [done|]. exact Hcfg.
    + destruct (IsNotExist err) eqn:Hne; [|discriminate].
      pose proof (stat_outcome_missing _ _ _ _ Hst Hne) as Hfree.
      destruct (DryRun flags) eqn:Hdry.
      * cbn in Hstat. unfold bind, log_call in Hstat. cbn in Hstat.
        injection Hstat as <- <-.
        assert (Hu' : untouched w w').
        { eapply untouched_trans; [|exact Hu]. repeat split.
          eexists [_; _]. split; [reflexivity|]. reflexivity. }
        split; [by apply untouched_extends|]. split; [apply Hu'|].
        split; [done|]. split; [done|]. exact Hcfg.
      * apply writeDefaultConfig_spec in Hstat as (Hx & Hh & Hs & _); [|exact Hfree].
        split; [|split; [|split; [done|split]]].
        -- eapply extends_trans; [exact Hx|]. by apply untouched_extends.
        -- destruct Hu as (_ & -> & _). exact Hh.
        -- fold C. rewrite Hfree. by intros [? ?].
        -- exact Hcfg.
  - rewrite (attempt_eq _ _ _ _ _ (Stat_eq h _ w)) in Hstat.
    assert (Hcfg : forall cfg, @Err AppConfig e = Ok cfg ->
       load_outcome h C (DryRun flags) (read_outcome h w' C) = Ok cfg /\
       (DryRun flags = false -> exists text, read_outcome h w' C = Ok text))
      by discriminate.
    destruct (stat_outcome h w C) as [n|err] eqn:Hst; [discriminate|].
    destruct (IsNotExist err) eqn:Hne.
    + pose proof (stat_outcome_missing _ _ _ _ Hst Hne) as Hfree.
      destruct (DryRun flags) eqn:Hdry.
      * cbn in Hstat. unfold bind, log_call in Hstat. cbn in Hstat. discriminate.
      * apply writeDefaultConfig_spec in Hstat as (Hx & Hh & Hs & _); [|exact Hfree].
        split; [exact Hx|]. split; [exact Hh|]. split; [done|]. split; [|exact Hcfg].
        fold C. rewrite Hfree. by intros [? ?].
    + unfold fail in Hstat. injection Hstat as <- <-.
      assert (Hu' : untouched w (after_call (SysStat C) w)) by by apply untouched_call.
      split; [by apply untouched_extends|]. split; [done|]. split; [done|]. split; [done|].
      exact Hcfg.
Qed.

(** [resolveConfigFile] as a function of what [Stat] reports. *)
Lemma resolveConfigFile_eq h app override w :
  resolveConfigFile h app override w =
    if nonempty override then
      match expandPath h override with
      | Err e => (Err e, w)
      | Ok path =>
          (Ok match stat_outcome h w path with
              | Ok info =>
                  if IsDir info then Filepath.Join [path; "config.toml"] else path
              | Err _ => path
              end,
           after_call (SysStat path) w)
      end
    else
      match defaultConfigDir h app with
      | Err e => (Err e, w)
      | Ok dir => (Ok (Filepath.Join [dir; "config.toml"]), w)
      end.
Proof.
  unfold resolveConfigFile. destruct (nonempty override).
  - unfold bind, lift. destruct (expandPath h override) as [path|e]; [|reflexivity].
    rewrite (attempt_eq _ _ _ _ _ (Stat_eq h _ w)).
    destruct (stat_outcome h w path) as [info|err]; [|reflexivity].
    destruct (IsDir info); reflexivity.
  - unfold bind, lift. destruct (defaultConfigDir h app); reflexivity.
Qed.

Lemma DiscoverPaths_eq h app override w :
  DiscoverPaths h app override w =
    match resolveConfigFile h app override w with
    | (Err e, w') => (Err e, w')
    | (Ok configFile, w') =>
        (let+ dataDir := defaultDataDir h app in
         let+ stateDir := defaultStateDir h app in
         Ok {| ConfigFile := configFile; DataDir := dataDir; StateDir := stateDir |},
         w')
    end.
Proof.
  unfold DiscoverPaths, bind at 1.
  destruct (resolveConfigFile h app override w) as [[c|e] w1]; [|reflexivity].
  unfold bind, lift, ret, rbind.
  destruct (defaultDataDir h app); [|reflexivity].
  destruct (defaultStateDir h app); reflexivity.
Qed.

Lemma resolveConfigFile_untouched h app override w r w' :
  resolveConfigFile h app override w = (r, w') ->
  untouched w w' /\ stderr w' = stderr w.
Proof.
  rewrite resolveConfigFile_eq. destruct (nonempty override).
  - destruct (expandPath h override); intros [= <- <-].
    + split; [by apply untouched_call|reflexivity].
    + split; [apply untouched_refl|reflexivity].
  - destruct (defaultConfigDir h app); intros [= <- <-];
      (split; [apply untouched_refl|reflexivity]).
Qed.

Lemma DiscoverPaths_untouched h app override w r w' :
  DiscoverPaths h app override w = (r, w') ->
  untouched w w' /\ stderr w' = stderr w.
Proof.
  rewrite DiscoverPaths_eq.
  destruct (resolveConfigFile h app override w) as [[c|e] w1] eqn:Hr;
    intros [= <- <-]; by eapply resolveConfigFile_untouched.
Qed.

(** [ensure_each]: only directories appear; on success every named
    directory is there. *)
Lemma ensure_each_spec h : forall dirs w r w',
  ensure_each h dirs w = (r, w') ->
  mkdirs w w' /\ handles w' = handles w /\ stderr w' = stderr w /\
  (r = Ok tt -> forall d, d ∈ dirs -> d <> "" ->
     node_at w' d = Some Directory /\ d ∉ denied h).
Proof.
  induction dirs as [|dir rest IH]; intros w r w' H.
  - unfold ensure_each, ret in H. injection H as <- <-.
    split; [apply mkdirs_refl|]. split; [done|]. split; [done|].
    intros _ d Hin. by apply elem_of_nil in Hin.
  - cbn [ensure_each] in H. destruct (String.eqb_spec dir "") as [->|Hne].
    + apply IH in H as (Hm & Hh & Hs & Hok).
      split; [done|]. split; [done|]. split; [done|].
      intros Hr d Hin Hd. apply elem_of_cons in Hin as [->|Hin]; [done|by apply Hok].
    + apply attempt_inv in H as (r1 & w1 & Hmk & H).
      apply MkdirAll_spec in Hmk as (Hm1 & Hh1 & Hs1 & Hok1).
      destruct r1 as [[]|err].
      * apply IH in H as (Hm & Hh & Hs & Hok).
        split; [by eapply mkdirs_trans|]. split; [congruence|]. split; [congruence|].
        intros -> d Hin Hd. apply elem_of_cons in Hin as [->|Hin]; [|by apply Hok].
        destruct (Hok1 eq_refl) as [Hdir Hden]. split; [|done].
        by apply (mkdirs_extends _ _ Hm).
      * unfold fail in H. injection H as <- <-.
        split; [done|]. split; [done|]. split; [done|]. discriminate.
Qed.

Lemma ensure_each_existing h : forall dirs w,
  (forall d, d ∈ dirs -> d <> "" -> node_at w d = Some Directory /\ d ∉ denied h) ->
  exists w', ensure_each h dirs w = (Ok tt, w') /\ untouched w w' /\ stderr w' = stderr w.
Proof.
  induction dirs as [|dir rest IH]; intros w Hall.
  - exists w. split; [reflexivity|]. split; [apply untouched_refl|reflexivity].
  - cbn [ensure_each]. destruct (String.eqb_spec dir "") as [->|Hne].
    + apply IH. intros d Hin. apply Hall. by right.
    + destruct (Hall dir) as [Hdir Hden]; [left|done|].
      rewrite (attempt_eq _ _ _ _ _ (MkdirAll_existing h dir w Hdir Hden)).
      destruct (IH (after_call (SysStat dir) w)) as (w' & He & Hu & Hs).
      { intros d Hin Hd. rewrite node_at_after_call. apply Hall; [by right|done]. }
      exists w'. split; [exact He|]. split; [|exact Hs].
      eapply untouched_trans; [|exact Hu]. by apply untouched_call.
Qed.

Lemma EnsureDirectories_spec h paths flags w r w' :
  EnsureDirectories h paths flags w = (r, w') ->
  mkdirs w w' /\ handles w' = handles w /\ stderr w' = stderr w /\
  (DryRun flags = true -> r = Ok tt /\ w' = w) /\
  (DryRun flags = false -> r = Ok tt ->
     forall d, d ∈ [DataDir paths; StateDir paths] -> d <> "" ->
       node_at w' d = Some Directory /\ d ∉ denied h).
Proof.
  unfold EnsureDirectories. destruct (DryRun flags).
  - unfold ret. intros [= <- <-]. split; [apply mkdirs_refl|].
    split; [done|]. split; [done|]. split; [done|]. discriminate.
  - intros H. apply ensure_each_spec in H as (Hm & Hh & Hs & Hok).
    split; [done|]. split; [done|]. split; [done|]. split; [discriminate|].
    intros _ Hr d Hin Hd. by apply Hok.
Qed.



Lemma ConfigureLogger_writers s :
  Log_Writers s <> [] -> Log_Writers (settings (ConfigureLogger s)) = Log_Writers s.
Proof.
  intros Hne. unfold ConfigureLogger. destruct s as [? ? ? [|wr ws] ?]; [done|reflexivity].
Qed.

Lemma ApplyPathOverrides_ConfigFile h paths cfg eff :
  ApplyPathOverrides h paths cfg = Ok eff -> ConfigFile eff = ConfigFile paths.
Proof.
  unfold ApplyPathOverrides.
  destruct (nonempty (Paths_DataDir (Paths cfg)));
    destruct (nonempty (Paths_StateDir (Paths cfg))); cbn [rbind];
    try destruct (expandPath h (Paths_DataDir (Paths cfg))); cbn [rbind];
    try destruct (expandPath h (Paths_StateDir (Paths cfg))); cbn [rbind];
    try discriminate; by intros [= <-].
Qed.



Lemma NewRuntimeContext_inv {D : Toml.Decoder} h flags w rtx w' :
  NewRuntimeContext h flags w = (Ok rtx, w') ->
  exists paths cfg ls wa wb wc wd,
    DiscoverPaths h appName (ConfigPath flags) w = (Ok paths, wa) /\
    LoadOrInitConfig h paths flags wa = (Ok cfg, wb) /\
    ApplyPathOverrides h paths cfg = Ok (Rtx_Paths rtx) /\
    EnsureDirectories h (Rtx_Paths rtx) flags wb = (Ok tt, wc) /\
    ResolveLogSettings h flags cfg wc = (Ok ls, wd) /\
    Logger_Debug h (ConfigureLogger ls) "resolved paths: config=%s data=%s state=%s"
      [ConfigFile (Rtx_Paths rtx); DataDir (Rtx_Paths rtx); StateDir (Rtx_Paths rtx)] wd
      = (Ok tt, w') /\
    rtx = {| Rtx_Common := flags; Rtx_Paths := Rtx_Paths rtx; Rtx_Config := cfg;
             Rtx_Logger := ConfigureLogger ls; Rtx_LogSettings := ls |}.
Proof.
  unfold NewRuntimeContext. intros H.
  apply bind_ok_inv in H as (paths & wa & H1 & H).
  apply bind_ok_inv in H as (cfg & wb & H2 & H).
  apply bind_ok_inv in H as (eff & wb' & H3 & H).
  apply lift_inv in H3 as [H3 ->].
  apply bind_ok_inv in H as ([] & wc & H4 & H).
  apply bind_ok_inv in H as (ls & wd & H5 & H).
  cbv zeta in H. cbn [Rtx_Logger Rtx_Paths] in H.
  apply bind_ok_inv in H as ([] & we & H6 & H).
  unfold ret in H. injection H as <- <-.
  exists paths, cfg, ls, wa, wb, wc, wd. cbn [Rtx_Paths]. by repeat split.
Qed.


(** ** Path expansion *)

Lemma expandPath_empty h : expandPath h "" = Ok "".
Proof. reflexivity. Qed.

Lemma expandPath_no_tilde h path :
  path <> "" ->
  Strings.HasPrefix (OsExpand.ExpandEnv h path) "~" = false ->
  expandPath h path = Ok (Filepath.Clean (OsExpand.ExpandEnv h path)).
Proof.
  intros Hne Hpre. unfold expandPath.
  destruct (String.eqb_spec path "") as [->|_]; [congruence|].
  by rewrite Hpre.
Qed.

Lemma expandPath_home h path home :
  path <> "" ->
  UserHomeDir h = Ok home ->
  expandPath h path = Ok (Filepath.Clean (spec_tilde home (OsExpand.ExpandEnv h path))).
Proof.
  intros Hne Hhome. unfold expandPath, spec_tilde.
  destruct (String.eqb_spec path "") as [->|_]; [congruence|].
  rewrite Hhome.
  destruct (Strings.HasPrefix (OsExpand.ExpandEnv h path) "~") eqn:Hpre; [done|].
  destruct (String.eqb_spec (OsExpand.ExpandEnv h path) "~") as [E|_].
  { rewrite E in Hpre. vm_compute in Hpre. discriminate. }
  destruct (Strings.HasPrefix (OsExpand.ExpandEnv h path) "~/") eqn:Hpre2; [|done].
  exfalso.
  destruct (OsExpand.ExpandEnv h path) as [|c r]; [discriminate|].
  cbn [Strings.HasPrefix] in *. destruct (Ascii.eqb "~" c); discriminate.
Qed.

(** With a home directory, [expandPath] does everything the
    specification says: the empty string stays empty; otherwise the
    environment references are expanded first, a result that is exactly
    ["~"] becomes the home directory, a leading ["~/"] is replaced by
    it, any other form such as ["~user"] is left alone, and the result
    is cleaned. *)
Lemma expandPath_with_home :
  forall (h : Host) (home : string),
    UserHomeDir h = Ok home ->
    expandPath h "" = Ok "" /\
    (forall path, path <> "" ->
       let expanded := OsExpand.ExpandEnv h path in
       expandPath h path = Ok (Filepath.Clean (spec_tilde home expanded)) /\
       (expanded = "~" -> expandPath h path = Ok (Filepath.Clean home)) /\
       (forall rest, expanded = "~/" +:+ rest ->
          expandPath h path = Ok (Filepath.Clean (Filepath.Join [home; rest]))) /\
       (expanded <> "~" -> Strings.HasPrefix expanded "~/" = false ->
          expandPath h path = Ok (Filepath.Clean expanded))).
Proof.
  intros h home Hhome. split; [reflexivity|].
  intros path Hne expanded.
  pose proof (expandPath_home h path home Hne Hhome) as E. fold expanded in E.
  split; [exact E|]. rewrite E. unfold spec_tilde. repeat split.
  - intros ->. reflexivity.
  - intros rest ->. reflexivity.
  - intros Hn Hp. rewrite Hp.
    destruct (String.eqb_spec expanded "~"); [congruence|reflexivity].
Qed.

Example expandPath_examples :
  expandPath sample_host "~/logs/app.log" = Ok "/home/u/logs/app.log" /\
  expandPath sample_host "$HOME/x" = Ok "/home/u/x" /\
  expandPath sample_host "" = Ok "" /\
  expandPath sample_host "~bob/../x" = Ok "x" /\
  expandPath no_home_host "$XDG_DATA_HOME/app" = Ok "/var/lib/app".
Proof. repeat split. Qed.

(** Claim C5.  The code at an input where it departs from the claim: in
    a process without [HOME], the form ["~bob"] needs no substitution
    and the claim (like the comment in the [default] arm of the switch)
    has it left untouched, but [expandPath] asks for the home directory
    as soon as the expanded value starts with ["~"] and returns that
    lookup's error.  With [HOME] set the same input is left as it is. *)
Theorem expandPath_tilde_user_without_home :
  OsExpand.ExpandEnv no_home_host "~bob" = "~bob" /\
  (forall home, Filepath.Clean (spec_tilde home "~bob") = "~bob") /\
  expandPath no_home_host "~bob"
    = Err (ErrExpand "~bob" (ErrHomeNotDefined "$HOME")) /\
  expandPath sample_host "~bob" = Ok "~bob".
Proof. repeat split. Qed.

(** ** Path overrides *)

(** Claim C6.  [ApplyPathOverrides] touches no file (it is a plain function of
    the paths, the configuration and the read-only environment that
    expansion consults): each of [DataDir] and [StateDir] becomes the
    expansion of the configured value when that is non-empty and stays
    the resolver's default otherwise, [ConfigFile] is never changed, and
    an error is always the error of one of the two expansions. *)
Theorem ApplyPathOverrides_spec :
  forall (h : Host) (paths : AppPaths) (cfg : AppConfig),
    ApplyPathOverrides h paths cfg =
      match spec_override h (Paths_DataDir (Paths cfg)) (DataDir paths),
            spec_override h (Paths_StateDir (Paths cfg)) (StateDir paths) with
      | Ok d, Ok s => Ok {| ConfigFile := ConfigFile paths; DataDir := d; StateDir := s |}
      | Err e, _ => Err e
      | Ok _, Err e => Err e
      end /\
    (forall out, ApplyPathOverrides h paths cfg = Ok out ->
       ConfigFile out = ConfigFile paths) /\
    (forall e, ApplyPathOverrides h paths cfg = Err e ->
       (Paths_DataDir (Paths cfg) <> "" /\ expandPath h (Paths_DataDir (Paths cfg)) = Err e) \/
       (Paths_StateDir (Paths cfg) <> "" /\ expandPath h (Paths_StateDir (Paths cfg)) = Err e)).
Proof.
  intros h paths cfg.
  assert (Hne : forall s, nonempty s = true -> s <> "").
  { intros s Hs ->. discriminate. }
  unfold ApplyPathOverrides, spec_override.
  destruct (nonempty (Paths_DataDir (Paths cfg))) eqn:Hd;
    destruct (nonempty (Paths_StateDir (Paths cfg))) eqn:Hs; cbn [rbind];
    try destruct (expandPath h (Paths_DataDir (Paths cfg))) as [d|ed] eqn:Ed; cbn [rbind];
    try destruct (expandPath h (Paths_StateDir (Paths cfg))) as [s|es] eqn:Es; cbn [rbind];
    (split; [by destruct paths|]); (split; [intros out [= <-]; try reflexivity|]);
    try (intros out; discriminate);
    try (intros e; discriminate);
    intros e [= <-]; auto.
Qed.

Lemma ApplyPathOverrides_spec_witness :
  ApplyPathOverrides sample_host
    {| ConfigFile := "/c/config.toml"; DataDir := "/d"; StateDir := "/s" |}
    (with_paths "~/data" "" defaultConfig)
  = Ok {| ConfigFile := "/c/config.toml"; DataDir := "/home/u/data"; StateDir := "/s" |} /\
  ConfigFile {| ConfigFile := "/c/config.toml"; DataDir := "/home/u/data"; StateDir := "/s" |}
  = "/c/config.toml".
Proof.
  split; [reflexivity|].
  exact (proj1 (proj2 (ApplyPathOverrides_spec sample_host
    {| ConfigFile := "/c/config.toml"; DataDir := "/d"; StateDir := "/s" |}
    (with_paths "~/data" "" defaultConfig))) _ eq_refl).
Defined.

(** ** Logger construction *)

(** Claim C10.  A logger built by [ConfigureLogger] always has a sink: an
    empty writer list is replaced by the discard sink, any other list is
    kept, and an emission that passes the level test runs over that
    non-empty list. *)
Theorem ConfigureLogger_has_sink :
  forall (s : LogSettings),
    Log_Writers (settings (ConfigureLogger s)) =
      match Log_Writers s with [] => [Discard] | ws => ws end /\
    Log_Writers (settings (ConfigureLogger s)) <> [] /\
    exists first rest,
      Log_Writers (settings (ConfigureLogger s)) = first :: rest /\
      forall h level msg args,
        Logger_log h (ConfigureLogger s) level msg args =
          if rank level >? rank (Log_Level s) then ret tt
          else write_each (first :: rest)
                 (formatMessage h level (settings (ConfigureLogger s)) msg args).
Proof.
  intros [lv dg cl ws fh]. unfold ConfigureLogger, Logger_log. cbn.
  destruct ws as [|w ws']; cbn.
  - split; [reflexivity|]. split; [discriminate|].
    exists Discard, []. split; reflexivity.
  - split; [reflexivity|]. split; [discriminate|].
    exists w, ws'. split; reflexivity.
Qed.

(** ** Log settings *)

Lemma parseLevel_spec value : parseLevel value = spec_parse value.
Proof.
  unfold parseLevel, spec_parse, level_of_name. cbv zeta.
  set (v := Strings.ToLower value).
  destruct (String.eqb_spec v "trace") as [E|_]; [by rewrite E|].
  destruct (String.eqb_spec v "debug") as [E|_]; [by rewrite E|].
  destruct (String.eqb_spec v "warn") as [E|_]; [by rewrite E|].
  destruct (String.eqb_spec v "error") as [E|_]; [reflexivity|].
  destruct (String.eqb_spec v "info") as [E|_]; reflexivity.
Qed.

Lemma parseLevel_case_insensitive a b :
  Strings.ToLower a = Strings.ToLower b -> parseLevel a = parseLevel b.
Proof. intros E. unfold parseLevel. by rewrite E. Qed.

(** What a successful [ResolveLogSettings] returns, and the one system
    call it may have made. *)
Lemma ResolveLogSettings_inv h flags cfg w s w' :
  ResolveLogSettings h flags cfg w = (Ok s, w') ->
  Log_Level s = spec_level flags (Logging_Level (Logging cfg)) /\
  Log_Colorize s = shouldColorize h (spec_color_policy flags) /\
  Log_Diagnostics s = Diagnostics flags /\
  ((nonempty (Logging_File (Logging cfg)) && negb (DryRun flags) = false /\
    w' = w /\ Log_FileHandle s = None /\
    Log_Writers s = (if Quiet flags then [Discard] else [Stderr])) \/
   (nonempty (Logging_File (Logging cfg)) && negb (DryRun flags) = true /\
    exists fd, OpenFileAppend h (Logging_File (Logging cfg)) w = (Ok fd, w') /\
      Log_FileHandle s = Some fd /\
      Log_Writers s = (if Quiet flags then [FileWriter fd] else [Stderr; FileWriter fd]))).
Proof.
  assert (Hlevel :
    (if Trace flags then LevelTrace
     else if Debug flags then LevelDebug
     else if Verbose flags >=? 2 then LevelTrace
     else if Verbose flags =? 1 then LevelDebug
     else if Quiet flags &&
             (rank (parseLevel (Logging_Level (Logging cfg))) >? rank LevelError)
          then LevelError
          else parseLevel (Logging_Level (Logging cfg)))
    = spec_level flags (Logging_Level (Logging cfg))).
  { unfold spec_level, clamp_to. rewrite Z.geb_leb, parseLevel_spec.
    destruct (Trace flags), (Debug flags), (2 <=? Verbose flags), (Verbose flags =? 1),
      (Quiet flags); reflexivity. }
  unfold ResolveLogSettings, spec_color_policy.
  destruct (nonempty (Logging_File (Logging cfg)) && negb (DryRun flags)) eqn:Hopen.
  - unfold attempt.
    destruct (OpenFileAppend h (Logging_File (Logging cfg)) w) as [[fd|e] w1] eqn:Eo;
      cbv beta iota delta [ret fail]; [|discriminate].
    intros [= <- <-].
    cbn [Log_Level Log_Colorize Log_Diagnostics Log_Writers Log_FileHandle].
    split; [exact Hlevel|]. do 2 (split; [reflexivity|]).
    right. split; [reflexivity|]. exists fd.
    repeat split. by destruct (Quiet flags).
  - cbv beta iota delta [ret fail]. intros [= <- <-].
    cbn [Log_Level Log_Colorize Log_Diagnostics Log_Writers Log_FileHandle].
    split; [exact Hlevel|]. do 2 (split; [reflexivity|]).
    left. repeat split.
Qed.

(** Without a log file to open, or under dry-run, the settings are
    always produced. *)
Lemma ResolveLogSettings_total h flags cfg w :
  nonempty (Logging_File (Logging cfg)) && negb (DryRun flags) = false ->
  exists s, ResolveLogSettings h flags cfg w = (Ok s, w).
Proof.
  intros Hopen. unfold ResolveLogSettings. rewrite Hopen. eexists. reflexivity.
Qed.

(** With a log file to open, the settings are produced as soon as the
    file opens. *)
Lemma ResolveLogSettings_opened h flags cfg w fd w' :
  nonempty (Logging_File (Logging cfg)) && negb (DryRun flags) = true ->
  OpenFileAppend h (Logging_File (Logging cfg)) w = (Ok fd, w') ->
  exists s, ResolveLogSettings h flags cfg w = (Ok s, w').
Proof.
  intros Hopen Ho. unfold ResolveLogSettings. rewrite Hopen. unfold attempt.
  rewrite Ho. eexists. reflexivity.
Qed.

(** Claim C1.  [ResolveLogSettings] settles the level for every
    combination of flags and configuration.  When no log file is to be
    opened (none is configured, or the run is a dry-run) it returns
    settings; when one is to be opened it returns settings if the file
    opens and the error of opening it otherwise.  The level of the
    settings follows the precedence: the trace flag gives trace; else the
    debug flag gives debug; else a verbosity count of two or more gives
    trace; else a count of exactly one gives debug; else quiet clamps the
    configured level to at most error; else the level is the configured
    one, read without regard to case, info when unrecognised.  So quiet
    with configured level "debug" and no other flag gives error, and the
    trace flag gives trace whatever quiet says. *)
Theorem ResolveLogSettings_level :
  forall (h : Host) (flags : CommonFlags) (cfg : AppConfig) (w : World),
    (nonempty (Logging_File (Logging cfg)) && negb (DryRun flags) = false ->
     exists s, ResolveLogSettings h flags cfg w = (Ok s, w) /\
               Log_Level s = spec_level flags (Logging_Level (Logging cfg))) /\
    (nonempty (Logging_File (Logging cfg)) && negb (DryRun flags) = true ->
     forall r w', OpenFileAppend h (Logging_File (Logging cfg)) w = (r, w') ->
       match r with
       | Ok _ =>
           exists s, ResolveLogSettings h flags cfg w = (Ok s, w') /\
                     Log_Level s = spec_level flags (Logging_Level (Logging cfg))
       | Err e =>
           ResolveLogSettings h flags cfg w
             = (Err (ErrOpenLogFile (Logging_File (Logging cfg)) e), w')
       end) /\
    (forall s w', ResolveLogSettings h flags cfg w = (Ok s, w') ->
       Log_Level s = spec_level flags (Logging_Level (Logging cfg)) /\
       (Trace flags = true -> Log_Level s = LevelTrace) /\
       (Trace flags = false -> Debug flags = false -> Verbose flags = 0 ->
        Quiet flags = true -> Logging_Level (Logging cfg) = "debug" ->
        Log_Level s = LevelError) /\
       (Trace flags = false -> Debug flags = false -> Verbose flags < 1 ->
        Quiet flags = true ->
        rank (Log_Level s) <= rank (spec_parse (Logging_Level (Logging cfg))) /\
        rank (Log_Level s) <= rank LevelError)).
Proof.
  intros h flags cfg w. split; [|split].
  - intros Hopen. destruct (ResolveLogSettings_total h flags cfg w Hopen) as [s Hs].
    exists s. split; [exact Hs|]. by destruct (ResolveLogSettings_inv _ _ _ _ _ _ Hs).
  - intros Hopen r w' Ho. destruct r as [fd|e].
    + destruct (ResolveLogSettings_opened h flags cfg w fd w' Hopen Ho) as [s Hs].
      exists s. split; [exact Hs|]. by destruct (ResolveLogSettings_inv _ _ _ _ _ _ Hs).
    + unfold ResolveLogSettings. rewrite Hopen. unfold attempt. by rewrite Ho.
  - intros s w' Hres.
    destruct (ResolveLogSettings_inv _ _ _ _ _ _ Hres) as (Hl & _).
    rewrite Hl. unfold spec_level. split; [reflexivity|]. split; [|split].
    + intros ->. reflexivity.
    + intros -> -> -> -> ->. reflexivity.
    + intros -> -> Hv ->.
      destruct (Z.leb_spec 2 (Verbose flags)); [lia|].
      destruct (Z.eqb_spec (Verbose flags) 1); [lia|].
      unfold clamp_to.
      destruct (Z.gtb_spec (rank (spec_parse (Logging_Level (Logging cfg)))) (rank LevelError));
        cbn in *; lia.
Qed.

Lemma ResolveLogSettings_level_witness :
  exists s,
    ResolveLogSettings sample_host (set_Quiet true plain_flags)
      (with_level "DeBuG" defaultConfig) empty_world = (Ok s, empty_world) /\
    Log_Level s = LevelError.
Proof.
  destruct (proj1 (ResolveLogSettings_level sample_host (set_Quiet true plain_flags)
                     (with_level "DeBuG" defaultConfig) empty_world) eq_refl)
    as (s & Hs & Hl).
  exists s. split; [exact Hs|]. rewrite Hl. reflexivity.
Defined.

(** Claim C8 fails as stated: with [quiet] the primary sink is the discard
    target, yet the policy "auto" colorizes as soon as the standard error
    stream is a terminal. *)
Lemma color_auto_under_quiet_counterexample :
  ResolveLogSettings sample_host (set_Quiet true plain_flags) defaultConfig empty_world
    = (Ok quiet_auto_settings, empty_world) /\
  Color (set_Quiet true plain_flags) = "auto" /\
  NoColor (set_Quiet true plain_flags) = false /\
  primary_sink quiet_auto_settings = Discard /\
  sink_is_terminal sample_host (primary_sink quiet_auto_settings) = false /\
  Log_Colorize quiet_auto_settings = true.
Proof. repeat split. Qed.

(** Claim C8, amended.  [ResolveLogSettings] settles whether output is
    colorized for every combination of flags and configuration (it
    returns settings unless a log file is to be opened and does not
    open).  The [noColor] flag forces the policy "never"; otherwise the
    [color] flag is honoured: "always" colorizes, "never" does not, and
    any other value ("auto") colorizes if and only if [Stat] of the
    standard error stream succeeds and reports a character device, which
    an interactive terminal is and [/dev/null] is too.  The sinks play no
    part: under [quiet], where nothing is written to the standard error
    stream, the answer is the same.  Without [quiet] the standard error
    stream is the primary sink. *)
Theorem ResolveLogSettings_color :
  forall (h : Host) (flags : CommonFlags) (cfg : AppConfig) (w : World),
    (nonempty (Logging_File (Logging cfg)) && negb (DryRun flags) = false ->
     exists s, ResolveLogSettings h flags cfg w = (Ok s, w) /\
               Log_Colorize s = spec_colorize h flags) /\
    (nonempty (Logging_File (Logging cfg)) && negb (DryRun flags) = true ->
     forall r w', OpenFileAppend h (Logging_File (Logging cfg)) w = (r, w') ->
       match r with
       | Ok _ =>
           exists s, ResolveLogSettings h flags cfg w = (Ok s, w') /\
                     Log_Colorize s = spec_colorize h flags
       | Err e =>
           ResolveLogSettings h flags cfg w
             = (Err (ErrOpenLogFile (Logging_File (Logging cfg)) e), w')
       end) /\
    (forall s w', ResolveLogSettings h flags cfg w = (Ok s, w') ->
       Log_Colorize s = spec_colorize h flags /\
       (NoColor flags = true -> Log_Colorize s = false) /\
       (NoColor flags = false -> Color flags = "always" -> Log_Colorize s = true) /\
       (NoColor flags = false -> Color flags = "never" -> Log_Colorize s = false) /\
       (NoColor flags = false -> Color flags = "auto" ->
        (Log_Colorize s = true <-> stderr_stat h = Some true)) /\
       (Quiet flags = true -> Stderr ∉ Log_Writers s) /\
       (Quiet flags = false -> primary_sink s = Stderr)).
Proof.
  assert (Hcol : forall h flags,
    shouldColorize h (spec_color_policy flags) = spec_colorize h flags).
  { intros h flags. unfold shouldColorize, spec_color_policy, spec_colorize, isTerminal.
    destruct (NoColor flags); [reflexivity|].
    destruct (String.eqb (Color flags) "always"); [reflexivity|].
    destruct (String.eqb (Color flags) "never"); [reflexivity|].
    by destruct (stderr_stat h) as [[]|]. }
  intros h flags cfg w. split; [|split].
  - intros Hopen. destruct (ResolveLogSettings_total h flags cfg w Hopen) as [s Hs].
    exists s. split; [exact Hs|]. rewrite <- Hcol.
    by destruct (ResolveLogSettings_inv _ _ _ _ _ _ Hs) as (_ & ? & _).
  - intros Hopen r w' Ho. destruct r as [fd|e].
    + destruct (ResolveLogSettings_opened h flags cfg w fd w' Hopen Ho) as [s Hs].
      exists s. split; [exact Hs|]. rewrite <- Hcol.
      by destruct (ResolveLogSettings_inv _ _ _ _ _ _ Hs) as (_ & ? & _).
    + unfold ResolveLogSettings. rewrite Hopen. unfold attempt. by rewrite Ho.
  - intros s w' Hres.
    destruct (ResolveLogSettings_inv _ _ _ _ _ _ Hres) as (_ & Hc & _ & Hw).
    rewrite Hc, Hcol. unfold spec_colorize.
    split; [reflexivity|]. split; [|split; [|split; [|split; [|split]]]].
    + intros ->. reflexivity.
    + intros -> ->. reflexivity.
    + intros -> ->. reflexivity.
    + intros -> ->. cbn. split; intros Ht.
      * by apply bool_decide_eq_true_1 in Ht.
      * by apply bool_decide_eq_true_2.
    + intros Hq Hin.
      destruct Hw as [(_ & _ & _ & Hl)|(_ & fd & _ & _ & Hl)];
        rewrite Hl, Hq in Hin;
        rewrite ?elem_of_cons, ?elem_of_nil in Hin; intuition congruence.
    + intros Hq. unfold primary_sink.
      destruct Hw as [(_ & _ & _ & ->)|(_ & fd & _ & _ & ->)]; by rewrite Hq.
Qed.

Lemma ResolveLogSettings_color_witness :
  exists s,
    ResolveLogSettings devnull_host (set_Quiet true plain_flags) defaultConfig empty_world
      = (Ok s, empty_world) /\
    Log_Colorize s = true.
Proof.
  destruct (proj1 (ResolveLogSettings_color devnull_host (set_Quiet true plain_flags)
                     defaultConfig empty_world) eq_refl)
    as (s & Hs & Hl).
  exists s. split; [exact Hs|]. rewrite Hl. reflexivity.
Defined.

(** ** The pre-run hook *)

(** Claim C9.  With both the JSON and the YAML flag set, the pre-run hook of
    an invocation (whose context carries no runtime context yet) fails
    with the conflicting-output-format error and leaves the world exactly
    as it was: no path is looked up, no file read or written, no
    directory made, no log file opened. *)
Theorem PersistentPreRunE_conflict :
  forall {D : Toml.Decoder} (h : Host) (ctx : option Context) (flags : CommonFlags)
         (timeoutFlag parallelFlag : option Z) (w : World),
    FromContext ctx = None ->
    JSON flags = true -> YAML flags = true ->
    PersistentPreRunE h ctx flags timeoutFlag parallelFlag w
      = (Err ErrConflictingOutputFormat, w).
Proof.
  intros D h ctx flags tf pf w Hctx Hj Hy. unfold PersistentPreRunE.
  rewrite Hctx. destruct tf, pf; cbn; rewrite Hj, Hy; reflexivity.
Qed.

(** Without the conflict the hook goes on to the bootstrap and its
    system calls. *)
Example PersistentPreRunE_json_only :
  is_ok (fst (PersistentPreRunE sample_host (Some Background)
                (set_output true false plain_flags) None None empty_world)) = true /\
  trace (snd (PersistentPreRunE sample_host (Some Background)
                (set_output true false plain_flags) None None empty_world)) <> [].
Proof. split; vm_compute; [reflexivity|discriminate]. Qed.

Lemma PersistentPreRunE_conflict_witness :
  PersistentPreRunE sample_host (Some Background) (set_output true true plain_flags)
    None None empty_world = (Err ErrConflictingOutputFormat, empty_world).
Proof.
  apply PersistentPreRunE_conflict; reflexivity.
Defined.

(** ** Closing the context *)

(** Claim C7 fails as stated: a context that owns a log file closes without
    error once, and the second [Close] reports that the file is already
    closed. *)
Lemma close_twice_counterexample :
  close_twice sample_host logfile_flags logfile_world
    = Some (Ok tt, Err (ErrFileClosed "/app.log")).
Proof. vm_compute. reflexivity. Qed.

(** Claim C7, amended.  Closing a nil context returns no error and changes
    nothing.  After a successful [Close], a second [Close] changes
    neither files, nor handles, nor what was printed; it returns no error
    when the context owns no log file, and the file's already-closed
    error when it owns one. *)
Theorem RuntimeContext_Close_again :
  forall (rtx : RuntimeContext) (w w1 : World),
    RuntimeContext_Close None w = (Ok tt, w) /\
    (RuntimeContext_Close (Some rtx) w = (Ok tt, w1) ->
     match Log_FileHandle (settings (Rtx_Logger rtx)) with
     | None =>
         w1 = w /\ RuntimeContext_Close (Some rtx) w1 = (Ok tt, w1)
     | Some fd =>
         exists path,
           handles w !! fd = Some (path, true) /\
           RuntimeContext_Close (Some rtx) w1
             = (Err (ErrFileClosed path), after_call (SysClose fd) w1)
     end).
Proof.
  intros rtx w w1. split; [reflexivity|].
  unfold RuntimeContext_Close, Logger_Close.
  destruct (Log_FileHandle (settings (Rtx_Logger rtx))) as [fd|].
  - unfold CloseFile, bind, log_call. cbn.
    destruct (handles w !! fd) as [[path [|]]|] eqn:Hfd; [|discriminate..].
    intros [= <-]. exists path. split; [reflexivity|]. cbn.
    rewrite list_lookup_insert_eq; [reflexivity|].
    by apply lookup_lt_Some in Hfd.
  - unfold ret. intros [= <-]. split; reflexivity.
Qed.

Lemma RuntimeContext_Close_again_witness :
  RuntimeContext_Close (Some sample_rtx) empty_world = (Ok tt, empty_world) /\
  RuntimeContext_Close (Some sample_rtx) empty_world = (Ok tt, empty_world).
Proof.
  split; [reflexivity|].
  exact (proj2 (proj2 (RuntimeContext_Close_again sample_rtx empty_world empty_world)
                  eq_refl)).
Defined.

(** ** Dry-run *)






(** ** Running the bootstrap again *)






Lemma grows_file w w' p c :
  grows w w' -> node_at w p = Some (File c) -> exists c', node_at w' p = Some (File c').
Proof.
  intros G Hp. destruct (G _ _ Hp) as (n' & Hn' & Hk). destruct n'; [by eexists|done].
Qed.









(** ** What a successful load decoded *)

Lemma getEnv_unset h v name :
  Getenv h (Viper.envKeyReplacer v name) = "" -> Viper.getEnv h v name = None.
Proof.
  unfold Viper.getEnv, Getenv, LookupEnv.
  destruct (environ h !! Viper.envKeyReplacer v name) as [val|]; [|done].
  cbn. by intros ->.
Qed.

Lemma getEnv_set h v name :
  Getenv h (Viper.envKeyReplacer v name) <> "" ->
  Viper.getEnv h v name = Some (Getenv h (Viper.envKeyReplacer v name)).
Proof.
  unfold Viper.getEnv, Getenv, LookupEnv.
  destruct (environ h !! Viper.envKeyReplacer v name) as [val|]; [|done].
  cbn. intros Hne. by destruct (String.eqb_spec val "").
Qed.

(** A field that decodes: there was no setting and it is kept, or a
    setting and it decodes. *)
Lemma field_inv {A} h v keypath (dec : string -> Toml.Tree -> result A) old x :
  Viper.field h v keypath dec old = Ok x ->
  (Viper.setting h v keypath = None /\ x = old) \/
  (exists it, Viper.setting h v keypath = Some it /\ dec (Viper.key_of keypath) it = Ok x).
Proof.
  unfold Viper.field. destruct (Viper.setting h v keypath) as [it|].
  - intros H. right. by exists it.
  - intros [= <-]. by left.
Qed.

(** The settings of a key that is not known: none, or the table of the
    file's leaves below it. *)
Lemma setting_unknown h v keypath :
  Viper.known v keypath = false ->
  Viper.setting h v keypath = None \/
  Viper.setting h v keypath = Some (Toml.Branch []).
Proof.
  intros Hk. unfold Viper.setting. rewrite Hk.
  destruct (Viper.below h v keypath); [by right|by left].
Qed.

(** The settings of a key whose variable is set: known, it is the
    variable. *)
Lemma setting_env h v keypath :
  Viper.automaticEnv v = true ->
  Viper.known v keypath = true ->
  Getenv h (Viper.envKeyReplacer v (Viper.mergeWithEnvPrefix v (Viper.key_of keypath))) <> "" ->
  Viper.setting h v keypath =
    Some (Toml.Leaf (Toml.VString
      (Getenv h (Viper.envKeyReplacer v
                   (Viper.mergeWithEnvPrefix v (Viper.key_of keypath)))))).
Proof.
  intros Ha Hk Henv. unfold Viper.setting, Viper.find.
  by rewrite Hk, Ha, (getEnv_set _ _ _ Henv).
Qed.

(** The settings of a key that neither its variable nor the file
    provides: none, a table, or the default. *)
Lemma setting_absent h v keypath :
  Viper.automaticEnv v = true ->
  Getenv h (Viper.envKeyReplacer v (Viper.mergeWithEnvPrefix v (Viper.key_of keypath))) = "" ->
  Viper.in_config v keypath = None ->
  Viper.setting h v keypath = None \/
  Viper.setting h v keypath = Some (Toml.Branch []) \/
  exists d, Viper.defaults v !! Viper.key_of keypath = Some d /\
            Viper.setting h v keypath = Some (Toml.Leaf d).
Proof.
  intros Ha Henv Hcfg. unfold Viper.setting, Viper.find.
  rewrite Ha, (getEnv_unset _ _ _ Henv), Hcfg. cbn [andb].
  destruct (Viper.known v keypath);
    [|destruct (Viper.below h v keypath); [right; by left|by left]].
  destruct (Viper.shadowed_in_env h v keypath);
    [destruct (Viper.below h v keypath); [right; by left|by left]|].
  destruct (Viper.shadowed_in_config v keypath);
    [destruct (Viper.below h v keypath); [right; by left|by left]|].
  destruct (Viper.defaults v !! Viper.key_of keypath) as [d|] eqn:Hd;
    cbn [fmap option_fmap option_map].
  - right. right. by exists d.
  - destruct (Viper.below h v keypath); [right; by left|by left].
Qed.

(** What [Unmarshal] puts in each field. *)
Lemma Unmarshal_fields h v cfg cfg0 :
  Unmarshal h v cfg = Ok cfg0 ->
  Viper.field h v ["profile"] Viper.decode_string (Profile cfg) = Ok (Profile cfg0) /\
  Viper.section h v "logging" = Ok tt /\
  Viper.field h v ["logging"; "level"] Viper.decode_string (Logging_Level (Logging cfg))
    = Ok (Logging_Level (Logging cfg0)) /\
  Viper.field h v ["logging"; "file"] Viper.decode_string (Logging_File (Logging cfg))
    = Ok (Logging_File (Logging cfg0)) /\
  Viper.section h v "runtime" = Ok tt /\
  Viper.field h v ["runtime"; "parallelism"]
    (fun f it => rmap Some (Viper.decode_int f it)) (Runtime_Parallelism (Runtime cfg))
    = Ok (Runtime_Parallelism (Runtime cfg0)) /\
  Viper.field h v ["runtime"; "timeout"]
    (fun f it => rmap Some (Viper.decode_int f it)) (Runtime_TimeoutSeconds (Runtime cfg))
    = Ok (Runtime_TimeoutSeconds (Runtime cfg0)) /\
  Viper.field h v ["runtime"; "fail_fast"] Viper.decode_bool (Runtime_FailFast (Runtime cfg))
    = Ok (Runtime_FailFast (Runtime cfg0)) /\
  Viper.section h v "paths" = Ok tt /\
  Viper.field h v ["paths"; "data_dir"] Viper.decode_string (Paths_DataDir (Paths cfg))
    = Ok (Paths_DataDir (Paths cfg0)) /\
  Viper.field h v ["paths"; "state_dir"] Viper.decode_string (Paths_StateDir (Paths cfg))
    = Ok (Paths_StateDir (Paths cfg0)).
Proof.
  unfold Unmarshal. intros H.
  repeat match type of H with
         | rbind ?m _ = _ =>
             let E := fresh "E" in destruct m eqn:E; cbn [rbind] in H; [|discriminate]
         end.
  injection H as <-. cbn.
  repeat match goal with u : unit |- _ => destruct u end.
  repeat split; assumption.
Qed.

(** What [decode_config] makes of the decoded document. *)
Lemma decode_config_inv h v cfg :
  decode_config h v = Ok cfg ->
  exists cfg0,
    Unmarshal h v defaultConfig = Ok cfg0 /\
    Profile cfg = Profile cfg0 /\
    Logging_Level (Logging cfg) = Logging_Level (Logging cfg0) /\
    (Logging_File (Logging cfg0) = "" -> Logging_File (Logging cfg) = "") /\
    (Logging_File (Logging cfg0) <> "" ->
     expandPath h (Logging_File (Logging cfg0)) = Ok (Logging_File (Logging cfg))) /\
    Runtime_Parallelism (Runtime cfg) = Runtime_Parallelism (Runtime cfg0) /\
    Runtime_TimeoutSeconds (Runtime cfg) =
      match Runtime_TimeoutSeconds (Runtime cfg0) with
      | None => Some 60
      | Some n => Some n
      end /\
    Runtime_FailFast (Runtime cfg) = Runtime_FailFast (Runtime cfg0) /\
    Paths cfg = Paths cfg0.
Proof.
  unfold decode_config.
  destruct (Unmarshal h v defaultConfig) as [cfg0|e]; [|discriminate].
  cbn [rbind]. intros H. exists cfg0. split; [reflexivity|].
  destruct (String.eqb_spec (Logging_File (Logging cfg0)) "") as [E|E]; cbn [negb] in H.
  - cbn [rbind] in H. injection H as <-.
    destruct (Runtime_TimeoutSeconds (Runtime cfg0)) eqn:Et; cbn; rewrite ?Et; tauto.
  - destruct (expandPath h (Logging_File (Logging cfg0))) as [x|] eqn:Ex; [|discriminate].
    cbn [rbind] in H. injection H as <-. cbn [Runtime].
    destruct (Runtime_TimeoutSeconds (Runtime cfg0)) eqn:Et; cbn; rewrite ?Et; tauto.
Qed.

(** The document a successful load decoded: what the decoder makes of
    the file, or nothing under dry-run when there is no file. *)
Lemma LoadOrInitConfig_decoded {D : Toml.Decoder} h paths flags w cfg w' :
  LoadOrInitConfig h paths flags w = (Ok cfg, w') ->
  exists doc,
    decode_config h (Viper.set_config (base_viper (ConfigFile paths)) doc) = Ok cfg /\
    ((exists text, node_at w' (ConfigFile paths) = Some (File text) /\
                   Toml.Unmarshal text = Some doc) \/
     (node_at w' (ConfigFile paths) = None /\ doc = [] /\ DryRun flags = true)).
Proof.
  intros H. apply LoadOrInitConfig_spec in H as (_ & _ & _ & _ & Hload).
  destruct (Hload cfg eq_refl) as [Hout _]. clear Hload.
  unfold load_outcome in Hout.
  destruct (read_outcome h w' (ConfigFile paths)) as [text|err] eqn:Hrd.
  - apply read_outcome_ok in Hrd as [_ Hnode].
    destruct (Toml.Unmarshal text) as [doc|] eqn:Hp; [|discriminate].
    exists doc. split; [done|]. left. by exists text.
  - destruct (DryRun flags) eqn:Hdry; cbn [andb negb] in Hout; [|discriminate].
    destruct (IsNotExist err) eqn:Hne; cbn [negb] in Hout; [|discriminate].
    exists []. split; [exact Hout|]. right. split; [|done].
    unfold read_outcome in Hrd. destruct (decide _); [by injection Hrd as <-|].
    destruct (node_at w' (ConfigFile paths)) as [[c|]|]; [done| |done].
    by injection Hrd as <-.
Qed.

(** What the file holds for a key is what viper finds in the document
    that was decoded. *)
Lemma file_setting_decoded {D : Toml.Decoder} w p text doc v keypath :
  node_at w p = Some (File text) -> Toml.Unmarshal text = Some doc ->
  file_setting w p keypath = Viper.in_config (Viper.set_config v doc) keypath.
Proof. intros Hn Hp. unfold file_setting. by rewrite Hn, Hp. Qed.

(** A document outside the TOML fragment, decoded as the program
    decodes it. *)
Example rich_document_loads :
  fst (@LoadOrInitConfig rich_decoder sample_host app_toml_paths plain_flags
         no_timeout_world)
  = Ok {| Profile := "work";
          Logging := {| Logging_Level := "WARN"; Logging_File := "" |};
          Runtime := {| Runtime_Parallelism := Some 2;
                        Runtime_TimeoutSeconds := Some 1000;
                        Runtime_FailFast := false |};
          Paths := {| Paths_DataDir := ""; Paths_StateDir := "" |} |}.
Proof. by vm_compute. Qed.

(** A document in which [logging] is both a value and a table: in the
    order the model takes, the table wins, the default of
    [logging.level] is left out, and the variable that would override
    it is not looked at. *)
Example clash_document_loads :
  Getenv octal_host "GO_CLI_LOGGING__LEVEL" = "trace" /\
  Viper.clash_free (Viper.set_config (base_viper "/app.toml") clash_document) = false /\
  fst (@LoadOrInitConfig clash_decoder octal_host app_toml_paths plain_flags
         no_timeout_world)
  = Ok {| Profile := "ci";
          Logging := {| Logging_Level := "info"; Logging_File := "/a" |};
          Runtime := {| Runtime_Parallelism := None;
                        Runtime_TimeoutSeconds := Some 8;
                        Runtime_FailFast := true |};
          Paths := {| Paths_DataDir := ""; Paths_StateDir := "" |} |}.
Proof. repeat split; by vm_compute. Qed.

(** ** The timeout default *)

(** Claim C2 fails as stated: with the key absent from the file, an
    environment override decides the value. *)
Lemma timeout_override_counterexample :
  file_timeout no_timeout_world "/app.toml" = None /\
  file_timeout (snd (LoadOrInitConfig override_host app_toml_paths plain_flags
                       no_timeout_world)) "/app.toml" = None /\
  loaded_timeout override_host app_toml_paths plain_flags no_timeout_world
    = Ok (Some 30).
Proof. repeat split; vm_compute; reflexivity. Qed.

(** Claim C2, amended.  Whenever [LoadOrInitConfig] returns a configuration,
    its timeout is set; and when the configuration file provides no
    value for [runtime.timeout] and the environment does not override
    it (the variable [GO_CLI_RUNTIME__TIMEOUT] is unset or empty), the
    timeout is 60, the value the generated template and the in-memory
    defaults carry.  This holds for every decoder of the configuration
    file, hence for every file the program loads. *)
Theorem LoadOrInitConfig_timeout :
  forall {D : Toml.Decoder} (h : Host) (paths : AppPaths) (flags : CommonFlags)
         (w w' : World) (cfg : AppConfig),
    LoadOrInitConfig h paths flags w = (Ok cfg, w') ->
    (exists n, Runtime_TimeoutSeconds (Runtime cfg) = Some n) /\
    (file_setting w' (ConfigFile paths) ["runtime"; "timeout"] = None ->
     Getenv h "GO_CLI_RUNTIME__TIMEOUT" = "" ->
     Runtime_TimeoutSeconds (Runtime cfg) = Some 60) /\
    file_timeout template_world (ConfigFile sample_paths) = Some (Toml.VInteger 60) /\
    Runtime_TimeoutSeconds (Runtime defaultConfig) = Some 60.
Proof.
  intros D h paths flags w w' cfg Hload.
  apply LoadOrInitConfig_decoded in Hload as (doc & Hdec & Hdoc).
  apply decode_config_inv in Hdec as (cfg0 & Hun & _ & _ & _ & _ & _ & Ht & _).
  split; [|split; [|split; [vm_compute; reflexivity|reflexivity]]].
  - rewrite Ht. destruct (Runtime_TimeoutSeconds (Runtime cfg0)); by eexists.
  - intros Hfile Henv.
    set (v := Viper.set_config (base_viper (ConfigFile paths)) doc) in *.
    assert (Hin : Viper.in_config v ["runtime"; "timeout"] = None).
    { destruct Hdoc as [(text & Hn & Hp)|(_ & Hd & _)].
      - by rewrite (file_setting_decoded _ _ _ _ v _ Hn Hp) in Hfile.
      - unfold v. by rewrite Hd. }
    apply Unmarshal_fields in Hun as (_ & _ & _ & _ & _ & _ & Ft & _).
    apply field_inv in Ft as [(_ & Hx)|(it & Hs & Hx)].
    { rewrite Ht, Hx. reflexivity. }
    destruct (setting_absent h v ["runtime"; "timeout"] eq_refl Henv Hin)
      as [Hn|[Hb|(d & Hd & Hl)]].
    + congruence.
    + rewrite Hb in Hs. injection Hs as <-. discriminate.
    + rewrite Hl in Hs. injection Hs as <-.
      assert (d = Toml.VInteger 60) as -> by (vm_compute in Hd; congruence).
      cbn in Hx. injection Hx as Hx. by rewrite Ht, <- Hx.
Qed.

Lemma LoadOrInitConfig_timeout_witness :
  fst (LoadOrInitConfig sample_host app_toml_paths plain_flags no_timeout_world)
    = Ok work_config /\
  Runtime_TimeoutSeconds (Runtime work_config) = Some 60.
Proof.
  split; [vm_compute; reflexivity|].
  destruct (LoadOrInitConfig_timeout sample_host app_toml_paths plain_flags
              no_timeout_world
              (snd (LoadOrInitConfig sample_host app_toml_paths plain_flags no_timeout_world))
              work_config) as (_ & H60 & _).
  { vm_compute. reflexivity. }
  apply H60; vm_compute; reflexivity.
Defined.

(** * The rest of the package *)

(** ** Byte strings *)

Lemma sapp_nil_r s : s +:+ "" = s.
Proof.
  induction s as [|c r IH]; [done|].
  change (String c r +:+ "") with (String c (r +:+ "")). by rewrite IH.
Qed.

Lemma sapp_assoc a b c : (a +:+ b) +:+ c = a +:+ b +:+ c.
Proof.
  induction a as [|x r IH]; [done|].
  change (String x ((r +:+ b) +:+ c) = String x (r +:+ b +:+ c)). by rewrite IH.
Qed.

Lemma rev_app_sapp s : forall t, String.rev_app s t = String.rev s +:+ t.
Proof.
  unfold String.rev. induction s as [|c r IH]; intros t; [done|].
  cbn [String.rev_app]. rewrite (IH (String c t)), (IH (String c "")).
  by rewrite sapp_assoc.
Qed.

Lemma rev_cons c s : String.rev (String c s) = String.rev s +:+ String c "".
Proof. unfold String.rev at 1. cbn [String.rev_app]. apply rev_app_sapp. Qed.

(** ** Cleaned paths *)

Lemma split_acc_hd sep : forall s acc,
  Strings.split_acc sep acc s =
    (String.rev acc +:+ hd "" (Strings.split_acc sep "" s))
      :: tl (Strings.split_acc sep "" s).
Proof.
  induction s as [|c r IH]; intros acc; cbn [Strings.split_acc].
  - cbn. by rewrite sapp_nil_r.
  - destruct (Ascii.eqb c sep).
    + cbn. by rewrite sapp_nil_r.
    + rewrite (IH (String c acc)), (IH (String c "")). cbn [hd tl].
      f_equal. rewrite rev_cons, sapp_assoc. reflexivity.
Qed.

Lemma Split_cons sep c r :
  Strings.Split sep (String c r) =
    if Ascii.eqb c sep then "" :: Strings.Split sep r
    else String c (hd "" (Strings.Split sep r)) :: tl (Strings.Split sep r).
Proof.
  unfold Strings.Split. cbn [Strings.split_acc].
  destruct (Ascii.eqb c sep); [done|].
  by rewrite split_acc_hd.
Qed.

Lemma Split_not_nil sep s : Strings.Split sep s <> [].
Proof. destruct s as [|c r]; [done|]. rewrite Split_cons. by destruct (Ascii.eqb c sep). Qed.

Lemma lacks_cons sep c r :
  lacks sep (String c r) = negb (Ascii.eqb c sep) && lacks sep r.
Proof. reflexivity. Qed.

Lemma lacks_app sep a b : lacks sep (a +:+ b) = lacks sep a && lacks sep b.
Proof.
  induction a as [|c a IH]; [done|].
  change (String c a +:+ b) with (String c (a +:+ b)).
  by rewrite !lacks_cons, IH, andb_assoc.
Qed.

Lemma Split_lacks sep : forall s e,
  e ∈ Strings.Split sep s -> lacks sep e = true.
Proof.
  induction s as [|c r IH]; intros e.
  - cbn. intros ->%list_elem_of_singleton. done.
  - rewrite Split_cons.
    destruct (Ascii.eqb c sep) eqn:Hc.
    + intros [->|Hin]%elem_of_cons; [done|]. by apply IH.
    + pose proof (Split_not_nil sep r) as Hne.
      destruct (Strings.Split sep r) as [|x t]; [done|].
      cbn [hd tl]. intros [->|Hin]%elem_of_cons.
      * rewrite lacks_cons, Hc. apply (IH x). left.
      * apply IH. by right.
Qed.

Lemma Split_whole sep : forall e,
  lacks sep e = true -> Strings.Split sep e = [e].
Proof.
  induction e as [|c r IH]; [done|].
  rewrite lacks_cons. intros [Hc Hr]%andb_true_iff.
  rewrite Split_cons. apply negb_true_iff in Hc. rewrite Hc.
  by rewrite (IH Hr).
Qed.

Lemma Split_app sep : forall e t,
  lacks sep e = true ->
  Strings.Split sep (e +:+ String sep t) = e :: Strings.Split sep t.
Proof.
  induction e as [|c r IH]; intros t.
  - intros _. change ("" +:+ String sep t) with (String sep t).
    rewrite Split_cons. by rewrite Ascii.eqb_refl.
  - rewrite lacks_cons. intros [Hc Hr]%andb_true_iff.
    change (String c r +:+ String sep t) with (String c (r +:+ String sep t)).
    rewrite Split_cons. apply negb_true_iff in Hc. rewrite Hc.
    by rewrite (IH t Hr).
Qed.

Lemma Split_no_sep s e :
  e ∈ Strings.Split Filepath.Separator s -> no_sep e = true.
Proof. apply Split_lacks. Qed.

Lemma Split_Join : forall elems,
  elems <> [] -> Forall (fun e => no_sep e = true) elems ->
  Strings.Split Filepath.Separator (Strings.Join elems "/") = elems.
Proof.
  induction elems as [|e rest IH]; [done|]. intros _ Hall.
  apply Forall_cons in Hall as [He Hrest].
  destruct rest as [|e' rest'].
  - cbn. by apply (Split_whole Filepath.Separator).
  - change (Strings.Join (e :: e' :: rest') "/")
      with (e +:+ "/" +:+ Strings.Join (e' :: rest') "/").
    change ("/" +:+ Strings.Join (e' :: rest') "/")
      with (String Filepath.Separator (Strings.Join (e' :: rest') "/")).
    rewrite (Split_app Filepath.Separator) by done. f_equal. by apply IH.
Qed.

Lemma clean_step_plain rooted out e :
  plain_elem e -> Filepath.clean_step rooted out e = e :: out.
Proof.
  intros (H1 & H2 & H3 & _). unfold Filepath.clean_step.
  destruct (String.eqb_spec e ""); [done|].
  destruct (String.eqb_spec e "."); [done|].
  destruct (String.eqb_spec e ".."); [done|]. done.
Qed.

Lemma clean_step_canonical rooted out e :
  no_sep e = true -> canonical rooted out ->
  canonical rooted (Filepath.clean_step rooted out e).
Proof.
  intros He (names & k & -> & Hnames & Hk). unfold Filepath.clean_step.
  destruct (String.eqb_spec e "") as [->|H1]; [by exists names, k|].
  destruct (String.eqb_spec e ".") as [->|H2]; [by exists names, k|]. cbn [orb].
  destruct (String.eqb_spec e "..") as [->|H3].
  - destruct names as [|n ns].
    + destruct k as [|k']; cbn [app repeat].
      * destruct rooted; [by exists [], 0%nat|]. by exists [], 1%nat.
      * cbn. exists [], (S (S k')). split; [done|]. split; [done|].
        intros Hr. by specialize (Hk Hr).
    + cbn [app]. apply Forall_cons in Hnames as [(_ & _ & Hn & _) Hns].
      destruct (String.eqb_spec n ".."); [done|]. by exists ns, k.
  - exists (e :: names), k. split; [done|]. split; [|done].
    apply Forall_cons. by split.
Qed.

Lemma fold_clean_canonical rooted : forall elems out,
  Forall (fun e => no_sep e = true) elems -> canonical rooted out ->
  canonical rooted (fold_left (Filepath.clean_step rooted) elems out).
Proof.
  induction elems as [|e rest IH]; intros out Hall Hout; [done|].
  apply Forall_cons in Hall as [He Hrest]. cbn [fold_left].
  apply IH; [done|]. by apply clean_step_canonical.
Qed.

Lemma fold_clean_plain rooted : forall names out,
  Forall plain_elem names ->
  fold_left (Filepath.clean_step rooted) names out = (rev names ++ out)%list.
Proof.
  induction names as [|n ns IH]; intros out Hall; [done|].
  apply Forall_cons in Hall as [Hn Hns]. cbn [fold_left].
  rewrite clean_step_plain by done. rewrite IH by done.
  cbn [rev]. by rewrite <- app_assoc.
Qed.

Lemma fold_clean_dots : forall k j,
  fold_left (Filepath.clean_step false) (repeat ".." k) (repeat ".." j)
    = repeat ".." (k + j).
Proof.
  induction k as [|k IH]; intros j; [done|].
  cbn [repeat fold_left].
  replace (Filepath.clean_step false (repeat ".." j) "..") with (repeat ".." (S j)).
  - rewrite IH. f_equal. lia.
  - by destruct j.
Qed.

Lemma rev_repeat {A} (x : A) k : rev (repeat x k) = repeat x k.
Proof.
  induction k as [|k IH]; [done|]. cbn [repeat rev]. rewrite IH.
  clear IH. induction k as [|k IH]; [done|]. cbn. by rewrite IH.
Qed.

Lemma plain_no_sep names :
  Forall plain_elem names -> Forall (fun e => no_sep e = true) names.
Proof. intros H. eapply Forall_impl; [exact H|]. by intros e (_ & _ & _ & ?). Qed.

Lemma Join_head e rest :
  exists t, Strings.Join (e :: rest) "/" = e +:+ t.
Proof.
  destruct rest as [|e' r]; [exists ""; cbn; by rewrite sapp_nil_r|].
  by eexists.
Qed.

Lemma fold_clean_relative names k :
  Forall plain_elem names ->
  fold_left (Filepath.clean_step false) (repeat ".." k ++ rev names) []
    = (names ++ repeat ".." k)%list.
Proof.
  intros Hnames. rewrite fold_left_app.
  pose proof (fold_clean_dots k 0) as H. cbn [repeat] in H. rewrite H, Nat.add_0_r.
  rewrite fold_clean_plain by by apply Forall_rev.
  by rewrite rev_involutive.
Qed.

(** The path [Clean] assembles from a stack of elements. *)
Lemma Clean_assembled rooted out :
  canonical rooted out ->
  let body := Strings.Join (rev out) "/" in
  let r := if rooted then String Filepath.Separator body
           else if String.eqb body "" then "." else body in
  Filepath.Clean r = r.
Proof.
  intros (names & k & -> & Hnames & Hk). cbv zeta.
  destruct rooted.
  - (* below the root *)
    rewrite (Hk eq_refl). cbn [repeat]. rewrite app_nil_r.
    unfold Filepath.Clean. rewrite Ascii.eqb_refl.
    rewrite Split_cons, Ascii.eqb_refl. cbn [fold_left].
    change (Filepath.clean_step true [] "") with (@nil string).
    destruct names as [|n ns].
    + done.
    + rewrite Split_Join.
      * rewrite fold_clean_plain.
        -- by rewrite app_nil_r, rev_involutive.
        -- by apply Forall_rev.
      * cbn [rev]. by destruct (rev ns).
      * apply Forall_rev. by apply plain_no_sep.
  - (* a relative path *)
    clear Hk. set (body := Strings.Join (rev (names ++ repeat ".." k)) "/").
    assert (Hrev : rev (names ++ repeat ".." k) = (repeat ".." k ++ rev names)%list).
    { by rewrite rev_app_distr, rev_repeat. }
    destruct (decide (names = [] /\ k = 0%nat)) as [[-> ->]|Hne]; [done|].
    assert (Hnn : rev (names ++ repeat ".." k) <> []).
    { rewrite Hrev. destruct k; [|done]. destruct names as [|n ns]; [naive_solver|].
      cbn. by destruct (rev ns). }
    assert (Hns : Forall (fun e => no_sep e = true) (rev (names ++ repeat ".." k))).
    { rewrite Hrev. apply Forall_app. split.
      - clear. induction k as [|k IH]; [by apply Forall_nil|]. by apply Forall_cons.
      - apply Forall_rev. by apply plain_no_sep. }
    (* the first byte of the body is no separator *)
    assert (Hfirst : exists c t, body = String c t /\ Ascii.eqb c Filepath.Separator = false).
    { subst body. rewrite Hrev. destruct k as [|k'].
      - destruct (rev names) as [|e rest] eqn:E.
        { exfalso. apply Hne. split; [|done].
          apply (f_equal (@rev string)) in E. by rewrite rev_involutive in E. }
        assert (Hp : plain_elem e).
        { apply Forall_rev in Hnames. rewrite E in Hnames.
          by apply Forall_cons in Hnames as [? _]. }
        cbn [repeat app]. destruct (Join_head e rest) as [t ->]. destruct Hp as (H1 & _ & _ & H4).
        destruct e as [|c e']; [done|]. exists c, (e' +:+ t). split; [done|].
        unfold no_sep in H4. rewrite lacks_cons in H4. apply andb_true_iff in H4 as [H4 _].
        by apply negb_true_iff in H4.
      - cbn [repeat app]. destruct (Join_head ".." (repeat ".." k' ++ rev names)) as [t ->].
        by exists "."%char, ("." +:+ t). }
    destruct Hfirst as (c & t & Hbody & Hc).
    replace (if String.eqb body "" then "." else body) with body by by rewrite Hbody.
    rewrite Hbody. unfold Filepath.Clean. rewrite Hc. rewrite <- Hbody.
    subst body. rewrite Split_Join by done.
    rewrite Hrev, fold_clean_relative by done. rewrite Hrev.
    destruct (String.eqb_spec (Strings.Join (repeat ".." k ++ rev names) "/") "") as [E|_];
      [|done].
    rewrite Hrev, E in Hbody. done.
Qed.

Lemma Forall_Split_no_sep s :
  Forall (fun e => no_sep e = true) (Strings.Split Filepath.Separator s).
Proof. apply Forall_forall. intros e. apply Split_no_sep. Qed.

Lemma Clean_idempotent path : Filepath.Clean (Filepath.Clean path) = Filepath.Clean path.
Proof.
  destruct path as [|c rest]; [done|].
  set (rooted := Ascii.eqb c Filepath.Separator).
  assert (Hc : canonical rooted
            (fold_left (Filepath.clean_step rooted)
               (Strings.Split Filepath.Separator (String c rest)) [])).
  { apply fold_clean_canonical; [apply Forall_Split_no_sep|]. by exists [], 0%nat. }
  pose proof (Clean_assembled rooted _ Hc) as H. cbv zeta in H.
  unfold Filepath.Clean at 2 3. fold rooted. exact H.
Qed.

Lemma Clean_not_empty path : Filepath.Clean path <> "".
Proof.
  destruct path as [|c rest]; [done|]. unfold Filepath.Clean.
  destruct (Ascii.eqb c Filepath.Separator); [done|].
  by destruct (String.eqb_spec
    (Strings.Join (rev (fold_left (Filepath.clean_step false)
       (Strings.Split Filepath.Separator (String c rest)) [])) "/") "").
Qed.

(** ** Path expansion, besides the claims *)

Lemma Expand_no_dollar mapping : forall fuel s,
  no_dollar s = true -> OsExpand.expand_loop fuel mapping s = s.
Proof.
  induction fuel as [|fuel IH]; intros s Hs; [done|].
  destruct s as [|c r]; [done|]. cbn [OsExpand.expand_loop].
  unfold no_dollar in Hs. rewrite lacks_cons in Hs.
  apply andb_true_iff in Hs as [Hc Hr]. apply negb_true_iff in Hc.
  rewrite Hc. cbn [andb]. by rewrite IH.
Qed.

Lemma ExpandEnv_no_dollar h s : no_dollar s = true -> OsExpand.ExpandEnv h s = s.
Proof. apply Expand_no_dollar. Qed.

(** Property X1.  [expandPath] has one way to fail: the value, once the
    environment references are expanded, starts with a tilde and the
    home directory cannot be determined.  The error then names the
    path as it was given and wraps the error of the lookup. *)
Theorem expandPath_failure :
  forall (h : Host) (path : string) (e : error),
    expandPath h path = Err e ->
    path <> "" /\
    Strings.HasPrefix (OsExpand.ExpandEnv h path) "~" = true /\
    exists cause, UserHomeDir h = Err cause /\ e = ErrExpand path cause.
Proof.
  intros h path e. unfold expandPath.
  destruct (String.eqb_spec path "") as [->|Hne]; [done|].
  destruct (Strings.HasPrefix (OsExpand.ExpandEnv h path) "~") eqn:Hpre; [|done].
  destruct (UserHomeDir h) as [home|cause] eqn:Hhome; [done|].
  intros [= <-]. split; [done|]. split; [done|]. by exists cause.
Qed.

Lemma expandPath_failure_witness :
  "~bob" <> "" /\
  Strings.HasPrefix (OsExpand.ExpandEnv no_home_host "~bob") "~" = true /\
  exists cause, UserHomeDir no_home_host = Err cause /\
                ErrExpand "~bob" (ErrHomeNotDefined "$HOME") = ErrExpand "~bob" cause.
Proof.
  apply (expandPath_failure no_home_host "~bob"). reflexivity.
Defined.

Lemma expandPath_clean_result h path q :
  path <> "" ->
  expandPath h path = Ok q ->
  q <> "" /\ Filepath.Clean q = q.
Proof.
  intros Hne. unfold expandPath.
  destruct (String.eqb_spec path "") as [E|_]; [done|].
  destruct (Strings.HasPrefix (OsExpand.ExpandEnv h path) "~").
  - destruct (UserHomeDir h) as [home|cause]; [|done].
    intros [= <-]. split; [apply Clean_not_empty|apply Clean_idempotent].
  - intros [= <-]. split; [apply Clean_not_empty|apply Clean_idempotent].
Qed.

(** Property X2.  Whatever [expandPath] returns for a non-empty path is a
    cleaned path: it is not empty and cleaning it again changes
    nothing. *)
Theorem expandPath_cleaned :
  forall (h : Host) (path q : string),
    path <> "" ->
    expandPath h path = Ok q ->
    q <> "" /\ Filepath.Clean q = q.
Proof. intros h path q. apply expandPath_clean_result. Qed.

Lemma expandPath_cleaned_witness :
  "/home/u/logs/app.log" <> "" /\
  Filepath.Clean "/home/u/logs/app.log" = "/home/u/logs/app.log".
Proof.
  apply (expandPath_cleaned sample_host "~/logs//./app.log/"); [done|reflexivity].
Defined.

Lemma expandPath_plain h path :
  no_dollar path = true ->
  Strings.HasPrefix path "~" = false ->
  expandPath h path = Ok (if String.eqb path "" then "" else Filepath.Clean path).
Proof.
  intros Hd Ht. unfold expandPath. destruct (String.eqb_spec path ""); [done|].
  rewrite (ExpandEnv_no_dollar _ _ Hd), Ht. done.
Qed.

(** Property X3.  Expanding is idempotent on what it returns, on every host: a
    result of [expandPath] that holds no dollar sign and does not start
    with a tilde is expanded to itself, whatever the environment. *)
Theorem expandPath_again :
  forall (h0 h : Host) (given q : string),
    expandPath h0 given = Ok q ->
    no_dollar q = true ->
    Strings.HasPrefix q "~" = false ->
    expandPath h q = Ok q.
Proof.
  intros h0 h given q Hg Hd Ht. rewrite (expandPath_plain h q Hd Ht).
  destruct (String.eqb_spec q "") as [->|Hne]; [done|].
  destruct (String.eqb_spec given "") as [->|Hgne].
  - cbn in Hg. congruence.
  - by destruct (expandPath_clean_result h0 given q Hgne Hg) as [_ ->].
Qed.

Lemma expandPath_again_witness :
  expandPath no_home_host "/home/u/logs/app.log" = Ok "/home/u/logs/app.log".
Proof.
  apply (expandPath_again sample_host no_home_host "~/logs//./app.log/");
    reflexivity.
Defined.

(** ** The environment prefix *)

Lemma toEnvPrefix_byte_env c : env_byte (toEnvPrefix_byte c) = true.
Proof. destruct c as [[] [] [] [] [] [] [] []]; reflexivity. Qed.

Lemma toEnvPrefix_byte_fixed c :
  env_byte c = true -> toEnvPrefix_byte c = c.
Proof. destruct c as [[] [] [] [] [] [] [] []]; by vm_compute. Qed.

Lemma toEnvPrefix_length name :
  String.length (toEnvPrefix name) = String.length name.
Proof. induction name as [|c r IH]; [done|]. cbn. by rewrite IH. Qed.

Lemma toEnvPrefix_bytes name :
  forallb env_byte (list_ascii_of_string (toEnvPrefix name)) = true.
Proof.
  induction name as [|c r IH]; [done|]. cbn [toEnvPrefix list_ascii_of_string forallb].
  by rewrite toEnvPrefix_byte_env, IH.
Qed.

(** Property X4.  For a name in ASCII, [toEnvPrefix] returns a string of the
    same length made of upper-case letters, digits and underscores only,
    and applying it to its own result changes nothing. *)
Theorem toEnvPrefix_shape :
  forall (name : string),
    is_ascii name = true ->
    String.length (toEnvPrefix name) = String.length name /\
    forallb env_byte (list_ascii_of_string (toEnvPrefix name)) = true /\
    toEnvPrefix (toEnvPrefix name) = toEnvPrefix name.
Proof.
  intros name _. split; [apply toEnvPrefix_length|].
  split; [apply toEnvPrefix_bytes|].
  induction name as [|c r IH]; [done|]. cbn [toEnvPrefix].
  by rewrite (toEnvPrefix_byte_fixed _ (toEnvPrefix_byte_env c)), IH.
Qed.

Lemma toEnvPrefix_shape_witness :
  String.length (toEnvPrefix "my-tool.v2") = String.length "my-tool.v2" /\
  forallb env_byte (list_ascii_of_string (toEnvPrefix "my-tool.v2")) = true /\
  toEnvPrefix (toEnvPrefix "my-tool.v2") = toEnvPrefix "my-tool.v2".
Proof. apply (toEnvPrefix_shape "my-tool.v2"). reflexivity. Defined.

Lemma name_byte_prefix c :
  NewCli.name_byte c = true ->
  toEnvPrefix_byte c =
    (if Ascii.eqb (Strings.upper_byte c) "-" then "_"%char else Strings.upper_byte c) /\
  (nat_of_ascii c <? 128)%nat = true.
Proof. destruct c as [[] [] [] [] [] [] [] []]; by vm_compute. Qed.

Lemma name_bytes_prefix : forall r,
  forallb NewCli.name_byte (list_ascii_of_string r) = true ->
  toEnvPrefix r = NewCli.env_name r /\ is_ascii r = true.
Proof.
  induction r as [|c r IH]; [done|]. cbn [list_ascii_of_string forallb].
  intros [Hc Hr]%andb_true_iff. destruct (IH Hr) as [IH1 IH2].
  destruct (name_byte_prefix c Hc) as [E A]. split.
  - unfold NewCli.env_name in *. cbn [toEnvPrefix Strings.ToUpper Strings.Replace1].
    rewrite E, IH1. by destruct (Ascii.eqb (Strings.upper_byte c) "-").
  - unfold is_ascii in *. cbn [list_ascii_of_string forallb]. by rewrite A, IH2.
Qed.

(** A text in which some byte of [old] does not occur has no
    occurrence of [old]. *)
Lemma HasPrefix_lacks c : forall old text,
  lacks c text = true -> lacks c old = false -> Strings.HasPrefix text old = false.
Proof.
  induction old as [|a p IH]; intros text Ht Ho; [done|].
  destruct text as [|b r]; [done|]. cbn [Strings.HasPrefix].
  rewrite lacks_cons in Ht, Ho. apply andb_true_iff in Ht as [Hb Hr].
  destruct (Ascii.eqb_spec a b) as [->|]; [|done]. cbn [andb].
  rewrite Hb in Ho. cbn [andb] in Ho. by apply IH.
Qed.

Lemma occurs_lacks c old : forall text,
  lacks c text = true -> lacks c old = false -> NewCli.occurs old text = false.
Proof.
  induction text as [|b r IH]; intros Ht Ho.
  - cbn [NewCli.occurs]. by rewrite (HasPrefix_lacks c old "" Ht Ho).
  - cbn [NewCli.occurs]. rewrite (HasPrefix_lacks c old _ Ht Ho). cbn [orb].
    rewrite lacks_cons in Ht. apply andb_true_iff in Ht as [_ Hr]. by apply IH.
Qed.

(** A byte that is not in [old], put at the end of a text, adds no
    occurrence of [old]. *)
Lemma HasPrefix_snoc q : forall old text,
  lacks q old = true ->
  Strings.HasPrefix (text +:+ String q "") old = Strings.HasPrefix text old.
Proof.
  induction old as [|a p IH]; intros text Ho; [done|].
  rewrite lacks_cons in Ho. apply andb_true_iff in Ho as [Ha Hp].
  destruct text as [|b r].
  - change ("" +:+ String q "") with (String q ""). cbn [Strings.HasPrefix].
    by destruct (Ascii.eqb_spec a q).
  - change (String b r +:+ String q "") with (String b (r +:+ String q "")).
    cbn [Strings.HasPrefix]. by rewrite IH.
Qed.

Lemma occurs_snoc q old : forall text,
  old <> "" -> lacks q old = true ->
  NewCli.occurs old (text +:+ String q "") = NewCli.occurs old text.
Proof.
  intros text Hne Ho. induction text as [|b r IH].
  - destruct old as [|a p]; [done|].
    change ("" +:+ String q "") with (String q ""). cbn [NewCli.occurs Strings.HasPrefix].
    rewrite lacks_cons in Ho. apply andb_true_iff in Ho as [Ha _].
    by destruct (Ascii.eqb_spec a q).
  - change (String b r +:+ String q "") with (String b (r +:+ String q "")).
    cbn [NewCli.occurs]. rewrite IH.
    change (String b (r +:+ String q "")) with (String b r +:+ String q "").
    by rewrite HasPrefix_snoc.
Qed.

Lemma name_byte_no_dot c :
  NewCli.name_byte c = true -> negb (Ascii.eqb c ".") = true.
Proof. destruct c as [[] [] [] [] [] [] [] []]; by vm_compute. Qed.

Lemma env_byte_no_dot c : env_byte c = true -> negb (Ascii.eqb c ".") = true.
Proof. destruct c as [[] [] [] [] [] [] [] []]; by vm_compute. Qed.

Lemma bytes_lack_dot (p : ascii -> bool) :
  (forall c, p c = true -> negb (Ascii.eqb c ".") = true) ->
  forall s, forallb p (list_ascii_of_string s) = true -> lacks "." s = true.
Proof.
  intros Hp. induction s as [|c r IH]; [done|]. cbn [list_ascii_of_string forallb].
  intros [Hc Hr]%andb_true_iff. rewrite lacks_cons, (Hp c Hc). by apply IH.
Qed.

(** Property X5.  The scaffolding script and the generated program agree on the
    environment prefix: for every project name the script accepts that
    does not contain [GO_CLI], the replacement loop turns the line that
    names the application into the same line with the new name, and
    turns [GO_CLI] in the copied documentation into the name in upper
    case with dashes turned into underscores, which is the prefix
    [toEnvPrefix] computes from the new name in the generated program.
    Such a name is in ASCII.  (A name that contains [GO_CLI] is rewritten
    a second time by the loop: see the example below.) *)
Theorem script_prefix_agrees :
  forall (name module : string),
    NewCli.valid_name name = true ->
    NewCli.occurs "GO_CLI" name = false ->
    NewCli.rewrite_text name module (NewCli.appName_line appName)
      = NewCli.appName_line name /\
    NewCli.rewrite_text name module "GO_CLI" = NewCli.env_name name /\
    toEnvPrefix name = NewCli.env_name name /\
    is_ascii name = true.
Proof.
  intros name module Hv Hocc.
  assert (Hall : forallb NewCli.name_byte (list_ascii_of_string name) = true).
  { destruct name as [|c r]; [done|].
    unfold NewCli.valid_name in Hv. apply andb_true_iff in Hv as [Hc Hr].
    cbn [list_ascii_of_string forallb]. rewrite Hr, andb_true_r.
    unfold NewCli.name_byte. by rewrite Hc. }
  destruct (name_bytes_prefix _ Hall) as [E A].
  assert (Hdot : lacks "." name = true)
    by exact (bytes_lack_dot _ name_byte_no_dot _ Hall).
  assert (Hudot : lacks "." (NewCli.env_name name) = true).
  { rewrite <- E. apply (bytes_lack_dot _ env_byte_no_dot), toEnvPrefix_bytes. }
  split; [|split; [|by split]].
  - unfold NewCli.rewrite_text, NewCli.replacements. cbn [fold_left].
    change (NewCli.occurs "go-cli" (NewCli.appName_line appName)) with true.
    cbv iota.
    change (NewCli.replace "go-cli" name (NewCli.appName_line appName))
      with (NewCli.appName_line name).
    assert (H2 : NewCli.occurs "GO_CLI" (NewCli.appName_line name) = false).
    { unfold NewCli.appName_line.
      change (NewCli.occurs "GO_CLI"
                ("const appName = " +:+ String Toml.dquote (name +:+ String Toml.dquote "")))
        with (NewCli.occurs "GO_CLI" (name +:+ String Toml.dquote "")).
      by rewrite occurs_snoc. }
    rewrite H2.
    assert (H3 : NewCli.occurs NewCli.module_path (NewCli.appName_line name) = false).
    { apply (occurs_lacks "."); [|reflexivity].
      unfold NewCli.appName_line. rewrite lacks_app.
      rewrite (lacks_cons "." Toml.dquote (name +:+ String Toml.dquote "")).
      rewrite lacks_app, Hdot. reflexivity. }
    by rewrite H3.
  - unfold NewCli.rewrite_text, NewCli.replacements. cbn [fold_left].
    change (NewCli.occurs "go-cli" "GO_CLI") with false. cbv iota.
    change (NewCli.occurs "GO_CLI" "GO_CLI") with true. cbv iota.
    change (NewCli.replace "GO_CLI" (NewCli.env_name name) "GO_CLI")
      with (NewCli.env_name name +:+ "").
    rewrite sapp_nil_r.
    by rewrite (occurs_lacks "." NewCli.module_path _ Hudot eq_refl).
Qed.

Lemma script_prefix_agrees_witness :
  NewCli.rewrite_text "my-tool_2" "example.org/my-tool" (NewCli.appName_line appName)
    = NewCli.appName_line "my-tool_2" /\
  NewCli.rewrite_text "my-tool_2" "example.org/my-tool" "GO_CLI"
    = NewCli.env_name "my-tool_2" /\
  toEnvPrefix "my-tool_2" = NewCli.env_name "my-tool_2" /\
  is_ascii "my-tool_2" = true.
Proof. apply (script_prefix_agrees "my-tool_2" "example.org/my-tool"); reflexivity. Defined.

(** A name that contains [GO_CLI] is accepted and rewritten twice: the
    generated program is called [GO_CLI22] and reads variables with
    that prefix, while the copied documentation names the prefix
    [GO_CLI2].  And the module path is never replaced as such: the first
    replacement has already rewritten its last element. *)
Example script_rewrites_twice :
  NewCli.valid_name "GO_CLI2" = true /\
  NewCli.rewrite_text "GO_CLI2" "m" (NewCli.appName_line appName)
    = NewCli.appName_line "GO_CLI22" /\
  NewCli.rewrite_text "GO_CLI2" "m" "GO_CLI" = "GO_CLI2" /\
  toEnvPrefix "GO_CLI22" = "GO_CLI22" /\
  NewCli.rewrite_text "tool" "example.org/tool" NewCli.module_path
    = "gitlab.cc-asp.fraunhofer.de/templates/tool" /\
  NewCli.env_name appName = EnvPrefix.
Proof. repeat split; by vm_compute. Qed.

(** ** The path resolver, besides the claims *)

Lemma UserHomeDir_value h home :
  UserHomeDir h = Ok home ->
  home <> "" /\ Getenv h (match goos h with windows => "USERPROFILE" | _ => "HOME" end) = home.
Proof.
  unfold UserHomeDir. destruct (goos h); cbn;
    (destruct (decide _) as [Hne|]; [|done]); by intros [= <-].
Qed.

Lemma nonempty_true s : nonempty s = true <-> s <> "".
Proof. unfold nonempty. destruct (String.eqb_spec s ""); naive_solver. Qed.

Lemma nonempty_false s : nonempty s = false <-> s = "".
Proof. unfold nonempty. destruct (String.eqb_spec s ""); naive_solver. Qed.

(** Property X6.  Each of the four default directories can fail in one way
    only: no variable that would name it is set and the home directory
    cannot be determined; the error wraps the error of the home
    lookup.  With a home directory every one of them is resolved. *)
Theorem default_dirs_failure :
  forall (h : Host) (app : string) (e : error),
    defaultConfigDir h app = Err e \/ defaultDataDir h app = Err e \/
    defaultStateDir h app = Err e \/ defaultCacheDir h app = Err e ->
    exists cause, UserHomeDir h = Err cause /\ e = ErrDetermineHome cause.
Proof.
  intros h app e.
  unfold defaultConfigDir, defaultDataDir, defaultStateDir, defaultCacheDir.
  intros [H|[H|[H|H]]]; revert H;
    repeat match goal with
    | |- context [if ?b then _ else _] => destruct b
    | |- context [match UserConfigDir h with _ => _ end] => destruct (UserConfigDir h)
    | |- context [match UserCacheDir h with _ => _ end] => destruct (UserCacheDir h)
    | |- context [match UserHomeDir h with _ => _ end] => destruct (UserHomeDir h) eqn:?
    end; try discriminate; intros [= <-]; by eexists.
Qed.

Lemma default_dirs_failure_witness :
  exists cause, UserHomeDir bare_host = Err cause /\
                ErrDetermineHome (ErrHomeNotDefined "$HOME") = ErrDetermineHome cause.
Proof.
  apply (default_dirs_failure bare_host "go-cli"). left. reflexivity.
Defined.

Lemma Join_two_three home mid app :
  home <> "" ->
  Filepath.Join [home +:+ "/" +:+ mid; app] = Filepath.Join [home; mid; app].
Proof.
  intros Hne. unfold Filepath.Join.
  destruct (String.eqb_spec home "") as [|_]; [done|].
  destruct (String.eqb_spec (home +:+ "/" +:+ mid) "") as [E|_].
  { destruct home; [done|discriminate]. }
  f_equal. change (Strings.Join [home +:+ "/" +:+ mid; app] "/")
    with ((home +:+ "/" +:+ mid) +:+ "/" +:+ app).
  change (Strings.Join [home; mid; app] "/") with (home +:+ "/" +:+ mid +:+ "/" +:+ app).
  by rewrite !sapp_assoc.
Qed.

Lemma default_dirs_linux :
  forall (h : Host) (app home : string),
    goos h = linux ->
    UserHomeDir h = Ok home ->
    Getenv h "XDG_CONFIG_HOME" = "" -> Getenv h "XDG_DATA_HOME" = "" ->
    Getenv h "XDG_STATE_HOME" = "" -> Getenv h "XDG_CACHE_HOME" = "" ->
    defaultConfigDir h app = Ok (Filepath.Join [home; ".config"; app]) /\
    defaultDataDir h app = Ok (Filepath.Join [home; ".local"; "share"; app]) /\
    defaultStateDir h app = Ok (Filepath.Join [home; ".local"; "state"; app]) /\
    defaultCacheDir h app = Ok (Filepath.Join [home; ".cache"; app]).
Proof.
  intros h app home Hos Hhome Hc Hd Hs Hk.
  pose proof Hhome as Hv. apply UserHomeDir_value in Hv as [Hne Hv].
  rewrite Hos in Hv.
  unfold defaultConfigDir, defaultDataDir, defaultStateDir, defaultCacheDir,
    UserConfigDir, UserCacheDir.
  rewrite Hc, Hd, Hs, Hk, Hos, Hv, Hhome. cbn [nonempty String.eqb negb andb].
  rewrite !bool_decide_eq_false_2 by done. cbn [andb].
  destruct (String.eqb_spec home "") as [|_]; [done|].
  assert (N1 : nonempty (home +:+ "/.config") = true).
  { apply nonempty_true. destruct home; [done|discriminate]. }
  rewrite N1, andb_false_r.
  repeat split.
  - f_equal. apply (Join_two_three home ".config" app Hne).
  - destruct (nonempty (home +:+ "/.cache")); [|done].
    f_equal. apply (Join_two_three home ".cache" app Hne).
Qed.

Lemma default_dirs_darwin :
  forall (h : Host) (app home : string),
    goos h = darwin ->
    UserHomeDir h = Ok home ->
    Getenv h "XDG_DATA_HOME" = "" -> Getenv h "XDG_CACHE_HOME" = "" ->
    defaultDataDir h app = Ok (Filepath.Join [home +:+ "/Library/Caches"; app]) /\
    defaultCacheDir h app = defaultDataDir h app.
Proof.
  intros h app home Hos Hhome Hd Hk.
  pose proof Hhome as Hv. apply UserHomeDir_value in Hv as [Hne Hv].
  rewrite Hos in Hv.
  unfold defaultDataDir, defaultCacheDir, UserCacheDir.
  rewrite Hd, Hk, Hos, Hv. cbn [nonempty String.eqb negb andb].
  rewrite !bool_decide_eq_false_2 by done. cbn [andb].
  destruct (String.eqb_spec home "") as [|_]; [done|].
  assert (N1 : nonempty (home +:+ "/Library/Caches") = true).
  { apply nonempty_true. destruct home; [done|discriminate]. }
  rewrite N1. rewrite bool_decide_eq_true_2 by done. done.
Qed.

(** Property X7.  The defaults by platform, for a process with a home
    directory.  On Linux, with none of the XDG variables set, the four
    directories are those of the XDG base directory specification below
    the home directory.  On macOS, with [XDG_DATA_HOME] and
    [XDG_CACHE_HOME] unset, the data directory is the application's
    directory below [Library/Caches]: the same directory as the cache
    directory. *)
Theorem default_dirs_by_platform :
  forall (h : Host) (app home : string),
    UserHomeDir h = Ok home ->
    (goos h = linux ->
     Getenv h "XDG_CONFIG_HOME" = "" -> Getenv h "XDG_DATA_HOME" = "" ->
     Getenv h "XDG_STATE_HOME" = "" -> Getenv h "XDG_CACHE_HOME" = "" ->
     defaultConfigDir h app = Ok (Filepath.Join [home; ".config"; app]) /\
     defaultDataDir h app = Ok (Filepath.Join [home; ".local"; "share"; app]) /\
     defaultStateDir h app = Ok (Filepath.Join [home; ".local"; "state"; app]) /\
     defaultCacheDir h app = Ok (Filepath.Join [home; ".cache"; app])) /\
    (goos h = darwin ->
     Getenv h "XDG_DATA_HOME" = "" -> Getenv h "XDG_CACHE_HOME" = "" ->
     defaultDataDir h app = Ok (Filepath.Join [home +:+ "/Library/Caches"; app]) /\
     defaultCacheDir h app = defaultDataDir h app).
Proof.
  intros h app home Hhome. split.
  - intros. by apply default_dirs_linux.
  - intros. by apply default_dirs_darwin.
Qed.

Lemma default_dirs_by_platform_witness :
  (defaultConfigDir sample_host "go-cli" = Ok (Filepath.Join ["/home/u"; ".config"; "go-cli"]) /\
   defaultDataDir sample_host "go-cli" = Ok (Filepath.Join ["/home/u"; ".local"; "share"; "go-cli"]) /\
   defaultStateDir sample_host "go-cli" = Ok (Filepath.Join ["/home/u"; ".local"; "state"; "go-cli"]) /\
   defaultCacheDir sample_host "go-cli" = Ok (Filepath.Join ["/home/u"; ".cache"; "go-cli"])) /\
  (defaultDataDir darwin_host "go-cli"
     = Ok (Filepath.Join ["/Users/u" +:+ "/Library/Caches"; "go-cli"]) /\
   defaultCacheDir darwin_host "go-cli" = defaultDataDir darwin_host "go-cli").
Proof.
  split.
  - apply (proj1 (default_dirs_by_platform sample_host "go-cli" "/home/u" eq_refl));
      reflexivity.
  - apply (proj2 (default_dirs_by_platform darwin_host "go-cli" "/Users/u" eq_refl));
      reflexivity.
Defined.

(** Property X8.  [DiscoverPaths] only looks: files, open handles and the
    standard error stream are as before, whatever the outcome.  Without
    an override it makes no system call at all; with one it makes at
    most one, a [Stat] of the expanded override. *)
Theorem DiscoverPaths_only_looks :
  forall (h : Host) (app override : string) (w w' : World) (r : result AppPaths),
    DiscoverPaths h app override w = (r, w') ->
    files w' = files w /\ handles w' = handles w /\ stderr w' = stderr w /\
    (override = "" -> trace w' = trace w) /\
    (trace w' = trace w \/
     exists p, expandPath h override = Ok p /\ trace w' = SysStat p :: trace w).
Proof.
  intros h app override w w' r. rewrite DiscoverPaths_eq, resolveConfigFile_eq.
  destruct (String.eqb_spec override "") as [->|Hne].
  - cbn [nonempty String.eqb negb].
    destruct (defaultConfigDir h app); intros [= <- <-]; tauto.
  - replace (nonempty override) with true by (symmetry; by apply nonempty_true).
    destruct (expandPath h override) as [p|e]; intros [= <- <-].
    + cbn. split; [done|]. split; [done|]. split; [done|]. split; [done|].
      right. by exists p.
    + tauto.
Qed.

Lemma DiscoverPaths_only_looks_witness :
  files (snd (DiscoverPaths sample_host "go-cli" "/etc/app" dir_world)) = files dir_world /\
  handles (snd (DiscoverPaths sample_host "go-cli" "/etc/app" dir_world)) = handles dir_world /\
  stderr (snd (DiscoverPaths sample_host "go-cli" "/etc/app" dir_world)) = stderr dir_world /\
  ("/etc/app" = "" ->
   trace (snd (DiscoverPaths sample_host "go-cli" "/etc/app" dir_world)) = trace dir_world) /\
  (trace (snd (DiscoverPaths sample_host "go-cli" "/etc/app" dir_world)) = trace dir_world \/
   exists p, expandPath sample_host "/etc/app" = Ok p /\
     trace (snd (DiscoverPaths sample_host "go-cli" "/etc/app" dir_world))
       = SysStat p :: trace dir_world).
Proof.
  apply (DiscoverPaths_only_looks sample_host "go-cli" "/etc/app" dir_world _
           (fst (DiscoverPaths sample_host "go-cli" "/etc/app" dir_world))).
  reflexivity.
Defined.

(** Property X9.  An override that, once expanded, names a directory that is
    there and can be inspected selects [config.toml] inside it; any
    other override (a file, nothing at all, something that cannot be
    inspected) is taken as the file itself.  The data and state
    directories do not depend on the override. *)
Theorem DiscoverPaths_override :
  forall (h : Host) (app override p : string) (w w' : World) (paths : AppPaths),
    override <> "" ->
    expandPath h override = Ok p ->
    DiscoverPaths h app override w = (Ok paths, w') ->
    ((p ∉ denied h) -> node_at w p = Some Directory ->
     ConfigFile paths = Filepath.Join [p; "config.toml"]) /\
    ((p ∈ denied h) \/ node_at w p <> Some Directory -> ConfigFile paths = p) /\
    defaultDataDir h app = Ok (DataDir paths) /\
    defaultStateDir h app = Ok (StateDir paths).
Proof.
  intros h app override p w w' paths Hne Hp.
  rewrite DiscoverPaths_eq, resolveConfigFile_eq.
  replace (nonempty override) with true by (symmetry; by apply nonempty_true).
  rewrite Hp. unfold stat_outcome.
  destruct (defaultDataDir h app) as [d|]; [|done].
  destruct (defaultStateDir h app) as [s|]; [|done].
  cbn. intros [= <- <-]. cbn [ConfigFile DataDir StateDir].
  split; [|split; [|done]].
  - intros Hden Hnode. destruct (decide (p ∈ denied h)); [done|]. by rewrite Hnode.
  - intros [Hden|Hnode].
    + by destruct (decide (p ∈ denied h)).
    + destruct (decide (p ∈ denied h)); [done|].
      destruct (node_at w p) as [[c|]|]; done.
Qed.

Lemma DiscoverPaths_override_witness :
  ((("/etc/app" : string) ∉ denied sample_host) -> node_at dir_world "/etc/app" = Some Directory ->
   ConfigFile {| ConfigFile := "/etc/app/config.toml";
                 DataDir := "/home/u/.local/share/go-cli";
                 StateDir := "/home/u/.local/state/go-cli" |}
     = Filepath.Join ["/etc/app"; "config.toml"]) /\
  ((("/etc/app" : string) ∈ denied sample_host) \/ node_at dir_world "/etc/app" <> Some Directory ->
   ConfigFile {| ConfigFile := "/etc/app/config.toml";
                 DataDir := "/home/u/.local/share/go-cli";
                 StateDir := "/home/u/.local/state/go-cli" |} = "/etc/app") /\
  defaultDataDir sample_host "go-cli" = Ok "/home/u/.local/share/go-cli" /\
  defaultStateDir sample_host "go-cli" = Ok "/home/u/.local/state/go-cli".
Proof.
  apply (DiscoverPaths_override sample_host "go-cli" "/etc/app" "/etc/app" dir_world
           (after_call (SysStat "/etc/app") dir_world)); [done|reflexivity|].
  vm_compute. reflexivity.
Defined.

(** Property X10.  [EnsureDirectories] only ever adds directories: whatever
    was there is unchanged and whatever is new is a directory, with the
    handles and the standard error stream as before.  When it succeeds
    outside dry-run, the data and state directories that are named are
    directories, and ensuring them once more succeeds without changing
    any file. *)
Theorem EnsureDirectories_adds_directories :
  forall (h : Host) (paths : AppPaths) (flags : CommonFlags) (w w' : World)
         (r : result unit),
    EnsureDirectories h paths flags w = (r, w') ->
    mkdirs w w' /\ handles w' = handles w /\ stderr w' = stderr w /\
    (r = Ok tt -> DryRun flags = false ->
     (forall d, d ∈ [DataDir paths; StateDir paths] -> d <> "" ->
        node_at w' d = Some Directory) /\
     exists w'', EnsureDirectories h paths flags w' = (Ok tt, w'') /\
                 files w'' = files w').
Proof.
  intros h paths flags w w' r H.
  apply EnsureDirectories_spec in H as (Hm & Hh & Hs & _ & Hd).
  split; [done|]. split; [done|]. split; [done|].
  intros Hr Hdry. specialize (Hd Hdry Hr). split.
  - intros d Hin Hne. by destruct (Hd d Hin Hne).
  - destruct (ensure_each_existing h [DataDir paths; StateDir paths] w' Hd)
      as (w'' & He & (Hf & _) & _).
    exists w''. split; [|done]. unfold EnsureDirectories. by rewrite Hdry.
Qed.

Lemma EnsureDirectories_adds_directories_witness :
  mkdirs home_world (snd (EnsureDirectories sample_host sample_paths plain_flags home_world)) /\
  handles (snd (EnsureDirectories sample_host sample_paths plain_flags home_world))
    = handles home_world /\
  stderr (snd (EnsureDirectories sample_host sample_paths plain_flags home_world))
    = stderr home_world /\
  (Ok tt = Ok tt -> DryRun plain_flags = false ->
   (forall d, d ∈ [DataDir sample_paths; StateDir sample_paths] -> d <> "" ->
      node_at (snd (EnsureDirectories sample_host sample_paths plain_flags home_world)) d
        = Some Directory) /\
   exists w'',
     EnsureDirectories sample_host sample_paths plain_flags
       (snd (EnsureDirectories sample_host sample_paths plain_flags home_world))
       = (Ok tt, w'') /\
     files w'' = files (snd (EnsureDirectories sample_host sample_paths plain_flags home_world))).
Proof.
  apply (EnsureDirectories_adds_directories sample_host sample_paths plain_flags home_world).
  vm_compute. reflexivity.
Defined.

(** Property X11.  A regular file where the data directory should be makes
    [EnsureDirectories] fail with the error of creating that directory
    (not a directory), after a single [Stat]: nothing is changed and the
    state directory is not attempted. *)
Theorem EnsureDirectories_file_in_the_way :
  forall (h : Host) (paths : AppPaths) (flags : CommonFlags) (w : World) (c : string),
    DryRun flags = false ->
    DataDir paths <> "" ->
    (DataDir paths ∉ denied h) ->
    node_at w (DataDir paths) = Some (File c) ->
    EnsureDirectories h paths flags w =
      (Err (ErrCreatingDirectory (DataDir paths) (ENOTDIR (DataDir paths))),
       after_call (SysStat (DataDir paths)) w).
Proof.
  intros h paths flags w c Hdry Hne Hden Hnode.
  unfold EnsureDirectories. rewrite Hdry. cbn [ensure_each].
  destruct (String.eqb_spec (DataDir paths) "") as [|_]; [done|].
  unfold MkdirAll. destruct (String.length (DataDir paths)) as [|n] eqn:Hlen.
  { destruct (DataDir paths); [done|discriminate]. }
  assert (Hst : stat_outcome h w (DataDir paths) = Ok (File c)).
  { apply stat_outcome_ok. by split. }
  unfold attempt at 1. cbn [MkdirAll_loop]. unfold attempt at 1.
  rewrite Stat_eq, Hst. reflexivity.
Qed.

Lemma EnsureDirectories_file_in_the_way_witness :
  EnsureDirectories sample_host {| ConfigFile := "/c"; DataDir := "/data"; StateDir := "/s" |}
    plain_flags dir_world
  = (Err (ErrCreatingDirectory "/data" (ENOTDIR "/data")),
     after_call (SysStat "/data") dir_world).
Proof.
  apply (EnsureDirectories_file_in_the_way sample_host
           {| ConfigFile := "/c"; DataDir := "/data"; StateDir := "/s" |}
           plain_flags dir_world "x"); try done.
Defined.
(** ** Loading, besides the claims *)

(** A key that is not known, with no leaf of the file below it, keeps
    its field, whatever the environment. *)
Lemma field_unknown {A} h v keypath (dec : string -> Toml.Tree -> result A) old :
  Viper.known v keypath = false -> Viper.below h v keypath = false ->
  Viper.field h v keypath dec old = Ok old.
Proof. intros Hk Hb. unfold Viper.field, Viper.setting. by rewrite Hk, Hb. Qed.

(** A known key without a variable is decoded from the file, then from
    the defaults, unless a variable named after its table hides it. *)
Lemma field_no_env {A} h v keypath (dec : string -> Toml.Tree -> result A) old :
  Viper.automaticEnv v = true ->
  Getenv h (Viper.envKeyReplacer v (Viper.mergeWithEnvPrefix v (Viper.key_of keypath))) = "" ->
  Viper.below h v keypath = false ->
  Viper.field h v keypath dec old =
    if Viper.known v keypath then
      if Viper.shadowed_in_env h v keypath then Ok old
      else match Viper.in_config v keypath with
           | Some it => dec (Viper.key_of keypath) it
           | None =>
               if Viper.shadowed_in_config v keypath then Ok old
               else match Viper.defaults v !! Viper.key_of keypath with
                    | Some d => dec (Viper.key_of keypath) (Toml.Leaf d)
                    | None => Ok old
                    end
           end
    else Ok old.
Proof.
  intros Ha Henv Hb. unfold Viper.field, Viper.setting, Viper.find.
  rewrite Ha, (getEnv_unset _ _ _ Henv), Hb. cbn [andb].
  destruct (Viper.known v keypath); [|done].
  destruct (Viper.shadowed_in_env h v keypath); [done|].
  destruct (Viper.in_config v keypath); [done|].
  destruct (Viper.shadowed_in_config v keypath); [done|].
  by destruct (Viper.defaults v !! Viper.key_of keypath).
Qed.

(** A key without a default that is no leaf of the file is not
    known. *)
Lemma unknown_without_default path doc keypath :
  Viper.in_file (Viper.set_config Viper.New doc) keypath = false ->
  Viper.defaults (base_viper path) !! Viper.key_of keypath = None ->
  Viper.known (Viper.set_config (base_viper path) doc) keypath = false.
Proof.
  intros Hfile Hdef. unfold Viper.known.
  change (Viper.in_file (Viper.set_config (base_viper path) doc) keypath)
    with (Viper.in_file (Viper.set_config Viper.New doc) keypath).
  change (Viper.defaults (Viper.set_config (base_viper path) doc))
    with (Viper.defaults (base_viper path)).
  by rewrite Hfile, Hdef.
Qed.

Lemma file_defines_decoded {D : Toml.Decoder} w p text doc keypath :
  node_at w p = Some (File text) -> Toml.Unmarshal text = Some doc ->
  file_defines w p keypath = Viper.in_file (Viper.set_config Viper.New doc) keypath.
Proof. intros Hn Hp. unfold file_defines. by rewrite Hn, Hp. Qed.

(** Property X12.  The four keys without a default ([logging.file],
    [runtime.parallelism], [paths.data_dir], [paths.state_dir]) come
    from the configuration file only: when the file that was loaded does
    not define such a key, the field is left empty, whatever the
    environment holds.  This holds for every decoder of the file; the
    keys of the file are taken to be ASCII, since the decoding into the
    fields matches names without regard to case and a table named with
    a long s would pass for [paths]. *)
Theorem keys_without_default_ignore_environment :
  forall {D : Toml.Decoder} (h : Host) (paths : AppPaths) (flags : CommonFlags)
         (w w' : World) (cfg : AppConfig),
    LoadOrInitConfig h paths flags w = (Ok cfg, w') ->
    file_keys_ascii w' (ConfigFile paths) = true ->
    (file_defines w' (ConfigFile paths) ["logging"; "file"] = false ->
     Logging_File (Logging cfg) = "") /\
    (file_defines w' (ConfigFile paths) ["runtime"; "parallelism"] = false ->
     Runtime_Parallelism (Runtime cfg) = None) /\
    (file_defines w' (ConfigFile paths) ["paths"; "data_dir"] = false ->
     Paths_DataDir (Paths cfg) = "") /\
    (file_defines w' (ConfigFile paths) ["paths"; "state_dir"] = false ->
     Paths_StateDir (Paths cfg) = "").
Proof.
  intros D h paths flags w w' cfg H _.
  apply LoadOrInitConfig_decoded in H as (doc & Hdec & Hdoc).
  apply decode_config_inv in Hdec
    as (cfg0 & Hu & _ & _ & Hfile & _ & Hpar & _ & _ & Hpaths).
  apply Unmarshal_fields in Hu
    as (_ & _ & _ & Ff & _ & Fp & _ & _ & _ & Fd & Fs).
  set (v := Viper.set_config (base_viper (ConfigFile paths)) doc) in *.
  assert (Hkey : forall keypath,
    Viper.defaults (base_viper (ConfigFile paths)) !! Viper.key_of keypath = None ->
    file_defines w' (ConfigFile paths) keypath = false ->
    Viper.setting h v keypath = None \/
    Viper.setting h v keypath = Some (Toml.Branch [])).
  { intros keypath Hdef Hv. apply setting_unknown, unknown_without_default; [|exact Hdef].
    destruct Hdoc as [(text & Hn & Hp)|(_ & -> & _)].
    - by rewrite (file_defines_decoded _ _ _ _ _ Hn Hp) in Hv.
    - by destruct keypath as [|? [|? [|? ?]]]. }
  repeat split; intros Hv; apply Hkey in Hv; try reflexivity.
  - apply Hfile. apply field_inv in Ff as [(_ & ->)|(it & Hs & Hx)]; [done|].
    destruct Hv as [Hv|Hv]; rewrite Hv in Hs; [done|]. by injection Hs as <-.
  - rewrite Hpar. apply field_inv in Fp as [(_ & ->)|(it & Hs & Hx)]; [done|].
    destruct Hv as [Hv|Hv]; rewrite Hv in Hs; [done|]. by injection Hs as <-.
  - rewrite Hpaths. apply field_inv in Fd as [(_ & ->)|(it & Hs & Hx)]; [done|].
    destruct Hv as [Hv|Hv]; rewrite Hv in Hs; [done|]. by injection Hs as <-.
  - rewrite Hpaths. apply field_inv in Fs as [(_ & ->)|(it & Hs & Hx)]; [done|].
    destruct Hv as [Hv|Hv]; rewrite Hv in Hs; [done|]. by injection Hs as <-.
Qed.

Lemma keys_without_default_ignore_environment_witness :
  Getenv profile_host "GO_CLI_PATHS__DATA_DIR" = "/elsewhere" /\
  Paths_DataDir (Paths (mkAppConfig "ci"
     (mkLoggingConfig "trace" "") (mkRuntimeConfig None (Some 5) true)
     (mkPathsConfig "" ""))) = "".
Proof.
  split; [reflexivity|].
  refine (proj1 (proj2 (proj2 (keys_without_default_ignore_environment
    profile_host app_toml_paths plain_flags no_timeout_world
    (snd (LoadOrInitConfig profile_host app_toml_paths plain_flags no_timeout_world))
    _ _ _))) _); by vm_compute.
Defined.

Lemma known_profile path doc :
  Viper.known (Viper.set_config (base_viper path) doc) ["profile"] = true.
Proof. unfold Viper.known. apply orb_true_r. Qed.

Lemma known_with_default path doc table key :
  Viper.in_file (Viper.set_config Viper.New doc) [table] = false ->
  is_Some (Viper.defaults (base_viper path) !! Viper.key_of [table; key]) ->
  Viper.known (Viper.set_config (base_viper path) doc) [table; key] = true.
Proof.
  intros Hleaf Hdef. unfold Viper.known, Viper.shadowed_in_config.
  change (Viper.defaults (Viper.set_config (base_viper path) doc))
    with (Viper.defaults (base_viper path)).
  change (Viper.leaf_at (Viper.config (Viper.set_config (base_viper path) doc)) table)
    with (Viper.in_file (Viper.set_config Viper.New doc) [table]).
  rewrite (bool_decide_eq_true_2 _ Hdef), Hleaf. apply orb_true_r.
Qed.

(** [strconv.ParseInt] with base 0 at work. *)
Example ParseInt_examples :
  Strconv.ParseInt "30" = Some 30 /\
  Strconv.ParseInt "010" = Some 8 /\
  Strconv.ParseInt "0x10" = Some 16 /\
  Strconv.ParseInt "1_0" = Some 10 /\
  Strconv.ParseInt "-0b11" = Some (-3) /\
  Strconv.ParseInt "0o17" = Some 15 /\
  Strconv.ParseInt "0" = Some 0 /\
  Strconv.ParseInt "08" = None /\
  Strconv.ParseInt "0x" = None /\
  Strconv.ParseInt "1__0" = None /\
  Strconv.ParseInt "_1" = None /\
  Strconv.ParseInt "1_" = None /\
  Strconv.ParseInt "0_7" = Some 7 /\
  Strconv.ParseInt "0x_1f" = Some 31 /\
  Strconv.ParseInt "+-1" = None /\
  Strconv.ParseInt " 1" = None /\
  Strconv.ParseInt "9223372036854775807" = Some 9223372036854775807 /\
  Strconv.ParseInt "9223372036854775808" = None /\
  Strconv.ParseInt "-9223372036854775808" = Some (-9223372036854775808).
Proof. repeat split; by vm_compute. Qed.

(** Property X13.  For the keys that have a default, the environment wins over
    the file and the default: after a successful load, a non-empty
    [GO_CLI_PROFILE] is the profile, a non-empty [GO_CLI_LOGGING__LEVEL]
    is the level, and a non-empty [GO_CLI_RUNTIME__TIMEOUT] is a numeral
    as [strconv.ParseInt] reads it with base 0 (decimal, or with a base
    prefix, a leading zero meaning octal) whose value is the timeout.
    For the two keys of a table, the file is taken not to store a value
    under the name of the table: a file that does, and stores other
    keys of the table under quoted names, can load with the defaults of
    the table left out, and then the variable is not looked at.  This
    holds for every decoder of the configuration file. *)
Theorem environment_overrides_file :
  forall {D : Toml.Decoder} (h : Host) (paths : AppPaths) (flags : CommonFlags)
         (w w' : World) (cfg : AppConfig),
    LoadOrInitConfig h paths flags w = (Ok cfg, w') ->
    (Getenv h "GO_CLI_PROFILE" <> "" -> Profile cfg = Getenv h "GO_CLI_PROFILE") /\
    (Getenv h "GO_CLI_LOGGING__LEVEL" <> "" ->
     file_defines w' (ConfigFile paths) ["logging"] = false ->
     Logging_Level (Logging cfg) = Getenv h "GO_CLI_LOGGING__LEVEL") /\
    (Getenv h "GO_CLI_RUNTIME__TIMEOUT" <> "" ->
     file_defines w' (ConfigFile paths) ["runtime"] = false ->
     exists n, Strconv.ParseInt (Getenv h "GO_CLI_RUNTIME__TIMEOUT") = Some n /\
               Runtime_TimeoutSeconds (Runtime cfg) = Some n).
Proof.
  intros D h paths flags w w' cfg H.
  apply LoadOrInitConfig_decoded in H as (doc & Hdec & Hdoc).
  apply decode_config_inv in Hdec
    as (cfg0 & Hu & Hprof & Hlevel & _ & _ & _ & Htime & _ & _).
  apply Unmarshal_fields in Hu
    as (Fp & _ & Fl & _ & _ & _ & Ft & _).
  set (v := Viper.set_config (base_viper (ConfigFile paths)) doc) in *.
  assert (Hleaf : forall table,
    file_defines w' (ConfigFile paths) [table] = false ->
    Viper.in_file (Viper.set_config Viper.New doc) [table] = false).
  { intros table Hv. destruct Hdoc as [(text & Hn & Hp)|(_ & -> & _)].
    - by rewrite (file_defines_decoded _ _ _ _ _ Hn Hp) in Hv.
    - reflexivity. }
  split; [|split].
  - intros Henv. rewrite Hprof.
    unfold Viper.field in Fp.
    rewrite (setting_env h v ["profile"]) in Fp; [| done | apply known_profile | exact Henv].
    cbn in Fp. by injection Fp as <-.
  - intros Henv Hfile. rewrite Hlevel.
    unfold Viper.field in Fl.
    rewrite (setting_env h v ["logging"; "level"]) in Fl;
      [| done | apply known_with_default; [by apply Hleaf|done] | exact Henv].
    cbn in Fl. by injection Fl as <-.
  - intros Henv Hfile. rewrite Htime.
    unfold Viper.field in Ft.
    rewrite (setting_env h v ["runtime"; "timeout"]) in Ft;
      [| done | apply known_with_default; [by apply Hleaf|done] | exact Henv].
    change (Viper.envKeyReplacer v
              (Viper.mergeWithEnvPrefix v (Viper.key_of ["runtime"; "timeout"])))
      with "GO_CLI_RUNTIME__TIMEOUT" in Ft.
    unfold Viper.decode_int in Ft.
    destruct (String.eqb_spec (Getenv h "GO_CLI_RUNTIME__TIMEOUT") "") as [|_]; [done|].
    destruct (Strconv.ParseInt (Getenv h "GO_CLI_RUNTIME__TIMEOUT")) as [k|]; [|done].
    cbn in Ft. injection Ft as <-. by exists k.
Qed.

Lemma environment_overrides_file_witness :
  exists cfg,
    fst (LoadOrInitConfig octal_host app_toml_paths plain_flags no_timeout_world) = Ok cfg /\
    Profile cfg = "ci" /\
    Logging_Level (Logging cfg) = "trace" /\
    Runtime_TimeoutSeconds (Runtime cfg) = Some 8.
Proof.
  set (cfg := mkAppConfig "ci" (mkLoggingConfig "trace" "")
                (mkRuntimeConfig None (Some 8) true) (mkPathsConfig "" "")).
  exists cfg. split; [by vm_compute|].
  destruct (environment_overrides_file octal_host app_toml_paths plain_flags
              no_timeout_world
              (snd (LoadOrInitConfig octal_host app_toml_paths plain_flags no_timeout_world))
              cfg) as (Hp & Hl & Ht).
  { by vm_compute. }
  split; [|split].
  - rewrite Hp; by vm_compute.
  - rewrite Hl; by vm_compute.
  - destruct Ht as (n & Hn & Ht); [by vm_compute|by vm_compute|].
    rewrite Ht. vm_compute in Hn. symmetry. exact Hn.
Defined.

(** ** The generated configuration file *)

Lemma srev_app a : forall b, String.rev (a +:+ b) = String.rev b +:+ String.rev a.
Proof.
  induction a as [|c a IH]; intros b.
  - change ("" +:+ b) with b. by rewrite sapp_nil_r.
  - change (String c a +:+ b) with (String c (a +:+ b)).
    by rewrite !rev_cons, IH, sapp_assoc.
Qed.

Lemma srev_involutive s : String.rev (String.rev s) = s.
Proof.
  induction s as [|c s IH]; [done|].
  by rewrite rev_cons, srev_app, IH.
Qed.

Lemma strip_cr_spec s :
  Toml.strip_cr s = s \/ s = Toml.strip_cr s +:+ String (ascii_of_nat 13) "".
Proof.
  unfold Toml.strip_cr. destruct (String.rev s) as [|c r] eqn:E; [by left|].
  destruct (nat_of_ascii c =? 13)%nat eqn:Hc; [|by left]. right.
  apply Nat.eqb_eq in Hc. apply (f_equal ascii_of_nat) in Hc.
  rewrite ascii_nat_embedding in Hc. subst c.
  apply (f_equal String.rev) in E. rewrite srev_involutive in E.
  by rewrite E, rev_cons.
Qed.

Lemma all_bytes_app p a b :
  Toml.all_bytes p (a +:+ b) = Toml.all_bytes p a && Toml.all_bytes p b.
Proof.
  unfold Toml.all_bytes. induction a as [|c a IH]; [done|].
  change (String c a +:+ b) with (String c (a +:+ b)).
  cbn [list_ascii_of_string forallb]. by rewrite IH, andb_assoc.
Qed.

(** A line of printable characters and tabs ends in no carriage
    return. *)
Lemma text_line_strip_cr s :
  Toml.all_bytes Toml.text_byte s = true -> Toml.strip_cr s = s.
Proof.
  intros Hs. destruct (strip_cr_spec s) as [E|E]; [exact E|].
  rewrite E, all_bytes_app in Hs. apply andb_true_iff in Hs as [_ Hs]. done.
Qed.

(** A line that starts with a hash sign is a comment, whatever
    printable text follows. *)
Lemma comment_line st body :
  Toml.all_bytes Toml.text_byte body = true ->
  Toml.parse_line st (String "#" body) = Some st.
Proof.
  intros Hb.
  assert (Hl : Toml.all_bytes Toml.text_byte (String "#" body) = true).
  { unfold Toml.all_bytes in *. cbn [list_ascii_of_string forallb]. by rewrite Hb. }
  unfold Toml.parse_line. destruct st as [current doc].
  rewrite (text_line_strip_cr _ Hl).
  change (Toml.ltrim (String "#" body)) with (String "#" body).
  by rewrite Hl.
Qed.

Lemma printable_byte_newline c :
  (32 <=? nat_of_ascii c)%nat && (nat_of_ascii c <=? 126)%nat = true ->
  negb (Ascii.eqb c Toml.newline) = true.
Proof. destruct c as [[] [] [] [] [] [] [] []]; by vm_compute. Qed.

Lemma printable_lacks_newline path :
  printable path = true -> lacks Toml.newline path = true.
Proof.
  induction path as [|c r IH]; [done|]. unfold printable. cbn [list_ascii_of_string forallb].
  intros [Hc Hr]%andb_true_iff. rewrite lacks_cons, (printable_byte_newline c Hc).
  by apply IH.
Qed.

Lemma printable_text path :
  printable path = true -> Toml.all_bytes Toml.text_byte path = true.
Proof.
  unfold printable, Toml.all_bytes. induction (list_ascii_of_string path) as [|c l IH]; [done|].
  cbn [forallb]. intros [Hc Hl]%andb_true_iff. rewrite (IH Hl), andb_true_r.
  unfold Toml.text_byte. by rewrite Hc, orb_true_r.
Qed.

(** The header the generator writes in front of the body is made of
    comments and a blank line: the file reads as the body does. *)
Lemma template_parse path :
  printable path = true ->
  Toml.parse (defaultConfigHeader path +:+ defaultConfigBody)
    = Toml.parse defaultConfigBody.
Proof.
  intros Hp. generalize defaultConfigBody. intros body.
  assert (E : defaultConfigHeader path +:+ body =
              "# Configuration for go-cli" +:+
              String Toml.newline
                (("# File: " +:+ path) +:+
                 String Toml.newline (String Toml.newline body))).
  { unfold defaultConfigHeader, nl, appName. by rewrite !sapp_assoc. }
  rewrite E. unfold Toml.parse.
  rewrite (Split_app Toml.newline) by reflexivity.
  rewrite (Split_app Toml.newline).
  2: { rewrite lacks_app. by rewrite (printable_lacks_newline path Hp). }
  rewrite Split_cons, Ascii.eqb_refl.
  cbn [Toml.parse_lines].
  change "# Configuration for go-cli"
    with (String "#" " Configuration for go-cli").
  rewrite comment_line by reflexivity.
  change ("# File: " +:+ path) with (String "#" (" File: " +:+ path)).
  rewrite comment_line; [reflexivity|].
  rewrite all_bytes_app. by rewrite (printable_text path Hp).
Qed.

Lemma template_body_parse : Toml.parse defaultConfigBody = Some template_doc.
Proof. by vm_compute. Qed.

(** Without an override in the environment, the generated file decodes
    to the built-in defaults. *)
Lemma template_decodes h path :
  Getenv h "GO_CLI_PROFILE" = "" ->
  Getenv h "GO_CLI_LOGGING__LEVEL" = "" ->
  Getenv h "GO_CLI_RUNTIME__TIMEOUT" = "" ->
  Getenv h "GO_CLI_RUNTIME__FAIL_FAST" = "" ->
  decode_config h (Viper.set_config (base_viper path) (Toml.document_of template_doc))
    = Ok defaultConfig.
Proof.
  intros H1 H2 H3 H4.
  set (v := Viper.set_config (base_viper path) (Toml.document_of template_doc)).
  assert (Hflat : Viper.flatten (Viper.config v)
                  = ["runtime.fail_fast"; "runtime.timeout"; "logging.level"; "profile"])
    by by vm_compute.
  assert (Hb : forall keypath,
    forallb (fun key => negb (Strings.HasPrefix key (Viper.key_of keypath +:+ ".")))
            ["runtime.fail_fast"; "runtime.timeout"; "logging.level"; "profile"] = true ->
    Viper.below h v keypath = false).
  { intros keypath Hk. unfold Viper.below. rewrite Hflat.
    cbn [forallb existsb] in *.
    repeat match type of Hk with
           | _ && _ = true => apply andb_true_iff in Hk as [?%negb_true_iff Hk]
           end.
    repeat match goal with E : Strings.HasPrefix _ _ = false |- _ => rewrite E; clear E end.
    reflexivity. }
  assert (Hu : Unmarshal h v defaultConfig = Ok defaultConfig).
  { unfold Unmarshal.
    rewrite (field_no_env h v ["profile"]) by (done || exact H1 || by apply Hb).
    rewrite (field_no_env h v ["logging"; "level"]) by (done || exact H2 || by apply Hb).
    rewrite (field_unknown h v ["logging"; "file"]) by (by vm_compute || by apply Hb).
    rewrite (field_unknown h v ["runtime"; "parallelism"]) by (by vm_compute || by apply Hb).
    rewrite (field_no_env h v ["runtime"; "timeout"]) by (done || exact H3 || by apply Hb).
    rewrite (field_no_env h v ["runtime"; "fail_fast"]) by (done || exact H4 || by apply Hb).
    rewrite (field_unknown h v ["paths"; "data_dir"]) by (by vm_compute || by apply Hb).
    rewrite (field_unknown h v ["paths"; "state_dir"]) by (by vm_compute || by apply Hb).
    assert (Hk : forall keypath r,
      Viper.known v keypath = r -> Viper.known v keypath = r) by done.
    rewrite (Hk ["profile"] true) by by vm_compute.
    rewrite (Hk ["logging"; "level"] true) by by vm_compute.
    rewrite (Hk ["runtime"; "timeout"] true) by by vm_compute.
    rewrite (Hk ["runtime"; "fail_fast"] true) by by vm_compute.
    assert (Hi : forall keypath r,
      Viper.in_config v keypath = r -> Viper.in_config v keypath = r) by done.
    rewrite (Hi ["profile"] (Some (Toml.Leaf (Toml.VString "default")))) by by vm_compute.
    rewrite (Hi ["logging"; "level"] (Some (Toml.Leaf (Toml.VString "info")))) by by vm_compute.
    rewrite (Hi ["runtime"; "timeout"] (Some (Toml.Leaf (Toml.VInteger 60)))) by by vm_compute.
    rewrite (Hi ["runtime"; "fail_fast"] (Some (Toml.Leaf (Toml.VBoolean true))))
      by by vm_compute.
    assert (Hs : forall name, Viper.known v [name] = false ->
                              Viper.section h v name = Ok tt).
    { intros name E. unfold Viper.section. rewrite E.
      by destruct (Viper.below h v [name]). }
    rewrite !Hs by by vm_compute.
    destruct (Viper.shadowed_in_env h v ["logging"; "level"]);
      destruct (Viper.shadowed_in_env h v ["runtime"; "timeout"]);
      destruct (Viper.shadowed_in_env h v ["runtime"; "fail_fast"]);
      reflexivity. }
  unfold decode_config. rewrite Hu. reflexivity.
Qed.

Lemma load_outcome_template h path dry :
  printable path = true ->
  Getenv h "GO_CLI_PROFILE" = "" ->
  Getenv h "GO_CLI_LOGGING__LEVEL" = "" ->
  Getenv h "GO_CLI_RUNTIME__TIMEOUT" = "" ->
  Getenv h "GO_CLI_RUNTIME__FAIL_FAST" = "" ->
  load_outcome h path dry (Ok (defaultConfigHeader path +:+ defaultConfigBody))
    = Ok defaultConfig.
Proof.
  intros Hp H1 H2 H3 H4. unfold load_outcome, Toml.Unmarshal, Toml.fragment.
  rewrite (template_parse path Hp), template_body_parse.
  by apply template_decodes.
Qed.

(** Property X14.  A first run writes the template and reads it back as the
    built-in defaults: when there is nothing at the configuration path
    (a path of printable ASCII characters), the run is no dry-run and
    none of the four variables that carry a default is set, a successful
    load returns exactly [defaultConfig] and leaves the generated text at
    the path. *)
Theorem first_load_gives_defaults :
  forall (h : Host) (paths : AppPaths) (flags : CommonFlags) (w w' : World)
         (cfg : AppConfig),
    printable (ConfigFile paths) = true ->
    node_at w (ConfigFile paths) = None ->
    DryRun flags = false ->
    Getenv h "GO_CLI_PROFILE" = "" ->
    Getenv h "GO_CLI_LOGGING__LEVEL" = "" ->
    Getenv h "GO_CLI_RUNTIME__TIMEOUT" = "" ->
    Getenv h "GO_CLI_RUNTIME__FAIL_FAST" = "" ->
    LoadOrInitConfig h paths flags w = (Ok cfg, w') ->
    cfg = defaultConfig /\
    node_at w' (ConfigFile paths)
      = Some (File (defaultConfigHeader (ConfigFile paths) +:+ defaultConfigBody)).
Proof.
  intros h paths flags w w' cfg Hp Hnone Hdry H1 H2 H3 H4.
  rewrite LoadOrInitConfig_unfold. set (path := ConfigFile paths) in *.
  intros H. apply bind_ok_inv in H as (u & w1 & Hfirst & Htail).
  apply attempt_inv in Hfirst as (st & w0 & Hst & Hfirst).
  rewrite Stat_eq in Hst. injection Hst as <- <-.
  unfold stat_outcome in Hfirst. rewrite Hnone in Hfirst.
  destruct (decide (path ∈ denied h)); [done|].
  destruct (IsNotExist (missing w path)); [|done].
  rewrite Hdry in Hfirst.
  apply writeDefaultConfig_spec in Hfirst as (_ & _ & _ & Hwritten);
    [|by rewrite node_at_after_call].
  destruct u. destruct (Hwritten eq_refl) as [Hnode Hden].
  rewrite load_tail_eq in Htail. injection Htail as Hcfg <-.
  assert (Hrd : read_outcome h w1 path
                = Ok (defaultConfigHeader path +:+ defaultConfigBody)).
  { apply read_outcome_ok. by split. }
  fold path in Hcfg. rewrite Hrd in Hcfg.
  rewrite (load_outcome_template h path _ Hp H1 H2 H3 H4) in Hcfg.
  split; [congruence|]. by rewrite node_at_after_call.
Qed.

Lemma first_load_gives_defaults_witness :
  defaultConfig = defaultConfig /\
  node_at (snd (LoadOrInitConfig sample_host sample_paths plain_flags home_world))
    (ConfigFile sample_paths)
  = Some (File (defaultConfigHeader (ConfigFile sample_paths) +:+ defaultConfigBody)).
Proof.
  apply (first_load_gives_defaults sample_host sample_paths plain_flags home_world
           (snd (LoadOrInitConfig sample_host sample_paths plain_flags home_world))
           defaultConfig); by vm_compute.
Defined.

(** Property X15.  A configuration path that cannot be inspected, for any
    reason other than its absence (access refused, or a regular file
    where a directory should be), makes [LoadOrInitConfig] fail with
    the error of inspecting the file, wrapping the cause, after that one
    [Stat]: nothing is written or read, dry-run or not. *)
Theorem LoadOrInitConfig_stat_failure :
  forall {D : Toml.Decoder} (h : Host) (paths : AppPaths) (flags : CommonFlags)
         (w : World) (e : error),
    stat_outcome h w (ConfigFile paths) = Err e ->
    IsNotExist e = false ->
    LoadOrInitConfig h paths flags w =
      (Err (ErrStatConfig e), after_call (SysStat (ConfigFile paths)) w).
Proof.
  intros D h paths flags w e Hst Hne. rewrite LoadOrInitConfig_unfold.
  unfold bind, attempt. by rewrite Stat_eq, Hst, Hne.
Qed.

Lemma LoadOrInitConfig_stat_failure_witness :
  LoadOrInitConfig locked_host {| ConfigFile := "/locked"; DataDir := "/d"; StateDir := "/s" |}
    plain_flags empty_world
  = (Err (ErrStatConfig (EACCES "/locked")), after_call (SysStat "/locked") empty_world).
Proof.
  apply (LoadOrInitConfig_stat_failure locked_host
           {| ConfigFile := "/locked"; DataDir := "/d"; StateDir := "/s" |}
           plain_flags empty_world); reflexivity.
Defined.

(** ** The run configuration *)

(** Property X16.  [TimeoutDuration] is exact, the number of seconds times
    [10^9] nanoseconds, as long as the number of seconds is at most
    9223372036 in absolute value, where the product still fits an
    [int64]. *)
Theorem TimeoutDuration_exact :
  forall (cfg : RuntimeConfig) (t : Z),
    Runtime_TimeoutSeconds cfg = Some t ->
    - 9223372036 <= t <= 9223372036 ->
    TimeoutDuration cfg = t * 1000000000.
Proof.
  intros cfg t Ht Hrange. unfold TimeoutDuration, wrap64, Second. rewrite Ht.
  rewrite Z.mod_small; lia.
Qed.

Lemma TimeoutDuration_exact_witness :
  TimeoutDuration (Runtime defaultConfig) = 60 * 1000000000.
Proof. apply (TimeoutDuration_exact (Runtime defaultConfig) 60); [reflexivity|lia]. Defined.

Example TimeoutDuration_edges :
  TimeoutDuration (mkRuntimeConfig None None true) = 0 /\
  TimeoutDuration (mkRuntimeConfig None (Some 9223372037) true) = - 9223372036709551616.
Proof. split; reflexivity. Qed.


(** ** The logger, besides the claims *)

Lemma grows_insert_file w path c c' :
  files w !! path = Some (File c) ->
  grows w (mkWorld (<[path := File c']> (files w)) (handles w) (stderr w) (trace w)).
Proof.
  intros Hc p n Hn. unfold node_at in *. cbn [files].
  destruct (String.eqb p "/" || String.eqb p "."); [by exists n|].
  destruct (decide (p = path)) as [->|Hne].
  - rewrite lookup_insert_eq. rewrite Hc in Hn. injection Hn as <-. by eexists.
  - rewrite lookup_insert_ne by done. by exists n.
Qed.

(** One write: what it can change. *)
Lemma WriteString_effect wr data w r w' :
  WriteString wr data w = (r, w') ->
  handles w' = handles w /\ grows w w' /\
  (exists out, stderr w' = stderr w +:+ out) /\
  (wr <> Stderr -> stderr w' = stderr w) /\
  (forall p, (forall fd, wr = FileWriter fd -> handles w !! fd <> Some (p, true)) ->
     files w' !! p = files w !! p).
Proof.
  destruct wr as [| |fd]; cbn [WriteString].
  - unfold bind, log_call. intros [= <- <-]. cbn.
    split; [done|]. split; [by apply extends_grows, extends_files|].
    split; [by eexists|]. done.
  - unfold ret. intros [= <- <-].
    split; [done|]. split; [apply grows_refl|].
    split; [exists ""; by rewrite sapp_nil_r|]. done.
  - unfold bind, log_call. cbn [handles files].
    destruct (handles w !! fd) as [[path [|]]|] eqn:Hfd.
    + destruct (files w !! path) as [[c|]|] eqn:Hc.
      * unfold set_files. cbn. intros [= <- <-]. cbn.
        split; [done|]. split.
        { eapply grows_trans; [|apply (grows_insert_file (after_call (SysWrite (FileWriter fd) data) w) path c); exact Hc].
          apply extends_grows, extends_files. done. }
        split; [exists ""; by rewrite sapp_nil_r|]. split; [done|].
        intros p Hp. destruct (decide (p = path)) as [->|Hne].
        { by destruct (Hp fd eq_refl). }
        by rewrite lookup_insert_ne.
      * intros [= <- <-]. cbn. split; [done|]. split; [apply extends_grows, extends_files; done|].
        split; [exists ""; by rewrite sapp_nil_r|]. done.
      * intros [= <- <-]. cbn. split; [done|]. split; [apply extends_grows, extends_files; done|].
        split; [exists ""; by rewrite sapp_nil_r|]. done.
    + intros [= <- <-]. cbn. split; [done|]. split; [apply extends_grows, extends_files; done|].
      split; [exists ""; by rewrite sapp_nil_r|]. done.
    + intros [= <- <-]. cbn. split; [done|]. split; [apply extends_grows, extends_files; done|].
      split; [exists ""; by rewrite sapp_nil_r|]. done.
Qed.

Lemma write_each_effect formatted : forall writers w r w',
  write_each writers formatted w = (r, w') ->
  r = Ok tt /\ handles w' = handles w /\ grows w w' /\
  (exists out, stderr w' = stderr w +:+ out) /\
  (Stderr ∉ writers -> stderr w' = stderr w) /\
  (forall p, (forall fd, FileWriter fd ∈ writers -> handles w !! fd <> Some (p, true)) ->
     files w' !! p = files w !! p).
Proof.
  induction writers as [|wr rest IH]; intros w r w' H.
  - cbn in H. unfold ret in H. injection H as <- <-.
    split; [done|]. split; [done|]. split; [apply grows_refl|].
    split; [exists ""; by rewrite sapp_nil_r|]. done.
  - cbn [write_each] in H.
    apply attempt_inv in H as (r1 & w1 & H1 & H).
    apply attempt_inv in H as (r2 & w2 & H2 & H).
    apply WriteString_effect in H1 as (Hh1 & G1 & (o1 & S1) & N1 & F1).
    apply WriteString_effect in H2 as (Hh2 & G2 & (o2 & S2) & N2 & F2).
    apply IH in H as (-> & Hh3 & G3 & (o3 & S3) & N3 & F3).
    split; [done|]. split; [congruence|].
    split; [eapply grows_trans; [exact G1|]; eapply grows_trans; [exact G2|exact G3]|].
    split; [exists (o1 +:+ o2 +:+ o3); by rewrite S3, S2, S1, !sapp_assoc|].
    split.
    + intros Hnot. rewrite N3, N2, N1; [done| | |].
      * intros ->. apply Hnot. left.
      * intros ->. apply Hnot. left.
      * intros Hin. apply Hnot. by right.
    + intros p Hp. rewrite F3, F2, F1; [done| | |].
      * intros fd ->. apply Hp. left.
      * intros fd ->. rewrite Hh1. apply Hp. left.
      * intros fd Hin. rewrite Hh2, Hh1. apply Hp. by right.
Qed.

Lemma Logger_log_effect h l level msg args w r w' :
  Logger_log h l level msg args w = (r, w') ->
  r = Ok tt /\ handles w' = handles w /\ grows w w' /\
  (exists out, stderr w' = stderr w +:+ out) /\
  (Stderr ∉ Log_Writers (settings l) -> stderr w' = stderr w) /\
  (forall p, (forall fd, FileWriter fd ∈ Log_Writers (settings l) ->
                         handles w !! fd <> Some (p, true)) ->
     files w' !! p = files w !! p) /\
  (rank level > rank (Log_Level (settings l)) -> w' = w).
Proof.
  unfold Logger_log.
  destruct (Z.gtb_spec (rank level) (rank (Log_Level (settings l)))) as [Hgt|Hle].
  - unfold ret. intros [= <- <-].
    split; [done|]. split; [done|]. split; [apply grows_refl|].
    split; [exists ""; by rewrite sapp_nil_r|]. done.
  - intros H. apply write_each_effect in H as (-> & Hh & G & S & N & F).
    split; [done|]. split; [done|]. split; [done|]. split; [done|].
    split; [done|]. split; [done|]. lia.
Qed.

(** Property X17.  Logging cannot fail and cannot do harm: a call returns without
    error whatever happens to its writers; it leaves the table of
    handles alone, only ever adds to the standard error stream, keeps
    every file and directory in place, and changes no file other than
    those its own file writers hold open.  A message above the logger's
    level changes nothing at all. *)
Theorem Logger_log_harmless :
  forall (h : Host) (l : Logger) (level : Level) (msg : string) (args : list string)
         (w w' : World) (r : result unit),
    Logger_log h l level msg args w = (r, w') ->
    r = Ok tt /\ handles w' = handles w /\ grows w w' /\
    (exists out, stderr w' = stderr w +:+ out) /\
    (forall p, (forall fd, FileWriter fd ∈ Log_Writers (settings l) ->
                           handles w !! fd <> Some (p, true)) ->
       files w' !! p = files w !! p) /\
    (rank level > rank (Log_Level (settings l)) -> w' = w).
Proof.
  intros h l level msg args w w' r H.
  apply Logger_log_effect in H as (H1 & H2 & H3 & H4 & _ & H5 & H6). done.
Qed.

Lemma Logger_log_harmless_witness :
  Ok tt = Ok tt /\
  handles warn_logged = handles open_log_world /\
  grows open_log_world warn_logged /\
  (exists out, stderr warn_logged = stderr open_log_world +:+ out) /\
  (forall p, (forall fd, FileWriter fd ∈ Log_Writers (settings (ConfigureLogger (file_settings 0))) ->
                         handles open_log_world !! fd <> Some (p, true)) ->
     files warn_logged !! p = files open_log_world !! p) /\
  (rank LevelWarn > rank (Log_Level (settings (ConfigureLogger (file_settings 0)))) ->
   warn_logged = open_log_world).
Proof.
  apply (Logger_log_harmless sample_host (ConfigureLogger (file_settings 0)) LevelWarn
           "disk %s" ["full"] open_log_world). reflexivity.
Defined.

(** Property X18.  After [Close], a logger's file no longer receives anything:
    logging through a logger whose only file writer is the handle it
    has closed still returns without error and changes no file. *)
Theorem log_after_Close :
  forall (h : Host) (l : Logger) (fd : nat) (level : Level) (msg : string)
         (args : list string) (w w1 w2 : World) (r : result unit),
    Log_FileHandle (settings l) = Some fd ->
    (forall fd', FileWriter fd' ∈ Log_Writers (settings l) -> fd' = fd) ->
    Logger_Close l w = (Ok tt, w1) ->
    Logger_log h l level msg args w1 = (r, w2) ->
    r = Ok tt /\ files w2 = files w1 /\ files w1 = files w.
Proof.
  intros h l fd level msg args w w1 w2 r Hfd Honly Hclose Hlog.
  unfold Logger_Close in Hclose. rewrite Hfd in Hclose.
  unfold CloseFile, bind, log_call in Hclose. cbn [handles files] in Hclose.
  destruct (handles w !! fd) as [[path [|]]|] eqn:Hh; [|done|done].
  injection Hclose as <-.
  assert (Hclosed : forall p, handles
            {| files := files w; handles := <[fd:=(path, false)]> (handles w);
               stderr := stderr w; trace := SysClose fd :: trace w |} !! fd
            <> Some (p, true)).
  { intros p. cbn [handles]. rewrite list_lookup_insert_eq; [done|].
    by apply lookup_lt_Some in Hh. }
  apply Logger_log_effect in Hlog as (-> & _ & _ & _ & _ & F & _).
  split; [done|]. split; [|done].
  apply map_eq. intros p. apply F. intros fd' Hin. rewrite (Honly fd' Hin). apply Hclosed.
Qed.

Lemma log_after_Close_witness :
  Ok tt = Ok tt /\
  files (snd (Logger_log sample_host (ConfigureLogger (file_settings 0)) LevelWarn
                "disk %s" ["full"]
                (snd (Logger_Close (ConfigureLogger (file_settings 0)) open_log_world))))
    = files (snd (Logger_Close (ConfigureLogger (file_settings 0)) open_log_world)) /\
  files (snd (Logger_Close (ConfigureLogger (file_settings 0)) open_log_world))
    = files open_log_world.
Proof.
  apply (log_after_Close sample_host (ConfigureLogger (file_settings 0)) 0 LevelWarn
           "disk %s" ["full"] open_log_world).
  - reflexivity.
  - intros fd' Hin. cbn in Hin. apply elem_of_cons in Hin as [[=]|Hin].
    apply list_elem_of_singleton in Hin. by injection Hin.
  - reflexivity.
  - reflexivity.
Defined.

(** Property X19.  Under [--quiet] and without a log file (none is
    configured, or the run is a dry-run), the logger is silent
    altogether: a logger configured from the settings that
    [ResolveLogSettings] returned writes to the discard target only, so
    a call adds no byte to the standard error stream and changes no file
    and no handle, whatever the level of the message. *)
Theorem quiet_logger_is_silent :
  forall (h : Host) (flags : CommonFlags) (cfg : AppConfig) (w w' : World)
         (s : LogSettings) (level : Level) (msg : string) (args : list string)
         (w1 w2 : World) (r : result unit),
    Quiet flags = true ->
    nonempty (Logging_File (Logging cfg)) && negb (DryRun flags) = false ->
    ResolveLogSettings h flags cfg w = (Ok s, w') ->
    Logger_log h (ConfigureLogger s) level msg args w1 = (r, w2) ->
    Log_Writers (settings (ConfigureLogger s)) = [Discard] /\
    r = Ok tt /\ stderr w2 = stderr w1 /\ files w2 = files w1 /\
    handles w2 = handles w1.
Proof.
  intros h flags cfg w w' s level msg args w1 w2 r Hq Hnone Hres Hlog.
  apply ResolveLogSettings_inv in Hres as (_ & _ & _ & Hw).
  assert (Hd : Log_Writers (settings (ConfigureLogger s)) = [Discard]).
  { rewrite Hq in Hw.
    destruct Hw as [(_ & _ & _ & Hw)|(Hc & _)]; [|congruence].
    rewrite ConfigureLogger_writers; by rewrite Hw. }
  split; [exact Hd|].
  apply Logger_log_effect in Hlog as (-> & Hh & _ & _ & N & F & _).
  split; [done|]. split; [|split; [|exact Hh]].
  - apply N. rewrite Hd. by intros Hin%list_elem_of_singleton.
  - apply map_eq. intros p. apply F. intros fd Hin.
    rewrite Hd in Hin. by apply list_elem_of_singleton in Hin.
Qed.

Lemma quiet_logger_is_silent_witness :
  Log_Writers (settings (ConfigureLogger quiet_auto_settings)) = [Discard] /\
  Ok tt = Ok tt /\
  stderr (snd (Logger_log sample_host (ConfigureLogger quiet_auto_settings) LevelError
                 "fatal: %s" ["boom"] empty_world)) = stderr empty_world /\
  files (snd (Logger_log sample_host (ConfigureLogger quiet_auto_settings) LevelError
                "fatal: %s" ["boom"] empty_world)) = files empty_world /\
  handles (snd (Logger_log sample_host (ConfigureLogger quiet_auto_settings) LevelError
                  "fatal: %s" ["boom"] empty_world)) = handles empty_world.
Proof.
  apply (quiet_logger_is_silent sample_host (set_Quiet true plain_flags) defaultConfig
           empty_world empty_world quiet_auto_settings LevelError "fatal: %s" ["boom"]
           empty_world); reflexivity.
Defined.

(** The shape of a log line: an optional time stamp in square
    brackets, the level label, one blank, the message.  Without colour
    the label is padded to five columns, so that messages line up; with
    colour it is wrapped in the level's escape sequence and the reset
    sequence and never padded. *)
Lemma formatMessage_shape :
  forall (h : Host) (level : Level) (s : LogSettings) (msg : string)
         (args : list string),
    formatMessage h level s msg args =
      (if Log_Diagnostics s then "[" +:+ clock h +:+ "] " else "") +:+
      (if Log_Colorize s
       then snd (levelAttributes level) +:+ fst (levelAttributes level) +:+ resetColor
       else pad5 (fst (levelAttributes level))) +:+
      " " +:+ Sprintf msg args /\
    String.length (pad5 (fst (levelAttributes level))) = 5%nat.
Proof.
  intros h level s msg args. split; [|by destruct level].
  unfold formatMessage.
  destruct level, (Log_Colorize s), (Log_Diagnostics s); cbn [levelAttributes fst snd andb];
    rewrite ?sapp_assoc; reflexivity.
Qed.

(** Property X20.  Labels and levels correspond: the label of every level is
    read back as that level, in upper or lower case, and a configured
    string is read as a level other than [info] only if it is, up to
    case, the label of that level. *)
Theorem parseLevel_labels :
  forall (l : Level) (value : string),
    parseLevel (fst (levelAttributes l)) = l /\
    parseLevel (Strings.ToLower (fst (levelAttributes l))) = l /\
    (parseLevel value <> LevelInfo ->
     Strings.ToLower value = Strings.ToLower (fst (levelAttributes (parseLevel value)))).
Proof.
  intros l value. split; [by destruct l|]. split; [by destruct l|].
  unfold parseLevel.
  destruct (String.eqb_spec (Strings.ToLower value) "trace") as [->|_]; [done|].
  destruct (String.eqb_spec (Strings.ToLower value) "debug") as [->|_]; [done|].
  destruct (String.eqb_spec (Strings.ToLower value) "warn") as [->|_]; [done|].
  destruct (String.eqb_spec (Strings.ToLower value) "error") as [->|_]; [done|].
  done.
Qed.

(** Property X21.  The sinks [ResolveLogSettings] chooses: the standard error
    stream is a sink exactly when [quiet] is off; the discard sink is
    one exactly when [quiet] is on and no file was opened; a file was
    opened exactly when a log file is configured outside dry-run, and
    then its handle, the next free one, is open on that file and is a
    sink. *)
Theorem ResolveLogSettings_sinks :
  forall (h : Host) (flags : CommonFlags) (cfg : AppConfig) (w w' : World)
         (s : LogSettings),
    ResolveLogSettings h flags cfg w = (Ok s, w') ->
    (Stderr ∈ Log_Writers s <-> Quiet flags = false) /\
    (Discard ∈ Log_Writers s <-> Quiet flags = true /\ Log_FileHandle s = None) /\
    (forall fd, FileWriter fd ∈ Log_Writers s <-> Log_FileHandle s = Some fd) /\
    (is_Some (Log_FileHandle s) <->
     Logging_File (Logging cfg) <> "" /\ DryRun flags = false) /\
    (forall fd, Log_FileHandle s = Some fd ->
       fd = length (handles w) /\
       handles w' = (handles w ++ [(Logging_File (Logging cfg), true)])%list).
Proof.
  intros h flags cfg w w' s H.
  apply ResolveLogSettings_inv in H as (_ & _ & _ & Hw).
  assert (Hcond : forall b,
    nonempty (Logging_File (Logging cfg)) && negb (DryRun flags) = b ->
    (Logging_File (Logging cfg) <> "" /\ DryRun flags = false) <-> b = true).
  { intros b <-. rewrite andb_true_iff, negb_true_iff, nonempty_true. tauto. }
  destruct Hw as [(Hc & -> & Hfd & Hw)|(Hc & fd & Ho & Hfd & Hw)];
    rewrite Hw, Hfd; apply Hcond in Hc.
  - split; [destruct (Quiet flags); rewrite ?elem_of_cons, ?elem_of_nil; intuition congruence|].
    split; [destruct (Quiet flags); rewrite ?elem_of_cons, ?elem_of_nil; intuition congruence|].
    split; [intros fd; destruct (Quiet flags);
            rewrite ?elem_of_cons, ?elem_of_nil; intuition congruence|].
    split; [|done]. rewrite Hc. split; [by intros [? ?]|done].
  - apply OpenFileAppend_spec in Ho as (_ & _ & -> & Hh & _).
    split; [destruct (Quiet flags); rewrite ?elem_of_cons, ?elem_of_nil; intuition congruence|].
    split; [destruct (Quiet flags); rewrite ?elem_of_cons, ?elem_of_nil; intuition congruence|].
    split; [intros fd; destruct (Quiet flags);
            rewrite ?elem_of_cons, ?elem_of_nil; intuition congruence|].
    split; [rewrite Hc; split; [done|by eexists]|].
    intros fd [= <-]. done.
Qed.

Lemma ResolveLogSettings_sinks_witness :
  (Stderr ∈ Log_Writers plain_settings <-> Quiet plain_flags = false) /\
  (Discard ∈ Log_Writers plain_settings <->
   Quiet plain_flags = true /\ Log_FileHandle plain_settings = None) /\
  (forall fd, FileWriter fd ∈ Log_Writers plain_settings <->
              Log_FileHandle plain_settings = Some fd) /\
  (is_Some (Log_FileHandle plain_settings) <->
   Logging_File (Logging defaultConfig) <> "" /\ DryRun plain_flags = false) /\
  (forall fd, Log_FileHandle plain_settings = Some fd ->
     fd = length (handles empty_world) /\
     handles empty_world
       = (handles empty_world ++ [(Logging_File (Logging defaultConfig), true)])%list).
Proof.
  apply (ResolveLogSettings_sinks sample_host plain_flags defaultConfig empty_world
           empty_world plain_settings). reflexivity.
Defined.

(** Property X22.  [ResolveLogSettings] does not create the directory of the
    log file: when the configured log file and the directory it would
    be in are both missing, it fails with the error of opening the log
    file, having made one attempt to open it and changed nothing else. *)
Theorem ResolveLogSettings_missing_directory :
  forall (h : Host) (flags : CommonFlags) (cfg : AppConfig) (w : World),
    Logging_File (Logging cfg) <> "" ->
    DryRun flags = false ->
    (Logging_File (Logging cfg) ∉ denied h) ->
    node_at w (Logging_File (Logging cfg)) = None ->
    node_at w (Filepath.Dir (Logging_File (Logging cfg))) = None ->
    ResolveLogSettings h flags cfg w =
      (Err (ErrOpenLogFile (Logging_File (Logging cfg))
              (missing w (Logging_File (Logging cfg)))),
       after_call (SysOpenFile (Logging_File (Logging cfg))) w).
Proof.
  intros h flags cfg w Hne Hdry Hden Hnode Hdir.
  unfold ResolveLogSettings. rewrite Hdry.
  replace (nonempty (Logging_File (Logging cfg))) with true
    by (symmetry; by apply nonempty_true).
  cbn [negb andb]. unfold attempt, OpenFileAppend, bind, log_call.
  destruct (decide (Logging_File (Logging cfg) ∈ denied h)); [done|].
  fold (after_call (SysOpenFile (Logging_File (Logging cfg))) w).
  rewrite !node_at_after_call, Hnode, Hdir.
  by rewrite (missing_files w (after_call (SysOpenFile (Logging_File (Logging cfg))) w)).
Qed.

Lemma ResolveLogSettings_missing_directory_witness :
  ResolveLogSettings sample_host plain_flags
    (mkAppConfig "default" (mkLoggingConfig "info" "/var/log/app/app.log")
       (mkRuntimeConfig None (Some 60) true) (mkPathsConfig "" "")) empty_world
  = (Err (ErrOpenLogFile "/var/log/app/app.log"
            (missing empty_world "/var/log/app/app.log")),
     after_call (SysOpenFile "/var/log/app/app.log") empty_world).
Proof.
  apply (ResolveLogSettings_missing_directory sample_host plain_flags
           (mkAppConfig "default" (mkLoggingConfig "info" "/var/log/app/app.log")
              (mkRuntimeConfig None (Some 60) true) (mkPathsConfig "" "")) empty_world);
    done.
Defined.

(** ** The runtime context and the pre-run hook, besides the claims *)

Lemma ValidateColor_invalid flags :
  Color flags <> "" -> Color flags <> "auto" ->
  Color flags <> "always" -> Color flags <> "never" ->
  ValidateColor flags = Err (ErrInvalidColor (Color flags)).
Proof.
  intros H1 H2 H3 H4. unfold ValidateColor. cbn [existsb].
  destruct (String.eqb_spec (Color flags) ""); [done|].
  destruct (String.eqb_spec (Color flags) "auto"); [done|].
  destruct (String.eqb_spec (Color flags) "always"); [done|].
  destruct (String.eqb_spec (Color flags) "never"); [done|]. done.
Qed.

(** Property X23.  A colour policy other than the empty string, [auto],
    [always] or [never] is rejected by the pre-run hook before anything
    is looked at: the error names the value and the world is exactly as
    it was.  (Two output formats at once are reported first.) *)
Theorem PersistentPreRunE_invalid_color :
  forall {D : Toml.Decoder} (h : Host) (ctx : option Context) (flags : CommonFlags)
         (timeoutFlag parallelFlag : option Z) (w : World),
    FromContext ctx = None ->
    JSON flags && YAML flags = false ->
    Color flags <> "" -> Color flags <> "auto" ->
    Color flags <> "always" -> Color flags <> "never" ->
    PersistentPreRunE h ctx flags timeoutFlag parallelFlag w
      = (Err (ErrInvalidColor (Color flags)), w).
Proof.
  intros D h ctx flags t p w Hctx Hfmt H1 H2 H3 H4.
  unfold PersistentPreRunE. rewrite Hctx.
  destruct t, p; cbn [JSON YAML]; rewrite Hfmt;
    unfold bind, lift; rewrite ValidateColor_invalid; done.
Qed.

Lemma PersistentPreRunE_invalid_color_witness :
  PersistentPreRunE sample_host (Some Background) (set_Color "sometimes" plain_flags)
    None None empty_world
  = (Err (ErrInvalidColor (Color (set_Color "sometimes" plain_flags))), empty_world).
Proof.
  apply (PersistentPreRunE_invalid_color sample_host (Some Background)
           (set_Color "sometimes" plain_flags) None None empty_world); done.
Defined.

(** Property X24.  The hook bootstraps once: the context it returns carries a
    runtime context, which [Context] hands to the command, and running
    the hook again on that context returns it unchanged without
    touching the world.  When the hook did bootstrap, the flags of the
    runtime context are the flags given, with [--timeout] and
    [--parallel] filled in where they were changed. *)
Theorem PersistentPreRunE_once :
  forall {D : Toml.Decoder} (h : Host) (ctx ctx' : option Context) (flags : CommonFlags)
         (timeoutFlag parallelFlag : option Z) (w w' : World),
    PersistentPreRunE h ctx flags timeoutFlag parallelFlag w = (Ok ctx', w') ->
    exists rtx,
      cmd_Context ctx' = inl rtx /\
      (forall flags2 t2 p2 w2,
         PersistentPreRunE h ctx' flags2 t2 p2 w2 = (Ok ctx', w2)) /\
      (FromContext ctx = None ->
       Rtx_Common rtx =
         set_overrides
           (match timeoutFlag with Some t => Some t | None => TimeoutSeconds flags end)
           (match parallelFlag with Some p => Some p | None => Parallelism flags end)
           flags).
Proof.
  intros D h ctx ctx' flags t p w w'. unfold PersistentPreRunE at 1.
  destruct (FromContext ctx) as [rtx0|] eqn:Hctx.
  - unfold ret. intros [= <- <-]. exists rtx0. unfold cmd_Context. rewrite Hctx.
    split; [done|]. split; [|done].
    intros flags2 t2 p2 w2. unfold PersistentPreRunE. by rewrite Hctx.
  - set (flags' := match p with Some _ => _ | None => _ end).
    destruct (JSON flags' && YAML flags'); [done|].
    intros H. apply bind_ok_inv in H as (u & w0 & _ & H).
    apply bind_ok_inv in H as (rtx & w1 & Hnew & H).
    unfold ret in H. injection H as <- <-.
    exists rtx. split; [done|]. split; [done|]. intros _.
    apply NewRuntimeContext_inv in Hnew
      as (paths & cfg & ls & wa & wb & wc & wd & _ & _ & _ & _ & _ & _ & ->).
    cbn [Rtx_Common]. subst flags'. by destruct t, p, flags.
Qed.

Lemma PersistentPreRunE_once_witness :
  exists rtx,
    cmd_Context (fst (PersistentPreRunE_value sample_host)) = inl rtx /\
    (forall flags2 t2 p2 w2,
       PersistentPreRunE sample_host (fst (PersistentPreRunE_value sample_host))
         flags2 t2 p2 w2
       = (Ok (fst (PersistentPreRunE_value sample_host)), w2)) /\
    (FromContext (Some Background) = None ->
     Rtx_Common rtx = set_overrides (Some 5) None plain_flags).
Proof.
  apply (PersistentPreRunE_once sample_host (Some Background) _ plain_flags (Some 5) None
           home_world (snd (PersistentPreRunE_value sample_host))).
  vm_compute. reflexivity.
Defined.

Lemma ConfigureLogger_FileHandle s :
  Log_FileHandle (settings (ConfigureLogger s)) = Log_FileHandle s.
Proof. unfold ConfigureLogger. by destruct (length (Log_Writers s) =? 0)%nat. Qed.

(** The handles across a successful bootstrap: as before, plus the log
    file's when one was opened. *)
Lemma NewRuntimeContext_handles {D : Toml.Decoder} h flags w rtx w1 :
  NewRuntimeContext h flags w = (Ok rtx, w1) ->
  (Log_FileHandle (settings (Rtx_Logger rtx)) = None /\ handles w1 = handles w) \/
  (Log_FileHandle (settings (Rtx_Logger rtx)) = Some (length (handles w)) /\
   handles w1 = (handles w ++ [(Logging_File (Logging (Rtx_Config rtx)), true)])%list).
Proof.
  intros H. apply NewRuntimeContext_inv in H
    as (paths & cfg & ls & wa & wb & wc & wd & H1 & H2 & H3 & H4 & H5 & H6 & ->).
  cbn [Rtx_Logger Rtx_Config]. rewrite ConfigureLogger_FileHandle.
  apply DiscoverPaths_untouched in H1 as [(_ & Hh1 & _) _].
  apply LoadOrInitConfig_spec in H2 as (_ & Hh2 & _).
  apply EnsureDirectories_spec in H4 as (_ & Hh4 & _).
  apply Logger_log_effect in H6 as (_ & Hh6 & _).
  apply ResolveLogSettings_inv in H5 as (_ & _ & _ & Hopen).
  destruct Hopen as [(_ & -> & Hfd & _)|(_ & fd & Ho & Hfd & _)].
  - left. split; [done|]. congruence.
  - right. apply OpenFileAppend_spec in Ho as (_ & _ & -> & Hh5 & _).
    rewrite Hfd, Hh6, Hh5, Hh4, Hh2, Hh1. done.
Qed.

(** Property X25.  A context that was bootstrapped closes cleanly: when every
    handle was closed before the bootstrap, the first [Close] of the
    context it returned succeeds and leaves every handle closed again,
    without changing a file or the standard error stream. *)
Theorem Close_after_bootstrap :
  forall {D : Toml.Decoder} (h : Host) (flags : CommonFlags) (w w1 : World) (rtx : RuntimeContext),
    all_closed w ->
    NewRuntimeContext h flags w = (Ok rtx, w1) ->
    exists w2,
      RuntimeContext_Close (Some rtx) w1 = (Ok tt, w2) /\
      all_closed w2 /\ files w2 = files w1 /\ stderr w2 = stderr w1.
Proof.
  intros D h flags w w1 rtx Hclosed H.
  apply NewRuntimeContext_handles in H as [[Hfd Hh]|[Hfd Hh]];
    unfold RuntimeContext_Close, Logger_Close; rewrite Hfd.
  - exists w1. unfold ret. split; [done|]. split; [|done].
    intros fd path open. rewrite Hh. apply Hclosed.
  - unfold CloseFile, bind, log_call. cbn [handles files stderr trace].
    rewrite Hh, lookup_app_r, Nat.sub_diag by done. cbn [lookup list_lookup].
    eexists. split; [reflexivity|]. split; [|done].
    intros fd path open. cbn [handles].
    destruct (decide (fd = length (handles w))) as [->|Hne].
    + rewrite list_lookup_insert_eq; [by intros [= _ <-]|].
      rewrite length_app. cbn. lia.
    + rewrite list_lookup_insert_ne by done.
      intros Hl. pose proof (lookup_lt_Some _ _ _ Hl) as Hlt.
      rewrite length_app in Hlt. cbn in Hlt.
      rewrite lookup_app_l in Hl by lia. by apply Hclosed in Hl.
Qed.

Lemma Close_after_bootstrap_witness :
  exists w2,
    RuntimeContext_Close (Some first_rtx) first_world = (Ok tt, w2) /\
    all_closed w2 /\ files w2 = files first_world /\ stderr w2 = stderr first_world.
Proof.
  apply (Close_after_bootstrap sample_host logfile_flags logfile_world).
  - intros fd path open Hl. cbn in Hl. done.
  - vm_compute. reflexivity.
Defined.

(** ** The command handlers *)

(** Property X26.  [HandleRun] cannot fail, and what it reports follows the
    precedence command line, then configuration, then built-in value:
    the profile is [--profile] unless that is empty; the parallelism is
    [--parallel] if given, else the configured one, else the number of
    CPUs or 1 if that is not positive; the timeout is [--timeout] if
    given, else the configured one, else 0.  A parallelism that comes
    from neither flag nor file is at least 1; one that comes from the
    command line is reported as it is, whatever its sign. *)
Theorem HandleRun_precedence :
  forall (h : Host) (numCPU : Z) (ctx : RuntimeContext) (opts : RunOptions)
         (w w' : World) (r : result (Encoding * RunReport)),
    HandleRun h numCPU ctx opts w = (r, w') ->
    exists enc report,
      r = Ok (enc, report) /\
      Report_Task report = Opt_Task opts /\
      Report_Profile report =
        (if String.eqb (Opt_Profile opts) "" then Profile (Rtx_Config ctx)
         else Opt_Profile opts) /\
      Report_Parallelism report =
        match Parallelism (Rtx_Common ctx),
              Runtime_Parallelism (Runtime (Rtx_Config ctx)) with
        | Some p, _ => p
        | None, Some p => p
        | None, None => Z.max 1 numCPU
        end /\
      Report_Timeout report =
        match TimeoutSeconds (Rtx_Common ctx),
              Runtime_TimeoutSeconds (Runtime (Rtx_Config ctx)) with
        | Some t, _ => t
        | None, Some t => t
        | None, None => 0
        end /\
      enc = (if JSON (Rtx_Common ctx) then AsJSON
             else if YAML (Rtx_Common ctx) then AsYAML else AsText) /\
      handles w' = handles w /\ grows w w'.
Proof.
  intros h numCPU ctx opts w w' r. unfold HandleRun.
  intros H. apply bind_inv in H as [(u & w1 & Hlog & H)|(e & Hlog & _)].
  2: { by apply Logger_log_effect in Hlog as (? & _). }
  apply Logger_log_effect in Hlog as (_ & Hh & G & _).
  unfold ret in H. injection H as <- <-.
  eexists _, _. split; [reflexivity|].
  destruct ctx as [common paths [prof logg [par tmo ff] pths] logger ls].
  unfold WithProfileOverride, nonempty, AppConfig_RunConfig, defaultParallelism,
    set_Run_Parallelism, set_Run_Timeout.
  cbn [Rtx_Common Rtx_Config Profile Runtime Runtime_Parallelism
       Runtime_TimeoutSeconds].
  destruct (Parallelism common), (TimeoutSeconds common),
    (String.eqb (Opt_Profile opts) ""), par, tmo; cbn;
    repeat split; try done; destruct (Z.gtb_spec numCPU 0); lia.
Qed.

Lemma HandleRun_precedence_witness :
  exists enc report,
    fst (HandleRun sample_host 8 sample_rtx (mkRunOptions "build" "ci") empty_world)
      = Ok (enc, report) /\
    Report_Task report = Opt_Task (mkRunOptions "build" "ci") /\
    Report_Profile report =
      (if String.eqb (Opt_Profile (mkRunOptions "build" "ci")) ""
       then Profile (Rtx_Config sample_rtx)
       else Opt_Profile (mkRunOptions "build" "ci")) /\
    Report_Parallelism report =
      match Parallelism (Rtx_Common sample_rtx),
            Runtime_Parallelism (Runtime (Rtx_Config sample_rtx)) with
      | Some p, _ => p
      | None, Some p => p
      | None, None => Z.max 1 8
      end /\
    Report_Timeout report =
      match TimeoutSeconds (Rtx_Common sample_rtx),
            Runtime_TimeoutSeconds (Runtime (Rtx_Config sample_rtx)) with
      | Some t, _ => t
      | None, Some t => t
      | None, None => 0
      end /\
    enc = (if JSON (Rtx_Common sample_rtx) then AsJSON
           else if YAML (Rtx_Common sample_rtx) then AsYAML else AsText) /\
    handles (snd (HandleRun sample_host 8 sample_rtx (mkRunOptions "build" "ci") empty_world))
      = handles empty_world /\
    grows empty_world
      (snd (HandleRun sample_host 8 sample_rtx (mkRunOptions "build" "ci") empty_world)).
Proof.
  apply (HandleRun_precedence sample_host 8 sample_rtx (mkRunOptions "build" "ci")
           empty_world). reflexivity.
Defined.

(** After a real bootstrap the configuration file is there. *)
Lemma NewRuntimeContext_config_present {D : Toml.Decoder} h flags w rtx w1 :
  NewRuntimeContext h flags w = (Ok rtx, w1) ->
  DryRun flags = false ->
  Rtx_Common rtx = flags /\
  (ConfigFile (Rtx_Paths rtx) ∉ denied h) /\
  exists c, node_at w1 (ConfigFile (Rtx_Paths rtx)) = Some (File c).
Proof.
  intros H Hdry. apply NewRuntimeContext_inv in H
    as (paths & cfg & ls & wa & wb & wc & wd & H1 & H2 & H3 & H4 & H5 & H6 & ->).
  cbn [Rtx_Common Rtx_Paths] in *. split; [done|].
  rewrite (ApplyPathOverrides_ConfigFile _ _ _ _ H3).
  apply LoadOrInitConfig_spec in H2 as (_ & _ & _ & _ & Hload).
  destruct (Hload cfg eq_refl) as [_ Hread]. destruct (Hread Hdry) as [text Htext].
  apply read_outcome_ok in Htext as [Hden Hnode]. split; [done|].
  apply EnsureDirectories_spec in H4 as (M4 & _).
  apply mkdirs_extends in M4.
  apply ResolveLogSettings_inv in H5 as (_ & _ & _ & Hopen).
  assert (X5 : extends wc wd).
  { destruct Hopen as [(_ & -> & _)|(_ & fd & Ho & _)]; [apply extends_refl|].
    by apply OpenFileAppend_spec in Ho as (? & _). }
  apply Logger_log_effect in H6 as (_ & _ & G & _).
  apply (grows_file wd w1 _ text G). by apply X5, M4.
Qed.

(** Property X27.  After a bootstrap that was no dry-run, [init] without
    [--force] and without [--yes] always refuses: the bootstrap has
    just made sure the configuration file exists, so the handler
    reports that it already exists, after one [Stat] and without
    changing anything. *)
Theorem init_after_bootstrap_refuses :
  forall {D : Toml.Decoder} (h : Host) (flags : CommonFlags) (opts : InitOptions) (w w1 : World)
         (rtx : RuntimeContext),
    NewRuntimeContext h flags w = (Ok rtx, w1) ->
    DryRun flags = false ->
    AssumeYes flags = false ->
    Opt_Force opts = false ->
    HandleInit h rtx opts w1 =
      (Some (ErrConfigExists (ConfigFile (Rtx_Paths rtx))),
       after_call (SysStat (ConfigFile (Rtx_Paths rtx))) w1).
Proof.
  intros D h flags opts w w1 rtx H Hdry Hyes Hforce.
  apply NewRuntimeContext_config_present in H as (Hc & Hden & c & Hnode); [|done].
  unfold HandleInit. rewrite Stat_eq.
  assert (Hst : stat_outcome h w1 (ConfigFile (Rtx_Paths rtx)) = Ok (File c)).
  { apply stat_outcome_ok. by split. }
  by rewrite Hst, Hforce, Hc, Hyes.
Qed.

Lemma init_after_bootstrap_refuses_witness :
  HandleInit sample_host first_rtx (mkInitOptions false) first_world =
    (Some (ErrConfigExists (ConfigFile (Rtx_Paths first_rtx))),
     after_call (SysStat (ConfigFile (Rtx_Paths first_rtx))) first_world).
Proof.
  apply (init_after_bootstrap_refuses sample_host logfile_flags (mkInitOptions false)
           logfile_world first_world first_rtx); by vm_compute.
Defined.

Lemma writeDefaultConfig_written h path w w' :
  writeDefaultConfig h path w = (Ok tt, w') ->
  node_at w' path = Some (File (defaultConfigHeader path +:+ defaultConfigBody)) /\
  (path ∉ denied h) /\ handles w' = handles w.
Proof.
  unfold writeDefaultConfig. intros H.
  apply attempt_inv in H as ([[]|e] & w0 & Hmk & H); [|done].
  apply MkdirAll_spec in Hmk as (_ & Hh0 & _).
  apply attempt_inv in H as ([[]|e] & w1 & Hwr & H); [|done].
  unfold ret in H. injection H as <-.
  apply WriteFile_spec in Hwr as (Hh1 & _ & _ & Hok).
  destruct (Hok eq_refl) as [Hnode Hden]. split; [done|]. split; [done|]. congruence.
Qed.

Lemma node_at_lookup w w' p :
  files w' !! p = files w !! p -> node_at w' p = node_at w p.
Proof. intros E. unfold node_at. by rewrite E. Qed.

Lemma no_file_writer_elem writers fd :
  no_file_writer writers = true -> FileWriter fd ∉ writers.
Proof.
  unfold no_file_writer. intros Hno Hin.
  apply list_elem_of_In in Hin.
  by apply (proj1 (forallb_forall _ _) Hno) in Hin.
Qed.

(** Property X28.  [config reset] restores the defaults: outside dry-run, when
    the handler returns without error and its log line reaches no file
    (the logger holds no file writer, or its level is below info), the
    configuration file holds the generated template whatever it held
    before; and, for a path of printable ASCII characters and with none
    of the four variables that carry a default set, loading it
    afterwards gives [defaultConfig]. *)
Theorem reset_restores_defaults :
  forall (h : Host) (ctx : RuntimeContext) (w w1 : World),
    DryRun (Rtx_Common ctx) = false ->
    no_file_writer (Log_Writers (settings (Rtx_Logger ctx))) = true \/
      rank (Log_Level (settings (Rtx_Logger ctx))) < rank LevelInfo ->
    HandleConfigReset h ctx w = (None, w1) ->
    node_at w1 (ConfigFile (Rtx_Paths ctx))
      = Some (File (defaultConfigHeader (ConfigFile (Rtx_Paths ctx)) +:+ defaultConfigBody)) /\
    (printable (ConfigFile (Rtx_Paths ctx)) = true ->
     Getenv h "GO_CLI_PROFILE" = "" ->
     Getenv h "GO_CLI_LOGGING__LEVEL" = "" ->
     Getenv h "GO_CLI_RUNTIME__TIMEOUT" = "" ->
     Getenv h "GO_CLI_RUNTIME__FAIL_FAST" = "" ->
     forall flags,
       fst (LoadOrInitConfig h (Rtx_Paths ctx) flags w1) = Ok defaultConfig).
Proof.
  intros h ctx w w1 Hdry Hlog. unfold HandleConfigReset. rewrite Hdry.
  set (path := ConfigFile (Rtx_Paths ctx)) in *.
  destruct (writeDefaultConfig h path w) as [[[]|e] w0] eqn:Hw; [|done].
  destruct (Logger_Info h (Rtx_Logger ctx) "reset config at %s" [path] w0)
    as [r2 w2] eqn:Hinfo.
  intros [= <-].
  apply writeDefaultConfig_written in Hw as (Hnode & Hden & Hh).
  apply Logger_log_effect in Hinfo as (_ & _ & _ & _ & _ & F & Hsame).
  assert (Hnode2 : node_at w2 path
                   = Some (File (defaultConfigHeader path +:+ defaultConfigBody))).
  { rewrite <- Hnode. destruct Hlog as [Hno|Hlow].
    - apply node_at_lookup, F. intros fd Hin.
      by apply (no_file_writer_elem _ fd) in Hno.
    - rewrite Hsame; [done|]. cbn in *. lia. }
  split; [exact Hnode2|].
  intros Hp H1 H2 H3 H4 flags.
  assert (Hst : stat_outcome h w2 path
                = Ok (File (defaultConfigHeader path +:+ defaultConfigBody))).
  { apply stat_outcome_ok. by split. }
  rewrite (LoadOrInitConfig_existing h (Rtx_Paths ctx) flags w2 _ Hst). cbn [fst].
  fold path.
  assert (Hrd : read_outcome h w2 path
                = Ok (defaultConfigHeader path +:+ defaultConfigBody)).
  { apply read_outcome_ok. by split. }
  rewrite Hrd. by apply load_outcome_template.
Qed.

Lemma reset_restores_defaults_witness :
  node_at (snd (HandleConfigReset sample_host app_rtx no_timeout_world))
    (ConfigFile (Rtx_Paths app_rtx))
    = Some (File (defaultConfigHeader (ConfigFile (Rtx_Paths app_rtx))
                    +:+ defaultConfigBody)) /\
  (printable (ConfigFile (Rtx_Paths app_rtx)) = true ->
   Getenv sample_host "GO_CLI_PROFILE" = "" ->
   Getenv sample_host "GO_CLI_LOGGING__LEVEL" = "" ->
   Getenv sample_host "GO_CLI_RUNTIME__TIMEOUT" = "" ->
   Getenv sample_host "GO_CLI_RUNTIME__FAIL_FAST" = "" ->
   forall flags,
     fst (LoadOrInitConfig sample_host (Rtx_Paths app_rtx) flags
            (snd (HandleConfigReset sample_host app_rtx no_timeout_world)))
       = Ok defaultConfig).
Proof.
  apply (reset_restores_defaults sample_host app_rtx no_timeout_world).
  - reflexivity.
  - left. reflexivity.
  - by vm_compute.
Defined.

(** Property X29.  Under dry-run, [init] and [config reset] write nothing: the
    handles are as before, and a file can differ afterwards only if
    the logger holds an open writer on it (the line that says what would
    have been done). *)
Theorem dry_run_handlers_write_nothing :
  forall (h : Host) (ctx : RuntimeContext) (opts : InitOptions) (w : World),
    DryRun (Rtx_Common ctx) = true ->
    forall (w' : World),
      w' = snd (HandleInit h ctx opts w) \/ w' = snd (HandleConfigReset h ctx w) ->
      handles w' = handles w /\
      forall p, (forall fd, FileWriter fd ∈ Log_Writers (settings (Rtx_Logger ctx)) ->
                            handles w !! fd <> Some (p, true)) ->
                files w' !! p = files w !! p.
Proof.
  intros h ctx opts w Hdry w' [->| ->].
  - unfold HandleInit. rewrite Stat_eq, Hdry.
    set (path := ConfigFile (Rtx_Paths ctx)).
    set (w0 := after_call (SysStat path) w).
    destruct (match stat_outcome h w path with
              | Ok _ => _ | Err err => _ end) as [e|]; [done|].
    destruct (Logger_Info h (Rtx_Logger ctx) "dry-run: would write default config to %s"
                [path] w0) as [r2 w2] eqn:Hinfo.
    apply Logger_log_effect in Hinfo as (_ & Hh & _ & _ & _ & F & _). cbn [snd].
    split; [done|]. intros p Hp. by rewrite F.
  - unfold HandleConfigReset. rewrite Hdry.
    destruct (Logger_Info h (Rtx_Logger ctx) "dry-run: would reset config at %s"
                [ConfigFile (Rtx_Paths ctx)] w) as [r2 w2] eqn:Hinfo.
    apply Logger_log_effect in Hinfo as (_ & Hh & _ & _ & _ & F & _). cbn [snd].
    split; [done|]. intros p Hp. by rewrite F.
Qed.

Lemma dry_run_handlers_write_nothing_witness :
  handles (snd (HandleConfigReset sample_host dry_rtx no_timeout_world))
    = handles no_timeout_world /\
  forall p, (forall fd, FileWriter fd ∈ Log_Writers (settings (Rtx_Logger dry_rtx)) ->
                        handles no_timeout_world !! fd <> Some (p, true)) ->
            files (snd (HandleConfigReset sample_host dry_rtx no_timeout_world)) !! p
              = files no_timeout_world !! p.
Proof.
  apply (dry_run_handlers_write_nothing sample_host dry_rtx (mkInitOptions true)
           no_timeout_world); [reflexivity|]. by right.
Defined.

(** The configuration of a bootstrapped context has its timeout
    set. *)
Lemma NewRuntimeContext_timeout {D : Toml.Decoder} h flags w rtx w1 :
  NewRuntimeContext h flags w = (Ok rtx, w1) ->
  Rtx_Common rtx = flags /\
  exists n, Runtime_TimeoutSeconds (Runtime (Rtx_Config rtx)) = Some n.
Proof.
  intros H. apply NewRuntimeContext_inv in H
    as (paths & cfg & ls & wa & wb & wc & wd & _ & H2 & _ & _ & _ & _ & ->).
  cbn [Rtx_Common Rtx_Config]. split; [done|].
  apply LoadOrInitConfig_decoded in H2 as (doc & Hdec & _).
  apply decode_config_inv in Hdec as (cfg0 & _ & _ & _ & _ & _ & _ & Ht & _).
  rewrite Ht. destruct (Runtime_TimeoutSeconds (Runtime cfg0)); by eexists.
Qed.

(** Property X30.  From the hook to the [run] command: after a pre-run hook
    that bootstrapped, [run] finds its runtime context and cannot fail;
    it reports the task named on the command line, [default] when none
    is; and the timeout it reports is the value of [--timeout] when the
    flag was changed, else the timeout of the loaded configuration,
    which is always set.  This holds for every decoder of the
    configuration file, hence for every file the hook bootstraps on. *)
Theorem run_after_hook :
  forall {D : Toml.Decoder} (h : Host) (numCPU : Z) (ctx ctx' : option Context)
         (flags : CommonFlags)
         (timeoutFlag parallelFlag : option Z) (args : list string) (profile : string)
         (w w' : World),
    FromContext ctx = None ->
    TimeoutSeconds flags = None ->
    PersistentPreRunE h ctx flags timeoutFlag parallelFlag w = (Ok ctx', w') ->
    exists rtx enc report w'' n,
      FromContext ctx' = Some rtx /\
      run_RunE h numCPU ctx' args profile w' = (inl (enc, report), w'') /\
      Report_Task report = hd "default" args /\
      Runtime_TimeoutSeconds (Runtime (Rtx_Config rtx)) = Some n /\
      Report_Timeout report = (match timeoutFlag with Some t => t | None => n end).
Proof.
  intros D h numCPU ctx ctx' flags t p args profile w w' Hctx Hnone.
  unfold PersistentPreRunE. rewrite Hctx.
  set (flags' := match p with Some _ => _ | None => _ end).
  destruct (JSON flags' && YAML flags'); [done|].
  intros H. apply bind_ok_inv in H as (u & w0 & _ & H).
  apply bind_ok_inv in H as (rtx & w1 & Hnew & H).
  unfold ret in H. injection H as <- <-.
  apply NewRuntimeContext_timeout in Hnew as (Hcommon & n & Hn).
  unfold run_RunE, cmd_Context. cbn [FromContext].
  set (opts := match args with [] => _ | a :: _ => _ end).
  destruct (HandleRun h numCPU rtx opts w1) as [r w2] eqn:Hrun.
  unfold HandleRun in Hrun.
  apply bind_inv in Hrun as [(u' & w1' & Hlog & Hrun)|(e & Hlog & _)].
  2: { by apply Logger_log_effect in Hlog as (? & _). }
  unfold ret in Hrun. injection Hrun as <- <-.
  eexists rtx, _, _, _, n. split; [done|]. split; [reflexivity|].
  cbn [Report_Task Report_Timeout]. split; [subst opts; by destruct args|].
  split; [done|].
  rewrite Hcommon. subst flags'.
  unfold WithProfileOverride, nonempty, AppConfig_RunConfig, set_Run_Parallelism,
    set_Run_Timeout.
  destruct rtx as [common paths [prof logg [par tmo ff] pths] logger ls].
  cbn [Rtx_Config Runtime Runtime_TimeoutSeconds] in *. subst tmo.
  destruct t, p, (String.eqb (Opt_Profile opts) ""), (Parallelism flags), par;
    cbn; rewrite ?Hnone; reflexivity.
Qed.

Lemma run_after_hook_witness :
  exists rtx enc report w'' n,
    FromContext (fst (PersistentPreRunE_value sample_host)) = Some rtx /\
    run_RunE sample_host 8 (fst (PersistentPreRunE_value sample_host)) ["build"] ""
      (snd (PersistentPreRunE_value sample_host)) = (inl (enc, report), w'') /\
    Report_Task report = hd "default" ["build"] /\
    Runtime_TimeoutSeconds (Runtime (Rtx_Config rtx)) = Some n /\
    Report_Timeout report = (match Some 5 with Some t => t | None => n end).
Proof.
  apply (run_after_hook sample_host 8 (Some Background) _ plain_flags (Some 5) None
           ["build"] "" home_world); [reflexivity|reflexivity|].
  vm_compute. reflexivity.
Defined.
